(** * Store restocking assistant: inventory tools and transcript reducer

    A shallow embedding of [store_functions.py] (the in-memory inventory,
    shelf grids and storage requests with the eleven tool functions) and of
    the streaming reducer of [chat_ui.py] (tool bubbles, message deltas and
    the stream failure handler), followed by the properties proved of them. *)

From Stdlib Require Import ZArith String Ascii List Bool Lia ZifyBool Floats.
From Stdlib Require Import DecimalString.
From stdpp Require Import base option list strings gmap.

Local Open Scope string_scope.
Local Open Scope Z_scope.
Local Open Scope list_scope.
Set Warnings "-register-all".

(* ===================================================================== *)
(** ** Python values and string helpers *)
(* ===================================================================== *)

(** What [json.dumps] writes and [json.loads] reads: the tool functions build
    their results as dictionaries of this shape, and the reducer inspects the
    decoded output of a tool call.  Objects keep their keys in order. *)
Inductive json : Type :=
| JNull
| JBool (b : bool)
| JNum (n : Z)
| JStr (s : string)
| JArr (items : list json)
| JObj (fields : list (string * json)).

(** Strings are sequences of bytes here and of code points in Python.
    Slices and lengths count bytes: the two agree on ASCII text, which is
    all the store tables hold, and the emoji of the bubble titles are only
    ever concatenated.  The message a user submits is any text, so [strip]
    reads it code point by code point. *)
Module Py.

(** [str(n)] for an integer. *)
Definition str_of_Z (n : Z) : string := NilZero.string_of_int (Z.to_int n).

(** [s[:n]]: the first [n] characters. *)
Definition take (n : nat) (s : string) : string := String.substring 0 n s.

(** [n] copies of a blank. *)
Fixpoint blanks (n : nat) : string :=
  match n with
  | O => ""
  | S k => String " " (blanks k)
  end.

(** [s.ljust(n)]: pad with blanks on the right up to width [n]. *)
Definition ljust (n : nat) (s : string) : string :=
  s +:+ blanks (n - String.length s).

(** [sep.join(parts)]. *)
Fixpoint join (sep : string) (parts : list string) : string :=
  match parts with
  | [] => ""
  | [p] => p
  | p :: rest => p +:+ sep +:+ join sep rest
  end.

(** *** Code points

    Text that is not ASCII is held in UTF-8.  [chars] splits a string into
    its characters: a lead byte together with the continuation bytes it
    announces, and a byte that starts no such sequence on its own. *)
Definition byte (b : ascii) : Z := Z.of_nat (nat_of_ascii b).

Definition is_cont (b : ascii) : bool := (128 <=? byte b) && (byte b <? 192).

(** The number of bytes the lead byte [b] announces. *)
Definition announced (b : ascii) : nat :=
  if byte b <? 194 then 1%nat
  else if byte b <? 224 then 2%nat
  else if byte b <? 240 then 3%nat
  else if byte b <? 245 then 4%nat
  else 1%nat.

Fixpoint chars (s : string) : list string :=
  match s with
  | EmptyString => []
  | String b1 r1 =>
      let alone := String b1 "" :: chars r1 in
      match announced b1, r1 with
      | 2%nat, String b2 r2 =>
          if is_cont b2 then String b1 (String b2 "") :: chars r2 else alone
      | 3%nat, String b2 (String b3 r3) =>
          if is_cont b2 && is_cont b3
          then String b1 (String b2 (String b3 "")) :: chars r3
          else alone
      | 4%nat, String b2 (String b3 (String b4 r4)) =>
          if is_cont b2 && is_cont b3 && is_cont b4
          then String b1 (String b2 (String b3 (String b4 ""))) :: chars r4
          else alone
      | _, _ => alone
      end
  end.

(** The code point of one character; a byte on its own stands for the code
    point of its number. *)
Definition code (ch : string) : Z :=
  match ch with
  | String b1 EmptyString => byte b1
  | String b1 (String b2 EmptyString) =>
      (byte b1 - 192) * 64 + (byte b2 - 128)
  | String b1 (String b2 (String b3 EmptyString)) =>
      (byte b1 - 224) * 4096 + (byte b2 - 128) * 64 + (byte b3 - 128)
  | String b1 (String b2 (String b3 (String b4 EmptyString))) =>
      (byte b1 - 240) * 262144 + (byte b2 - 128) * 4096 +
      (byte b3 - 128) * 64 + (byte b4 - 128)
  | _ => 0
  end.

(** The code points of a string, in order. *)
Definition code_points (s : string) : list Z := map code (chars s).

(** The code points [str.strip] removes: the white space of Unicode. *)
Definition is_space (c : Z) : bool :=
  ((9 <=? c) && (c <=? 13)) || ((28 <=? c) && (c <=? 32)) ||
  (c =? 133) || (c =? 160) || (c =? 5760) ||
  ((8192 <=? c) && (c <=? 8202)) || (c =? 8232) || (c =? 8233) ||
  (c =? 8239) || (c =? 8287) || (c =? 12288).

Definition white (ch : string) : bool := is_space (code ch).

Fixpoint drop_white (l : list string) : list string :=
  match l with
  | ch :: rest => if white ch then drop_white rest else l
  | [] => []
  end.

Fixpoint concat (l : list string) : string :=
  match l with
  | ch :: rest => ch +:+ concat rest
  | [] => ""
  end.

(** [s.lstrip()] and [s.rstrip()] on the characters of a string. *)
Definition lstrip (l : list string) : list string := drop_white l.
Definition rstrip (l : list string) : list string := rev (drop_white (rev l)).

(** [s.strip()]. *)
Definition strip (s : string) : string := concat (rstrip (lstrip (chars s))).

(** Truth value of a string: the empty string is false. *)
Definition truthy (s : string) : bool :=
  match s with EmptyString => false | _ => true end.

(** Truth value of an optional string ([None] and [""] are both false). *)
Definition truthy_opt (o : option string) : bool :=
  match o with Some s => truthy s | None => false end.

(** [needle in haystack] on strings. *)
Fixpoint contains (needle haystack : string) : bool :=
  String.prefix needle haystack ||
  match haystack with
  | String _ rest => contains needle rest
  | EmptyString => false
  end.

(** [s.split(sep)[-1]]: what follows the last occurrence of [sep]
    (the whole of [s] when [sep] does not occur). *)
Fixpoint after_last (sep s : string) : string :=
  match s with
  | EmptyString => ""
  | String c rest =>
      if contains sep rest then after_last sep rest
      else if String.prefix sep s
           then String.substring (String.length sep) (String.length s) s
           else s
  end.

Definition newline : string := String (ascii_of_nat 10) "".

End Py.

(* ===================================================================== *)
(** ** Dictionaries in insertion order *)
(* ===================================================================== *)

(** The three store tables are Python dictionaries that the tools also
    enumerate ([inventory.items()], [shelf_layouts.keys()]), so the model
    keeps the entries in insertion order: a list of bindings in which a key
    is written where it already stands, and appended when it is new. *)
Module Dict.

Definition t (V : Type) : Type := list (string * V).

Section Ops.
Context {V : Type}.

(** [d.get(k)] *)
Fixpoint get (k : string) (d : t V) : option V :=
  match d with
  | [] => None
  | (k', v) :: rest => if String.eqb k k' then Some v else get k rest
  end.

(** [k in d] *)
Definition mem (k : string) (d : t V) : bool :=
  match get k d with Some _ => true | None => false end.

(** [d[k] = v] *)
Fixpoint set (k : string) (v : V) (d : t V) : t V :=
  match d with
  | [] => [(k, v)]
  | (k', v') :: rest =>
      if String.eqb k k' then (k, v) :: rest else (k', v') :: set k v rest
  end.

(** [list(d.keys())] *)
Definition keys (d : t V) : list string := map fst d.

End Ops.

End Dict.

(** [key in obj] for a decoded object, and [obj[key]]. *)
Definition has_key (key : string) (j : json) : bool :=
  match j with
  | JObj fields => Dict.mem key fields
  | _ => false
  end.

Definition field (key : string) (j : json) : option json :=
  match j with
  | JObj fields => Dict.get key fields
  | _ => None
  end.

(** A result is an error payload when it carries the key ["error"]. *)
Definition is_error (j : json) : Prop := has_key "error" j = true.

(* ===================================================================== *)
(** ** The inventory store *)
(* ===================================================================== *)

Module Store.

(** An item record.  [name] and [stock] are read with [item[...]]; the
    other keys are read with [item.get(...)] and may be missing. *)
Record Item : Type := mkItem {
  name : string;
  stock : Z;
  category : option string;
  location_id : option string;
  position : option Z
}.

Definition with_stock (n : Z) (it : Item) : Item :=
  {| name := name it; stock := n; category := category it;
     location_id := location_id it; position := position it |}.

(** A storage request as [request_item_from_storage] writes it. *)
Record Request : Type := mkRequest {
  item_id : string;
  quantity : Z;
  target_location : string;
  status : string
}.

Definition with_status (st : string) (r : Request) : Request :=
  {| item_id := item_id r; quantity := quantity r;
     target_location := target_location r; status := st |}.

(** A shelf unit is a list of levels, each a list of slots; a slot holds an
    item identifier or [None]. *)
Abbreviation Slot := (option string) (only parsing).
Abbreviation Layout := (list (list (option string))) (only parsing).

(** The module-level tables. *)
Record State : Type := mkState {
  inventory : Dict.t Item;
  shelf_layouts : Dict.t Layout;
  storage_requests : Dict.t Request
}.

Definition with_inventory (inv : Dict.t Item) (s : State) : State :=
  {| inventory := inv; shelf_layouts := shelf_layouts s;
     storage_requests := storage_requests s |}.

Definition with_shelf_layouts (sl : Dict.t Layout) (s : State) : State :=
  {| inventory := inventory s; shelf_layouts := sl;
     storage_requests := storage_requests s |}.

Definition with_storage_requests (rq : Dict.t Request) (s : State) : State :=
  {| inventory := inventory s; shelf_layouts := shelf_layouts s;
     storage_requests := rq |}.

(** Every tool runs against the tables and returns the value it serialises;
    a computation takes the state and gives the value with the new state. *)
Definition M (A : Type) : Type := State -> A * State.

#[export] Instance M_ret : MRet M := fun A a s => (a, s).
#[export] Instance M_bind : MBind M :=
  fun A B k m s => let (a, s') := m s in k a s'.

Definition read {A} (f : State -> A) : M A := fun s => (f s, s).
Definition write (f : State -> State) : M unit := fun s => (tt, f s).

Definition error (msg : string) : json := JObj [("error", JStr msg)].

Definition opt_str (o : option string) (default : string) : json :=
  match o with Some s => JStr s | None => JStr default end.

(** [check_item_stock(item_id)] *)
Definition check_item_stock (item_id : string) : M json :=
  item ← read (fun s => Dict.get item_id (inventory s));
  match item with
  | Some item =>
      mret (JObj [("item_id", JStr item_id); ("name", JStr (name item));
                 ("stock", JNum (stock item))])
  | None => mret (error ("Item ID " +:+ item_id +:+ " not found."))
  end.

(** [find_item_location(item_id)] *)
Definition find_item_location (item_id : string) : M json :=
  item ← read (fun s => Dict.get item_id (inventory s));
  match item with
  | Some item =>
      match location_id item with
      | Some loc =>
          if Py.truthy loc then
            mret (JObj [("item_id", JStr item_id); ("name", JStr (name item));
                       ("location_id", JStr loc);
                       ("position", match position item with
                                    | Some p => JNum p
                                    | None => JStr "N/A"
                                    end)])
          else mret (error ("Location for Item ID " +:+ item_id +:+ " not defined."))
      | None => mret (error ("Location for Item ID " +:+ item_id +:+ " not defined."))
      end
  | None => mret (error ("Item ID " +:+ item_id +:+ " not found."))
  end.

(** [update_inventory_count(item_id, quantity_change, reason)] *)
Definition update_inventory_count
    (item_id : string) (quantity_change : Z) (reason : string) : M json :=
  item ← read (fun s => Dict.get item_id (inventory s));
  match item with
  | Some item =>
      let original_stock := stock item in
      let added := original_stock + quantity_change in
      let new_stock := if added <? 0 then 0 else added in
      write (fun s =>
        with_inventory (Dict.set item_id (with_stock new_stock item) (inventory s)) s);;
      mret (JObj [("item_id", JStr item_id); ("name", JStr (name item));
                 ("previous_stock", JNum original_stock);
                 ("new_stock", JNum new_stock);
                 ("change", JNum quantity_change);
                 ("reason", JStr reason)])
  | None => mret (error ("Item ID " +:+ item_id +:+ " not found."))
  end.

(** One cell of the rendered table: the item's display name when the slot
    holds a known item, the raw identifier when it is unknown, ["Empty"]
    for a free slot; cut to 20 characters and padded to 20. *)
Definition render_slot (inv : Dict.t Item) (slot : Slot) : string :=
  match slot with
  | Some item_id =>
      if Py.truthy item_id then
        match Dict.get item_id inv with
        | Some item => Py.ljust 20 (Py.take 20 (name item))
        | None => Py.ljust 20 (Py.take 20 item_id)
        end
      else Py.ljust 20 "Empty"
  | None => Py.ljust 20 "Empty"
  end.

(** The rows of the table, numbered from [i + 1]. *)
Fixpoint render_rows (inv : Dict.t Item) (i : Z) (layout : Layout) : string :=
  match layout with
  | [] => ""
  | shelf :: rest =>
      "| Shelf " +:+ Py.str_of_Z (i + 1) +:+ " | " +:+
      Py.join " | " (map (render_slot inv) shelf) +:+ " |" +:+ Py.newline +:+
      render_rows inv (i + 1) rest
  end.

(** [get_shelf_layout(shelf_id)]: an empty layout is false in [if layout]
    and is reported like a missing shelf. *)
Definition get_shelf_layout (shelf_id : string) : M json :=
  layout ← read (fun s => Dict.get shelf_id (shelf_layouts s));
  inv ← read inventory;
  match layout with
  | Some ((_ :: _) as layout) =>
      let representation :=
        "### Layout for Shelf " +:+ shelf_id +:+ Py.newline +:+ Py.newline +:+
        "| Position | 1 | 2 | 3 |" +:+ Py.newline +:+
        "|----------|---|---|---|" +:+ Py.newline +:+
        render_rows inv 0 layout in
      mret (JObj [("shelf_id", JStr shelf_id);
                  ("layout_visual", JStr (Py.strip representation))])
  | _ => mret (error ("Shelf ID " +:+ shelf_id +:+ " not found."))
  end.

Definition request_json (r : Request) : json :=
  JObj [("item_id", JStr (item_id r)); ("quantity", JNum (quantity r));
        ("target_location", JStr (target_location r));
        ("status", JStr (status r))].

(** [request_item_from_storage(item_id, quantity, target_location_id)];
    [draw] is the value of [random.randint(1000, 9999)]. *)
Definition request_item_from_storage
    (item_id : string) (quantity : Z) (target_location_id : string)
    (draw : Z) : M json :=
  item ← read (fun s => Dict.get item_id (inventory s));
  known_shelf ← read (fun s => Dict.mem target_location_id (shelf_layouts s));
  match item with
  | None => mret (error ("Item ID " +:+ item_id +:+ " not found in inventory system."))
  | Some item =>
      if negb known_shelf then
        mret (error ("Target Shelf ID " +:+ target_location_id +:+ " does not exist."))
      else if quantity <=? 0 then
        mret (error "Quantity must be positive.")
      else
        let request_id := "REQ" +:+ Py.str_of_Z draw in
        write (fun s =>
          with_storage_requests
            (Dict.set request_id
               (mkRequest item_id quantity target_location_id "Pending")
               (storage_requests s)) s);;
        mret (JObj [("request_id", JStr request_id); ("status", JStr "Pending");
                    ("message",
                     JStr ("Request " +:+ request_id +:+ " created for " +:+
                           Py.str_of_Z quantity +:+ " of " +:+ name item +:+
                           " to shelf " +:+ target_location_id +:+ "."))])
  end.

(** The two thresholds of [check_delivery_status], as the doubles that the
    literals [0.7] and [0.5] denote. *)
Definition pending_threshold : float := 0x1.6666666666666p-1%float.
Definition transit_threshold : float := 0.5%float.

(** The status after one poll; [draw] is the value of [random.random()],
    consulted only by the branch whose status test passed. *)
Definition advance_status (st : string) (draw : float) : string :=
  if String.eqb st "Pending" && PrimFloat.ltb pending_threshold draw
  then "In Transit"
  else if String.eqb st "In Transit" && PrimFloat.ltb transit_threshold draw
  then "Delivered"
  else st.

(** [check_delivery_status(request_id)] *)
Definition check_delivery_status (request_id : string) (draw : float) : M json :=
  request ← read (fun s => Dict.get request_id (storage_requests s));
  match request with
  | Some request =>
      let request := with_status (advance_status (status request) draw) request in
      write (fun s =>
        with_storage_requests (Dict.set request_id request (storage_requests s)) s);;
      mret (JObj [("request_id", JStr request_id);
                  ("status", JStr (status request));
                  ("details", request_json request)])
  | None => mret (error ("Request ID " +:+ request_id +:+ " not found."))
  end.

(** The entries [get_items_needing_restock] collects, in table order. *)
Fixpoint low_stock_items
    (category : option string) (min_stock_level : Z) (inv : Dict.t Item)
    : list json :=
  match inv with
  | [] => []
  | (item_id, item_data) :: rest =>
      let keep :=
        (stock item_data <? min_stock_level) &&
        match category with
        | None => true
        | Some c =>
            match Store.category item_data with
            | Some c' => String.eqb c' c
            | None => false
            end
        end in
      let entry :=
        JObj [("item_id", JStr item_id); ("name", JStr (name item_data));
              ("current_stock", JNum (stock item_data));
              ("location_id", opt_str (location_id item_data) "N/A")] in
      if keep then entry :: low_stock_items category min_stock_level rest
      else low_stock_items category min_stock_level rest
  end.

(** [get_items_needing_restock(category, min_stock_level)] *)
Definition get_items_needing_restock
    (category : option string) (min_stock_level : Z) : M json :=
  inv ← read inventory;
  let items := low_stock_items category min_stock_level inv in
  mret (JObj [("low_stock_items", JArr items);
              ("count", JNum (Z.of_nat (length items)))]).

(** [shelf_layouts[shelf_id][shelf_index][position_index] = item_id], with
    both indices already checked to be in range. *)
Definition write_slot
    (shelf_id : string) (shelf_index position_index : Z) (item_id : string)
    (layouts : Dict.t Layout) : Dict.t Layout :=
  match Dict.get shelf_id layouts with
  | Some layout =>
      match layout !! Z.to_nat shelf_index with
      | Some shelf =>
          Dict.set shelf_id
            (<[Z.to_nat shelf_index :=
                 <[Z.to_nat position_index := Some item_id]> shelf]> layout)
            layouts
      | None => layouts
      end
  | None => layouts
  end.

Definition slot_label (shelf_id : string) (shelf_index position_index : Z) : string :=
  shelf_id +:+ "-S" +:+ Py.str_of_Z (shelf_index + 1) +:+
  "-P" +:+ Py.str_of_Z (position_index + 1).

(** Python's [0 <= i < len(l)]. *)
Definition in_range {A} (i : Z) (l : list A) : bool :=
  (0 <=? i) && (i <? Z.of_nat (length l)).

(** [mark_item_restocked(item_id, shelf_id, shelf_index, position_index, quantity)] *)
Definition mark_item_restocked
    (item_id shelf_id : string) (shelf_index position_index quantity : Z)
    : M json :=
  item ← read (fun s => Dict.get item_id (inventory s));
  layout ← read (fun s => Dict.get shelf_id (shelf_layouts s));
  match item, layout with
  | None, _ => mret (error ("Item ID " +:+ item_id +:+ " not found."))
  | Some _, None => mret (error ("Shelf ID " +:+ shelf_id +:+ " not found."))
  | Some _, Some layout =>
      if negb (in_range shelf_index layout) then
        mret (error ("Invalid shelf index " +:+ Py.str_of_Z shelf_index +:+
                     " for Shelf " +:+ shelf_id +:+ "."))
      else if negb (in_range position_index
                      (default [] (layout !! Z.to_nat shelf_index))) then
        mret (error ("Invalid position index " +:+ Py.str_of_Z position_index +:+
                     " for Shelf " +:+ shelf_id +:+ ", Shelf " +:+
                     Py.str_of_Z (shelf_index + 1) +:+ "."))
      else if quantity <=? 0 then
        mret (error "Quantity must be positive.")
      else
        write (fun s =>
          with_shelf_layouts
            (write_slot shelf_id shelf_index position_index item_id
               (shelf_layouts s)) s);;
        update_data ← update_inventory_count item_id quantity
          ("Restocked on " +:+ slot_label shelf_id shelf_index position_index);
        if has_key "error" update_data then
          mret (JObj [("error",
                       JStr ("Failed to update inventory: " +:+
                             match field "error" update_data with
                             | Some (JStr e) => e
                             | _ => ""
                             end));
                      ("layout_updated", JBool true)])
        else
          name_now ← read (fun s =>
            match Dict.get item_id (inventory s) with
            | Some it => name it
            | None => ""
            end);
          mret (JObj [("message",
                       JStr ("Successfully restocked " +:+ Py.str_of_Z quantity +:+
                             " of " +:+ name_now +:+ " (" +:+ item_id +:+ ") at " +:+
                             slot_label shelf_id shelf_index position_index +:+ "."));
                      ("inventory_update", update_data)])
  end.

(** [log_damaged_item(item_id, quantity, notes)] *)
Definition log_damaged_item
    (item_id : string) (quantity : Z) (notes : option string) : M json :=
  if quantity <=? 0 then mret (error "Quantity must be positive.")
  else
    update_data ← update_inventory_count item_id (- quantity)
      ("Damaged (" +:+
       (if Py.truthy_opt notes then default "" notes else "No details") +:+ ")");
    if has_key "error" update_data then
      mret (error ("Failed to log damage: " +:+
                   match field "error" update_data with
                   | Some (JStr e) => e
                   | _ => ""
                   end))
    else
      name_now ← read (fun s =>
        match Dict.get item_id (inventory s) with
        | Some it => name it
        | None => ""
        end);
      mret (JObj [("message",
                   JStr ("Successfully logged " +:+ Py.str_of_Z quantity +:+
                         " damaged units of " +:+ name_now +:+
                         " (" +:+ item_id +:+ ")."));
                  ("inventory_update", update_data)]).

(** [get_store_layout_overview()] *)
Definition get_store_layout_overview : M json :=
  shelf_ids ← read (fun s => Dict.keys (shelf_layouts s));
  mret (JObj [("shelf_ids", JArr (map JStr shelf_ids));
              ("count", JNum (Z.of_nat (length shelf_ids)))]).

Definition slot_eqb (a b : Slot) : bool :=
  match a, b with
  | Some x, Some y => String.eqb x y
  | None, None => true
  | _, _ => false
  end.

(** [shelf.index(x)]: the first position holding [x]; [None] stands for
    the [ValueError] of a shelf without [x]. *)
Fixpoint index_of (x : Slot) (shelf : list Slot) : option Z :=
  match shelf with
  | [] => None
  | y :: rest =>
      if slot_eqb y x then Some 0
      else match index_of x rest with
           | Some p => Some (p + 1)
           | None => None
           end
  end.

(** The row scan of [identify_and_restock_item_from_image] from row
    [r_idx] on, with [(shelf_idx, pos_idx)] as found so far: a row holding
    the item ends the scan; before any candidate is recorded, a row with a
    free slot records that slot and the scan goes on. *)
Fixpoint scan_rows
    (item_id : string) (rows : Layout) (r_idx : Z) (found : Z * Z) : Z * Z :=
  match rows with
  | [] => found
  | shelf :: rest =>
      match index_of (Some item_id) shelf with
      | Some p_idx => (r_idx, p_idx)
      | None =>
          if fst found =? -1 then
            match index_of None shelf with
            | Some p_idx => scan_rows item_id rest (r_idx + 1) (r_idx, p_idx)
            | None => scan_rows item_id rest (r_idx + 1) found
            end
          else scan_rows item_id rest (r_idx + 1) found
      end
  end.

(** The coordinates the scan settles on for [item_id] on shelf [shelf_id]. *)
Definition resolve_slot
    (item_id : string) (shelf_id : string) (layouts : Dict.t Layout) : Z * Z :=
  match Dict.get shelf_id layouts with
  | Some rows => scan_rows item_id rows 0 (-1, -1)
  | None => (-1, -1)
  end.

Definition error_text (j : json) : string :=
  match field "error" j with
  | Some (JStr e) => e
  | _ => ""
  end.

(** [identify_and_restock_item_from_image(image_data, quantity)] *)
Definition identify_and_restock_item_from_image
    (image_data : string) (quantity : Z) : M json :=
  let item_id := image_data in
  if negb (Py.truthy item_id) then
    mret (error "Could not identify item from image data (simulation).")
  else
    location_data ← find_item_location item_id;
    if has_key "error" location_data then
      mret (error ("Could not find location for identified item " +:+ item_id +:+
                   ": " +:+ error_text location_data))
    else
      match field "location_id" location_data with
      | Some (JStr shelf_id) =>
          coords ← read (fun s => resolve_slot item_id shelf_id (shelf_layouts s));
          let '(shelf_idx, pos_idx) := coords in
          if (shelf_idx =? -1) || (pos_idx =? -1) then
            mret (error ("Could not determine specific shelf/position for item " +:+
                         item_id +:+ " on shelf " +:+ shelf_id +:+
                         ". Layout might need update."))
          else
            restock_data ← mark_item_restocked item_id shelf_id shelf_idx pos_idx quantity;
            if has_key "error" restock_data then
              mret (error ("Failed to restock after identification: " +:+
                           error_text restock_data))
            else
              mret (JObj [("message",
                           JStr ("Simulated vision identification and restocking complete for " +:+
                                 item_id +:+ "."));
                          ("restock_details", restock_data)])
      | _ =>
          mret (error ("Could not determine specific shelf/position for item " +:+
                       item_id +:+ " on shelf None. Layout might need update."))
      end.

(** A call of one of the eleven tools by the agent.  The draws of the
    random generator that a call consumes are part of the call; optional
    arguments left out take the defaults of the signatures. *)
Inductive tool_call : Type :=
| CheckItemStock (item_id : string)
| FindItemLocation (item_id : string)
| GetShelfLayout (shelf_id : string)
| RequestItemFromStorage (item_id : string) (quantity : Z)
    (target_location_id : string) (draw : Z)
| CheckDeliveryStatus (request_id : string) (draw : float)
| GetItemsNeedingRestock (category : option string) (min_stock_level : option Z)
| UpdateInventoryCount (item_id : string) (quantity_change : Z)
    (reason : option string)
| MarkItemRestocked (item_id shelf_id : string)
    (shelf_index position_index quantity : Z)
| LogDamagedItem (item_id : string) (quantity : Z) (notes : option string)
| GetStoreLayoutOverview
| IdentifyAndRestockItemFromImage (image_data : string) (quantity : Z).

Definition run (c : tool_call) : M json :=
  match c with
  | CheckItemStock i => check_item_stock i
  | FindItemLocation i => find_item_location i
  | GetShelfLayout sh => get_shelf_layout sh
  | RequestItemFromStorage i q t d => request_item_from_storage i q t d
  | CheckDeliveryStatus r d => check_delivery_status r d
  | GetItemsNeedingRestock c m => get_items_needing_restock c (default 5 m)
  | UpdateInventoryCount i q r => update_inventory_count i q (default "Restock" r)
  | MarkItemRestocked i sh si pi q => mark_item_restocked i sh si pi q
  | LogDamagedItem i q n => log_damaged_item i q n
  | GetStoreLayoutOverview => get_store_layout_overview
  | IdentifyAndRestockItemFromImage img q => identify_and_restock_item_from_image img q
  end.

(** The tools that take an item identifier, with the identifier. *)
Definition item_argument (c : tool_call) : option string :=
  match c with
  | CheckItemStock i | FindItemLocation i | RequestItemFromStorage i _ _ _
  | UpdateInventoryCount i _ _ | MarkItemRestocked i _ _ _ _
  | LogDamagedItem i _ _ | IdentifyAndRestockItemFromImage i _ => Some i
  | _ => None
  end.

(** The five query tools. *)
Definition read_only (c : tool_call) : bool :=
  match c with
  | CheckItemStock _ | FindItemLocation _ | GetShelfLayout _
  | GetItemsNeedingRestock _ _ | GetStoreLayoutOverview => true
  | _ => false
  end.

(** *** The tables the module starts with *)

Definition sku (nm : string) (st : Z) (cat loc : string) (pos : Z) : Item :=
  mkItem nm st (Some cat) (Some loc) (Some pos).

Definition initial_inventory : Dict.t Item :=
  [ ("SKU001", sku "Contoso Cereal" 15 "Breakfast" "A1" 1);
    ("SKU002", sku "Northwind Oatmeal" 12 "Breakfast" "A1" 2);
    ("SKU003", sku "Adventure Granola" 8 "Breakfast" "A2" 0);
    ("SKU004", sku "Fabrikam Pancake Mix" 10 "Breakfast" "A2" 1);
    ("SKU010", sku "Fabrikam Milk (1L)" 20 "Dairy" "B1" 0);
    ("SKU011", sku "Contoso Yogurt" 18 "Dairy" "B1" 1);
    ("SKU012", sku "Adventure Cheese" 15 "Dairy" "B2" 0);
    ("SKU013", sku "Northwind Butter" 12 "Dairy" "B2" 1);
    ("SKU020", sku "Northwind Cola (Can)" 48 "Drinks" "C1" 0);
    ("SKU021", sku "Adventure Water (1L)" 36 "Drinks" "C1" 1);
    ("SKU022", sku "Fabrikam Juice (2L)" 15 "Drinks" "C2" 0);
    ("SKU023", sku "Contoso Energy Drink" 24 "Drinks" "C2" 1);
    ("SKU030", sku "Adatum Apples (Bag)" 20 "Produce" "P1" 0);
    ("SKU031", sku "Fabrikam Bananas" 25 "Produce" "P1" 1);
    ("SKU032", sku "Contoso Oranges (Net)" 15 "Produce" "P2" 0);
    ("SKU033", sku "Northwind Carrots" 18 "Produce" "P2" 1);
    ("SKU040", sku "Woodgrove Cleaning Spray" 14 "Household" "H1" 0);
    ("SKU041", sku "Adventure Paper Towels" 22 "Household" "H1" 1);
    ("SKU042", sku "Contoso Dish Soap" 16 "Household" "H2" 0);
    ("SKU043", sku "Fabrikam Laundry Det." 10 "Household" "H2" 1) ].

(** The grid shared by most shelf units: two products [a] and [b] on the
    upper three levels, the bottom level given by [bottom]. *)
Definition grid (a b : string) (bottom : list Slot) : Layout :=
  [ [Some a; Some a; Some b];
    [Some a; Some b; Some b];
    [Some a; Some b; None];
    bottom ].

Definition initial_shelf_layouts : Dict.t Layout :=
  [ ("A1", grid "SKU001" "SKU002" [None; None; None]);
    ("A2", [ [Some "SKU003"; Some "SKU003"; Some "SKU004"];
             [Some "SKU003"; Some "SKU004"; Some "SKU004"];
             [Some "SKU004"; None; None];
             [None; None; None] ]);
    ("B1", grid "SKU010" "SKU011" [Some "SKU010"; None; None]);
    ("B2", grid "SKU012" "SKU013" [None; None; None]);
    ("C1", grid "SKU020" "SKU021" [Some "SKU020"; Some "SKU021"; None]);
    ("C2", grid "SKU022" "SKU023" [None; None; None]);
    ("C3", grid "SKU022" "SKU023" [None; None; None]);
    ("P1", grid "SKU030" "SKU031" [None; None; None]);
    ("P2", grid "SKU032" "SKU033" [None; None; None]);
    ("H1", grid "SKU040" "SKU041" [Some "SKU040"; None; None]);
    ("H2", grid "SKU042" "SKU043" [Some "SKU042"; None; None]) ].

Definition initial_state : State :=
  mkState initial_inventory initial_shelf_layouts [].

End Store.

(* ===================================================================== *)
(** ** The transcript reducer *)
(* ===================================================================== *)

Module Chat.

(** A transcript entry.  [content] is text in every entry the reducer
    writes from text; a tool bubble takes whatever value the decoded tool
    output carries under the selected key.  [metadata] is the dictionary of
    a tool bubble (keys ["title"], ["id"], ["status"]); [None] and the
    empty dictionary, which the code does not tell apart, are both the
    empty map. *)
Record ChatMessage : Type := mkChatMessage {
  role : string;
  content : json;
  metadata : gmap string string
}.

Definition text_message (r text : string) : ChatMessage :=
  mkChatMessage r (JStr text) ∅.

(** [msg.metadata] as a truth value. *)
Definition has_metadata (msg : ChatMessage) : bool :=
  negb (bool_decide (metadata msg = ∅)).

(** An entry of the table of calls in flight. *)
Record ToolInfo : Type := mkToolInfo {
  name : string;
  arguments : string;
  status : string
}.

(** What one turn mutates: the transcript and the table of calls in flight. *)
Record State : Type := mkState {
  conversation : list ChatMessage;
  active_tool_calls : gmap string ToolInfo
}.

(** Processing one stream item either completes or raises; what was
    written before the exception stays written. *)
Definition R (A : Type) : Type := State -> option A * State.

#[export] Instance R_ret : MRet R := fun A a s => (Some a, s).
#[export] Instance R_bind : MBind R :=
  fun A B k m s =>
    match m s with
    | (Some a, s') => k a s'
    | (None, s') => (None, s')
    end.

Definition raise {A} : R A := fun s => (None, s).
Definition read {A} (f : State -> A) : R A := fun s => (Some (f s), s).
Definition set_conversation (conv : list ChatMessage) : R unit :=
  fun s => (Some tt, mkState conv (active_tool_calls s)).
Definition set_active (tbl : gmap string ToolInfo) : R unit :=
  fun s => (Some tt, mkState (conversation s) tbl).

(** [for x in l: body(x)] *)
Fixpoint for_each {A} (body : A -> R unit) (l : list A) : R unit :=
  match l with
  | [] => mret tt
  | x :: rest => body x;; for_each body rest
  end.

Definition tool_titles : Dict.t string :=
  [
    ("check_item_stock", "🔍 Checking Stock");
    ("find_item_location", "📍 Finding Location");
    ("get_shelf_layout", "🗄️ Viewing Shelf Layout");
    ("request_item_from_storage", "📦 Requesting from Storage");
    ("check_delivery_status", "🚚 Checking Delivery");
    ("get_items_needing_restock", "⚠️ Finding Low Stock");
    ("update_inventory_count", "🔢 Updating Inventory");
    ("mark_item_restocked", "✅ Marking Restocked");
    ("log_damaged_item", "🚫 Logging Damage");
    ("get_store_layout_overview", "🏪 Viewing Store Layout");
    ("identify_and_restock_item_from_image", "📷 'Scanning' Item (Simulated)");
    ("bing_grounding", "🔎 Searching Web Sources")
  ].

Definition tool_icons_status : Dict.t string :=
  [
    ("pending", "⏳");
    ("done", "✅");
    ("error", "❌")
  ].

(** The stable key of the bubble of a call. *)
Definition bubble_key (call_id : option string) : string :=
  if Py.truthy_opt call_id then "tool-" +:+ default "" call_id else "tool-noid".

(** The test of the backward scan: metadata present with this ["id"]. *)
Definition is_bubble (bubble_id : string) (msg : ChatMessage) : bool :=
  has_metadata msg && bool_decide (metadata msg !! "id" = Some bubble_id).

(** The three writes of the update branch. *)
Definition update_bubble (title status : string) (content : json)
    (msg : ChatMessage) : ChatMessage :=
  mkChatMessage (role msg) content
    (<["status" := status]> (<["title" := title]> (metadata msg))).

(** [for msg in reversed(l): if p(msg): <mutate msg>; break]: rewrites the
    entry nearest the end that passes the test; [None] when none does. *)
Fixpoint update_last {A} (p : A -> bool) (f : A -> A) (l : list A)
    : option (list A) :=
  match l with
  | [] => None
  | x :: rest =>
      match update_last p f rest with
      | Some rest' => Some (x :: rest')
      | None => if p x then Some (f x :: rest) else None
      end
  end.

(** [content[:50]] inside the debug print: defined on text and lists,
    an exception on every other value. *)
Definition sliceable (c : json) : bool :=
  match c with
  | JStr _ | JArr _ => true
  | _ => false
  end.

(** [create_tool_bubble(tool_name, content, call_id, status)] *)
Definition create_tool_bubble
    (tool_name : option string) (content : json) (call_id : option string)
    (status : string) : R unit :=
  match tool_name with
  | None => mret tt
  | Some tool_name =>
      let title_prefix :=
        default ("屏ｸ" +:+ tool_name) (Dict.get tool_name tool_titles) in
      let status_icon := default "" (Dict.get status tool_icons_status) in
      let title := status_icon +:+ " " +:+ title_prefix in
      let bubble_id := bubble_key call_id in
      conv ← read conversation;
      match update_last (is_bubble bubble_id)
              (update_bubble title status content) conv with
      | Some conv' =>
          if sliceable content then set_conversation conv' else raise
      | None =>
          if sliceable content then
            set_conversation
              (conv ++ [mkChatMessage "assistant" content
                          (<["status" := status]>
                             (<["id" := bubble_id]> {["title" := title]}))])
          else raise
      end
  end.

(** *** Stream items *)

(** The [function] field of a tool call inside a step delta: [name] and
    [arguments] are read with [get] and [in] and may be missing. *)
Record FunctionDelta : Type := mkFunctionDelta {
  fd_name : option string;
  fd_arguments : option string
}.

(** A tool call of a step delta.  [tcd_function = None] stands for a
    missing or empty [function]; [tcd_requesturl] is the request URL of a
    search call, [""] when there is none. *)
Record ToolCallDelta : Type := mkToolCallDelta {
  tcd_id : option string;
  tcd_type : option string;
  tcd_function : option FunctionDelta;
  tcd_requesturl : string
}.

(** A tool call of a finished step: [tc_function = None] when the call has
    no [function] attribute, otherwise the [output] of the function. *)
Record ToolCall : Type := mkToolCall {
  tc_id : option string;
  tc_type : option string;
  tc_function : option (option string)
}.

(** The data of a [run_step] item; [rs_last_error] is the message of a
    non-empty [last_error]. *)
Record RunStep : Type := mkRunStep {
  rs_type : option string;
  rs_tool_calls : list ToolCall;
  rs_status : string;
  rs_last_error : option string
}.

(** A finished message as [on_thread_message] reads it: its role, its
    status, and the text value of each content part ([None] for a part
    without text). *)
Record ThreadMessage : Type := mkThreadMessage {
  tm_role : string;
  tm_status : string;
  tm_content : list (option string)
}.

(** The items of the stream, by event type.  [thread_message] is an event
    that carries a message (created, in progress, completed); the loop has
    no branch for it, the registered handler has. *)
Inductive Event : Type :=
| step_delta (details_type : option string) (tool_calls : list ToolCallDelta)
| run_step (step : RunStep)
| message_delta (id : string) (chunks : list (option string))
| thread_message (message : ThreadMessage)
| thread_run (run_status : option string)
| other_event (event_type : string).

Definition opt_is (expected : string) (o : option string) : bool :=
  match o with
  | Some s => String.eqb s expected
  | None => false
  end.

(** [s[:n]] followed by an ellipsis when [s] is longer. *)
Definition truncated (n : nat) (s : string) : string :=
  Py.take n s +:+ (if (n <? String.length s)%nat then "..." else "").

(** [key in v] on a decoded value; [None] is the [TypeError] of a value
    that is not a container. *)
Definition py_in (key : string) (v : json) : option bool :=
  match v with
  | JObj fields => Some (Dict.mem key fields)
  | JArr elems =>
      Some (existsb (fun e => match e with
                              | JStr s => String.eqb s key
                              | _ => false
                              end) elems)
  | JStr s => Some (Py.contains key s)
  | _ => None
  end.

(** [v[key]] with a string key: defined on objects only. *)
Definition py_getitem (v : json) (key : string) : option json :=
  match v with
  | JObj fields => Dict.get key fields
  | _ => None
  end.

(** The concatenated text of the chunks of a message delta. *)
Fixpoint chunks_text (chunks : list (option string)) : string :=
  match chunks with
  | [] => ""
  | Some v :: rest => v +:+ chunks_text rest
  | None :: rest => chunks_text rest
  end.

(** [c += text] on the content of an entry. *)
Definition content_iadd (c : json) (text : string) : option json :=
  match c with
  | JStr t => Some (JStr (t +:+ text))
  | JArr elems =>
      Some (JArr (elems ++
                  map (fun ch => JStr (String ch "")) (list_ascii_of_string text)))
  | _ => None
  end.

Definition lift {A} (o : option A) : R A :=
  match o with
  | Some a => mret a
  | None => raise
  end.

(** *** The registered event handler *)

(** The fields of [EventHandler] that [on_message_delta] uses. *)
Record EventHandler : Type := mkEventHandler {
  _current_message_id : option string;
  _accumulated_text : string
}.

Definition plain_assistant (msg : ChatMessage) : bool :=
  String.eqb (role msg) "assistant" && negb (has_metadata msg).

Definition set_content (c : json) (msg : ChatMessage) : ChatMessage :=
  mkChatMessage (role msg) c (metadata msg).

(** [EventHandler.on_message_delta(delta)] on the handler fields and the
    transcript it shares with the generator. *)
Definition on_message_delta
    (delta_id : string) (chunks : list (option string))
    (h : EventHandler) (conv : list ChatMessage)
    : EventHandler * list ChatMessage :=
  let h :=
    if bool_decide (_current_message_id h = Some delta_id) then h
    else mkEventHandler (Some delta_id) "" in
  let partial_text := chunks_text chunks in
  if Py.truthy partial_text then
    let acc := _accumulated_text h +:+ partial_text in
    let h := mkEventHandler (_current_message_id h) acc in
    match conv with
    | [] => (h, conv)
    | _ :: _ =>
        match update_last plain_assistant (set_content (JStr acc)) conv with
        | Some conv' => (h, conv')
        | None =>
            match last conv with
            | Some last_msg =>
                if negb (String.eqb (role last_msg) "assistant") || has_metadata last_msg
                then (h, conv ++ [text_message "assistant" acc])
                else (h, conv)
            | None => (h, conv ++ [text_message "assistant" acc])
            end
        end
    end
  else (h, conv).

(** [c == text] for the content of an entry. *)
Definition content_is (c : json) (text : string) : bool :=
  match c with
  | JStr t => String.eqb t text
  | _ => false
  end.

(** [EventHandler.on_thread_message(message)] on the handler fields and the
    shared transcript. *)
Definition on_thread_message
    (message : ThreadMessage) (h : EventHandler) (conv : list ChatMessage)
    : EventHandler * list ChatMessage :=
  if String.eqb (tm_role message) "assistant" &&
     String.eqb (tm_status message) "completed"
  then
    let final_content := chunks_text (tm_content message) in
    let conv' :=
      match last conv with
      | None => conv
      | Some last_msg =>
          if String.eqb (role last_msg) "assistant" && negb (has_metadata last_msg) then
            if negb (content_is (content last_msg) final_content)
            then removelast conv ++ [set_content (JStr final_content) last_msg]
            else conv
          else if Py.truthy final_content then
            if negb (String.eqb (role last_msg) "assistant") ||
               negb (content_is (content last_msg) final_content)
            then conv ++ [text_message "assistant" final_content]
            else conv
          else conv
      end in
    (mkEventHandler None "", conv')
  else (h, conv).

(** What the session does with an event before it hands it to the loop:
    [event_handler] was given to [create_stream], and the library calls the
    method that belongs to the kind of the event's data, logging and
    dropping an exception the method raises.  [on_run_step_delta],
    [on_run_step] and [on_thread_run] print and keep a table of their own;
    they write the transcript only through [create_tool_bubble_fn], which
    is never set, so they leave the transcript and the two fields above as
    they are. *)
Definition handle (item : Event) (h : EventHandler) (conv : list ChatMessage)
    : EventHandler * list ChatMessage :=
  match item with
  | message_delta id chunks => on_message_delta id chunks h conv
  | thread_message message => on_thread_message message h conv
  | step_delta _ _ | run_step _ | thread_run _ | other_event _ => (h, conv)
  end.

(** [EventHandler(tracer)] *)
Definition new_handler : EventHandler := mkEventHandler None "".

Section Reducer.

(** [json.loads], with [None] for [JSONDecodeError], and the text an
    f-string gives for a decoded value that is not a string. *)
Variable json_loads : string -> option json.
Variable py_repr : json -> string.

Definition py_format (v : json) : string :=
  match v with
  | JStr s => s
  | _ => py_repr v
  end.

(** The text shown for the output of a completed function call; [None]
    when one of the membership tests or subscripts raises. *)
Definition completion_message (func_name output_str : string) : option json :=
  match json_loads output_str with
  | None => Some (JStr ("Completed. Output (non-JSON): " +:+ truncated 100 output_str))
  | Some output =>
      is_layout ← (if String.eqb func_name "get_shelf_layout"
                   then py_in "layout_visual" output else Some false);
      if is_layout : bool then py_getitem output "layout_visual"
      else
        has_message ← py_in "message" output;
        if has_message : bool then py_getitem output "message"
        else
          has_error ← py_in "error" output;
          if has_error : bool then
            e ← py_getitem output "error";
            Some (JStr ("Error: " +:+ py_format e))
          else Some (JStr ("Completed. Output: " +:+ truncated 100 output_str))
  end.

Definition lookup_call (call_id : option string) (tbl : gmap string ToolInfo)
    : option ToolInfo :=
  call_id ≫= (fun c => tbl !! c).

(** [tool_info.get("name") or "unknown_function"] *)
Definition tracked_name (call_id : option string) (tbl : gmap string ToolInfo)
    : string :=
  match lookup_call call_id tbl with
  | Some info => if Py.truthy (name info) then name info else "unknown_function"
  | None => "unknown_function"
  end.

(** [if call_id in active_tool_calls: del active_tool_calls[call_id]] *)
Definition forget_call (call_id : option string) : R unit :=
  tbl ← read active_tool_calls;
  match call_id with
  | Some c => set_active (delete c tbl)
  | None => mret tt
  end.

(** The body of the loop over the tool calls of a step delta. *)
Definition on_tool_call_delta (tcall : ToolCallDelta) : R unit :=
  let call_id := tcd_id tcall in
  match tcd_function tcall with
  | Some fn =>
      if opt_is "function" (tcd_type tcall) then
        match fd_name fn, call_id with
        | Some func_name, Some cid =>
            if Py.truthy func_name && Py.truthy cid then
              tbl ← read active_tool_calls;
              (if bool_decide (tbl !! cid = None) then
                 set_active (<[cid := mkToolInfo func_name "" "pending"]> tbl);;
                 create_tool_bubble (Some func_name) (JStr "Running...") call_id "pending"
               else mret tt);;
              match fd_arguments fn with
              | Some args =>
                  tbl ← read active_tool_calls;
                  match tbl !! cid with
                  | Some info =>
                      set_active
                        (<[cid := mkToolInfo (name info) (arguments info +:+ args)
                                    (status info)]> tbl)
                  | None => raise
                  end
              | None => mret tt
              end
            else mret tt
        | _, _ => mret tt
        end
      else if opt_is "bing_grounding" (tcd_type tcall) then
        let search_query := tcd_requesturl tcall in
        if Py.contains "?q=" search_query then
          let query := Py.after_last "?q=" search_query in
          create_tool_bubble (Some "bing_grounding")
            (JStr ("Searching for '" +:+ query +:+ "'...")) call_id "pending"
        else mret tt
      else mret tt
  | None =>
      if opt_is "bing_grounding" (tcd_type tcall) then
        let search_query := tcd_requesturl tcall in
        if Py.contains "?q=" search_query then
          let query := Py.after_last "?q=" search_query in
          create_tool_bubble (Some "bing_grounding")
            (JStr ("Searching for '" +:+ query +:+ "'...")) call_id "pending"
        else mret tt
      else mret tt
  end.

(** The body of the loop over the tool calls of a [run_step] item. *)
Definition on_tool_call_end (step : RunStep) (tcall : ToolCall) : R unit :=
  let call_id := tc_id tcall in
  tbl ← read active_tool_calls;
  let func_name := tracked_name call_id tbl in
  if String.eqb (rs_status step) "completed" then
    match tc_function tcall with
    | Some (Some output_str) =>
        if opt_is "function" (tc_type tcall) && Py.truthy output_str then
          message ← lift (completion_message func_name output_str);
          create_tool_bubble (Some func_name) message call_id "done";;
          forget_call call_id
        else mret tt
    | _ => mret tt
    end
  else if String.eqb (rs_status step) "failed" then
    let error_message :=
      "Tool call failed: " +:+ func_name +:+
      match rs_last_error step with
      | Some msg => " - " +:+ msg
      | None => ""
      end in
    create_tool_bubble (Some func_name) (JStr error_message) call_id "error";;
    forget_call call_id
  else mret tt.

(** The [thread.message.delta] branch. *)
Definition on_message_text (chunks : list (option string)) : R unit :=
  let text := chunks_text chunks in
  if Py.truthy text then
    conv ← read conversation;
    match last conv with
    | Some last_msg =>
        if negb (String.eqb (role last_msg) "assistant") || has_metadata last_msg then
          set_conversation (conv ++ [text_message "assistant" text])
        else
          c ← lift (content_iadd (content last_msg) text);
          set_conversation
            (removelast conv ++
             [mkChatMessage (role last_msg) c (metadata last_msg)])
    | None => set_conversation (conv ++ [text_message "assistant" text])
    end
  else mret tt.

(** The body of [for item in stream], up to the [yield]. *)
Definition process_event (item : Event) : R unit :=
  match item with
  | step_delta details_type tool_calls =>
      if opt_is "tool_calls" details_type
      then for_each on_tool_call_delta tool_calls
      else mret tt
  | run_step step =>
      if opt_is "tool_calls" (rs_type step)
      then for_each (on_tool_call_end step) (rs_tool_calls step)
      else mret tt
  | message_delta _ chunks => on_message_text chunks
  | thread_message _ => mret tt
  | thread_run _ => mret tt
  | other_event _ => mret tt
  end.

(** The loop over the items: the session first runs the registered
    handler on the event, on the transcript it shares with the loop, then
    the body of the loop runs; the transcript is yielded after every item
    that was processed to the end; an item that raised is logged and
    skipped, and what it had written stays. *)
Fixpoint consume (items : list Event) (h : EventHandler) (s : State)
    : list (list ChatMessage) * (EventHandler * State) :=
  match items with
  | [] => ([], (h, s))
  | item :: rest =>
      let (h', conv') := handle item h (conversation s) in
      match process_event item (mkState conv' (active_tool_calls s)) with
      | (Some _, s') =>
          let (yields, end_state) := consume rest h' s' in
          (conversation s' :: yields, end_state)
      | (None, s') => consume rest h' s'
      end
  end.

(** What iterating the session delivers: the items handed over, and the
    text of the exception that ended the iteration, if one did. *)
Record Stream : Type := mkStream {
  items : list Event;
  failure : option string
}.

Definition stream_error_entry (ex : string) : ChatMessage :=
  text_message "assistant"
    ("An error occurred while processing your request: " +:+ ex).

(** The [try ... except Exception as stream_ex] around the loop, with the
    final [yield]: all the transcripts yielded, the last one being the
    final transcript. *)
Definition run_stream (stream : Stream) (conv : list ChatMessage)
    : list (list ChatMessage) :=
  let (yields, end_state) := consume (items stream) new_handler (mkState conv ∅) in
  let s := snd end_state in
  let final : list ChatMessage :=
    match failure stream with
    | Some ex => conversation s ++ [stream_error_entry ex]
    | None => conversation s
    end in
  yields ++ [final].

(** The outcome of [create_message]. *)
Inductive Send : Type :=
| Sent
| SendFailed (ex : string).

(** [azure_store_chat(user_message, history)]: the transcripts yielded and
    the time of the last accepted submission afterwards. *)
Definition azure_store_chat
    (current_time last_message_sent_time : float)
    (user_message : string) (history : list ChatMessage)
    (send : Send) (stream : Stream)
    : list (list ChatMessage) * float :=
  if PrimFloat.ltb (PrimFloat.sub current_time last_message_sent_time) 2%float
  then ([history], last_message_sent_time)
  else if negb (Py.truthy (Py.strip user_message))
  then ([history], last_message_sent_time)
  else
    let conversation : list ChatMessage :=
      history ++ [text_message "user" user_message] in
    match send with
    | SendFailed ex =>
        ([conversation;
          conversation ++ [text_message "assistant" ("Error sending message: " +:+ ex)]],
         current_time)
    | Sent => (conversation :: run_stream stream conversation, current_time)
    end.

End Reducer.

End Chat.

(* ===================================================================== *)
(** ** The example buttons *)
(* ===================================================================== *)

Module Main.

(** [set_example_question(question)] of [main.py]: the text put into the
    input box for the label of an example button. *)
Definition set_example_question (question : string) : string :=
  if Py.contains "Check stock for" question then question
  else if Py.contains "Where does" question then question
  else if Py.contains "Show layout for shelf" question then question
  else if Py.contains "Request 10 SKU004" question then
    "I need 10 units of SKU004 delivered to shelf C3."
  else if Py.contains "Which items are low" question then question
  else if Py.contains "Mark 5 SKU002" question then
    "I just put 5 units of SKU002 on shelf A1, shelf 1, position 2."
  else if Py.contains "Log 1 damaged" question then
    "I found 1 damaged unit of SKU005."
  else if Py.contains "'Scan' SKU001" question then
    "I scanned SKU001 with my device, I restocked 5 units."
  else question.

End Main.

(* ===================================================================== *)
(** ** Vocabulary of the specification *)
(* ===================================================================== *)

Module Spec.
Import Store.

(** The arguments [mark_item_restocked] accepts, in the words of its
    contract: a known item, a known shelf, both indices within the grid,
    and a positive quantity. *)
Definition valid_restock
    (s : State) (item_id shelf_id : string)
    (shelf_index position_index quantity : Z) : bool :=
  Dict.mem item_id (inventory s) &&
  match Dict.get shelf_id (shelf_layouts s) with
  | Some layout =>
      (0 <=? shelf_index) && (shelf_index <? Z.of_nat (length layout)) &&
      match layout !! Z.to_nat shelf_index with
      | Some row => (0 <=? position_index) && (position_index <? Z.of_nat (length row))
      | None => false
      end
  | None => false
  end &&
  (0 <? quantity).

(** The content of slot [(shelf_index, position_index)] of a shelf unit;
    [None] outside the grid. *)
Definition slot_at
    (layouts : Dict.t Layout) (shelf_id : string)
    (shelf_index position_index : Z) : option Slot :=
  layout ← Dict.get shelf_id layouts;
  row ← layout !! Z.to_nat shelf_index;
  row !! Z.to_nat position_index.

(** The three statuses in their order. *)
Definition status_rank (st : string) : option nat :=
  if String.eqb st "Pending" then Some 0%nat
  else if String.eqb st "In Transit" then Some 1%nat
  else if String.eqb st "Delivered" then Some 2%nat
  else None.

(** [(r, p)] is the first slot holding [x] when the levels are read in
    order and each level from its first position: level [r] holds [x] at
    [p] and at no earlier position, and no earlier level holds [x]. *)
Definition first_slot (x : Slot) (rows : Layout) (r p : nat) : Prop :=
  (exists row, rows !! r = Some row /\ row !! p = Some x /\
               forall p', (p' < p)%nat -> row !! p' <> Some x) /\
  (forall r' row', (r' < r)%nat -> rows !! r' = Some row' -> x ∉ row').

(** No level holds [x]. *)
Definition nowhere (x : Slot) (rows : Layout) : Prop :=
  forall row, row ∈ rows -> x ∉ row.

(** The image restock hands over to [mark_item_restocked] at level [r],
    position [p]: it ends in the state that call ends in, fails when that
    call fails and otherwise embeds its result. *)
Definition delegates_restock
    (s : State) (image_data : string) (quantity : Z)
    (shelf_id : string) (r p : nat) : Prop :=
  let call := identify_and_restock_item_from_image image_data quantity s in
  let restock :=
    mark_item_restocked image_data shelf_id (Z.of_nat r) (Z.of_nat p) quantity s in
  snd call = snd restock /\
  (has_key "error" (fst restock) = true -> is_error (fst call)) /\
  (has_key "error" (fst restock) = false ->
   has_key "error" (fst call) = false /\
   field "restock_details" (fst call) = Some (fst restock)).

End Spec.

Module ChatSpec.
Import Chat.

(** The bubbles of a transcript that carry a given key, in order. *)
Definition bubbles (key : string) (conv : list ChatMessage) : list ChatMessage :=
  List.filter (is_bubble key) conv.

(** The transcript holds exactly one bubble with this key, marked done. *)
Definition done_once (key : string) (conv : list ChatMessage) : Prop :=
  exists m, bubbles key conv = [m] /\ metadata m !! "status" = Some "done".

(** The bubble [create_tool_bubble] appends for a key that is new. *)
Definition new_bubble (title key st : string) (c : json) : ChatMessage :=
  mkChatMessage "assistant" c
    (<["status" := st]> (<["id" := key]> {["title" := title]})).

(** The title [create_tool_bubble] composes. *)
Definition bubble_title (tool_name st : string) : string :=
  default "" (Dict.get st tool_icons_status) +:+ " " +:+
  default ("屏ｸ" +:+ tool_name) (Dict.get tool_name tool_titles).

(** A completed call that the generator shows: a function call with an
    output that is not empty, whose bubble has key [k]. *)
Definition shown_as (k : string) (tcall : ToolCall) : Prop :=
  tc_type tcall = Some "function" /\
  (exists output_str, tc_function tcall = Some (Some output_str) /\
                      Py.truthy output_str = true) /\
  bubble_key (tc_id tcall) = k.

(** The entry that text deltas are written to by the registered handler: the
    plain assistant entry nearest the end. *)
Definition open_entry (conv : list ChatMessage) : option ChatMessage :=
  last (List.filter plain_assistant conv).

(** A [run_step] item reporting one finished function call. *)
Definition completed_call (call_id output : string) : Event :=
  run_step (mkRunStep (Some "tool_calls")
              [mkToolCall (Some call_id) (Some "function") (Some (Some output))]
              "completed" None).

(** A [run_step] item reporting one finished web search. *)
Definition completed_search (call_id : string) : Event :=
  run_step (mkRunStep (Some "tool_calls")
              [mkToolCall (Some call_id) (Some "bing_grounding") None]
              "completed" None).

(** A decoder for outputs that are not JSON, such as the text [OK]. *)
Definition not_json (output : string) : option json := None.

Definition no_repr (v : json) : string := "".

(** The three fragments of the ordering property under message [id]. *)
Definition hello_world (id : string) : list Event :=
  [message_delta id [Some "Hel"]; message_delta id [Some "lo wor"];
   message_delta id [Some "ld"]].

End ChatSpec.

Module StoreSpec.
Import Store.

(** The dimensions of the shelf units: for each unit, in table order, the
    length of each of its levels. *)
Definition shape (layouts : Dict.t Layout) : list (string * list nat) :=
  map (fun '(shelf_id, layout) => (shelf_id, map length layout)) layouts.

(** What identifies an item apart from its stock count. *)
Definition identity (inv : Dict.t Item)
    : list (string * (string * option string * option string * option Z)) :=
  map (fun '(item_id, it) =>
         (item_id, (name it, category it, location_id it, position it))) inv.

(** The category filter of [get_items_needing_restock]. *)
Definition in_category (category : option string) (it : Item) : Prop :=
  match category with
  | None => True
  | Some c => Store.category it = Some c
  end.

(** The entry [get_items_needing_restock] lists for an item. *)
Definition low_stock_entry (item_id : string) (it : Item) : json :=
  JObj [("item_id", JStr item_id); ("name", JStr (name it));
        ("current_stock", JNum (stock it));
        ("location_id", JStr (default "N/A" (location_id it)))].

(** Polling a request once for each draw, in order. *)
Fixpoint poll_all (request_id : string) (draws : list float) (s : State) : State :=
  match draws with
  | [] => s
  | draw :: rest => poll_all request_id rest (snd (check_delivery_status request_id draw s))
  end.

End StoreSpec.

Module ChatExtraSpec.
Import Chat ChatSpec.

(** The transcript holds exactly one bubble with this key, and it carries
    this status. *)
Definition once_with (st key : string) (conv : list ChatMessage) : Prop :=
  exists m, bubbles key conv = [m] /\ metadata m !! "status" = Some st.

(** An entry and what stands at its place later: the role is the same, and
    the entry itself is the same unless it is a tool bubble or a plain
    assistant entry. *)
Definition kept (m m' : ChatMessage) : Prop :=
  role m' = role m /\
  (m' = m \/ has_metadata m = true \/ plain_assistant m = true).

(** The later transcript keeps every entry of the earlier one at its place,
    in the sense of [kept], and may have more entries after them. *)
Definition grows (conv conv' : list ChatMessage) : Prop :=
  exists old added, conv' = old ++ added /\ Forall2 kept conv old.

(** A step delta announcing one function call. *)
Definition function_delta (call_id func_name : string) (args : option string) : Event :=
  step_delta (Some "tool_calls")
    [mkToolCallDelta (Some call_id) (Some "function")
       (Some (mkFunctionDelta (Some func_name) args)) ""].

End ChatExtraSpec.

(* ===================================================================== *)
(** ** Facts about dictionaries *)
(* ===================================================================== *)

Module DictFacts.

Section Facts.
Context {V : Type}.
Implicit Types (d : Dict.t V) (k : string) (v : V).

Lemma get_set_eq k v d : Dict.get k (Dict.set k v d) = Some v.
Proof.
  induction d as [|[k' v'] d IH]; simpl.
  - now rewrite String.eqb_refl.
  - destruct (String.eqb k k') eqn:E; simpl; rewrite ?String.eqb_refl, ?E; auto.
Qed.

Lemma get_set_ne k k' v d :
  k <> k' -> Dict.get k' (Dict.set k v d) = Dict.get k' d.
Proof.
  intros Hne. induction d as [|[k0 v0] d IH]; simpl.
  - destruct (String.eqb k' k) eqn:E; [|reflexivity].
    apply String.eqb_eq in E. congruence.
  - destruct (String.eqb k k0) eqn:E; simpl.
    + apply String.eqb_eq in E. subst k0.
      destruct (String.eqb k' k) eqn:E'; [|reflexivity].
      apply String.eqb_eq in E'. congruence.
    + now rewrite IH.
Qed.

(** Writing back the value a key already has changes nothing. *)
Lemma set_get_id k v d : Dict.get k d = Some v -> Dict.set k v d = d.
Proof.
  induction d as [|[k' v'] d IH]; simpl; [discriminate|].
  destruct (String.eqb k k') eqn:E.
  - apply String.eqb_eq in E. intros [= ->]. now subst.
  - intros H. now rewrite IH.
Qed.

(** A write to a key that is present keeps the keys and their order. *)
Lemma keys_set_present k v d :
  Dict.mem k d = true -> Dict.keys (Dict.set k v d) = Dict.keys d.
Proof.
  unfold Dict.mem, Dict.keys.
  induction d as [|[k' v'] d IH]; simpl; [discriminate|].
  destruct (String.eqb k k') eqn:E; simpl.
  - apply String.eqb_eq in E. now subst.
  - intros H. now rewrite IH.
Qed.

(** No write removes a key. *)
Lemma mem_set k k' v d :
  Dict.mem k' d = true -> Dict.mem k' (Dict.set k v d) = true.
Proof.
  unfold Dict.mem. intros H.
  destruct (String.eqb k k') eqn:E.
  - apply String.eqb_eq in E. subst. now rewrite get_set_eq.
  - apply String.eqb_neq in E. now rewrite get_set_ne.
Qed.

Lemma mem_get k d : Dict.mem k d = true <-> exists v, Dict.get k d = Some v.
Proof.
  unfold Dict.mem. destruct (Dict.get k d); split; eauto; try discriminate.
  intros [v [=]].
Qed.

End Facts.

End DictFacts.

(* ===================================================================== *)
(** ** Properties of the tool functions *)
(* ===================================================================== *)

Module StoreFacts.
Import Store DictFacts.

(** Unfolds the plumbing of the store computations. *)
Ltac run_store :=
  unfold mbind, mret, M_bind, M_ret, read, write in *; simpl in *.

(** The clamp of [update_inventory_count] is [max 0]. *)
Lemma clamp_max (n : Z) : (if n <? 0 then 0 else n) = Z.max 0 n.
Proof. destruct (Z.ltb_spec n 0); lia. Qed.

(** *** What each tool does to the three tables *)

Lemma update_inventory_count_known s item_id q reason item :
  Dict.get item_id (inventory s) = Some item ->
  update_inventory_count item_id q reason s =
    (JObj [("item_id", JStr item_id); ("name", JStr (name item));
           ("previous_stock", JNum (stock item));
           ("new_stock", JNum (Z.max 0 (stock item + q)));
           ("change", JNum q); ("reason", JStr reason)],
     with_inventory
       (Dict.set item_id (with_stock (Z.max 0 (stock item + q)) item) (inventory s)) s).
Proof.
  intros H. unfold update_inventory_count. run_store. rewrite H.
  now rewrite clamp_max.
Qed.

Lemma update_inventory_count_unknown s item_id q reason :
  Dict.get item_id (inventory s) = None ->
  update_inventory_count item_id q reason s =
    (error ("Item ID " +:+ item_id +:+ " not found."), s).
Proof. intros H. unfold update_inventory_count. run_store. now rewrite H. Qed.

Arguments update_inventory_count : simpl never.
Arguments mark_item_restocked : simpl never.
Arguments find_item_location : simpl never.

(** The five query tools hand the tables back as they got them. *)
Lemma check_item_stock_frame item_id s : snd (check_item_stock item_id s) = s.
Proof. unfold check_item_stock. run_store. now destruct (Dict.get _ _). Qed.

Lemma find_item_location_frame item_id s : snd (find_item_location item_id s) = s.
Proof.
  unfold find_item_location. run_store.
  destruct (Dict.get _ _) as [it|]; [|reflexivity].
  destruct (location_id it) as [loc|]; [|reflexivity].
  now destruct (Py.truthy loc).
Qed.

Lemma get_shelf_layout_frame shelf_id s : snd (get_shelf_layout shelf_id s) = s.
Proof.
  unfold get_shelf_layout. run_store.
  now destruct (Dict.get _ _) as [[|row rows]|].
Qed.

Lemma get_items_needing_restock_frame category min_stock_level s :
  snd (get_items_needing_restock category min_stock_level s) = s.
Proof. reflexivity. Qed.

Lemma get_store_layout_overview_frame s : snd (get_store_layout_overview s) = s.
Proof. reflexivity. Qed.

Lemma find_item_location_unknown s item_id :
  Dict.get item_id (inventory s) = None ->
  find_item_location item_id s = (error ("Item ID " +:+ item_id +:+ " not found."), s).
Proof. intros H. unfold find_item_location. run_store. now rewrite H. Qed.

(** With a known item that has a location, the answer names that location. *)
Lemma find_item_location_located s item_id item loc :
  Dict.get item_id (inventory s) = Some item ->
  location_id item = Some loc -> Py.truthy loc = true ->
  exists r, find_item_location item_id s = (r, s) /\
            has_key "error" r = false /\
            field "location_id" r = Some (JStr loc).
Proof.
  intros H Hloc Ht. unfold find_item_location. run_store.
  rewrite H, Hloc, Ht. eexists. split; [reflexivity|]. split; reflexivity.
Qed.

(** *** [mark_item_restocked] *)

Lemma mark_item_restocked_valid s item_id shelf_id shelf_index position_index quantity :
  Spec.valid_restock s item_id shelf_id shelf_index position_index quantity = true ->
  exists item,
    Dict.get item_id (inventory s) = Some item /\
    mark_item_restocked item_id shelf_id shelf_index position_index quantity s =
      let written :=
        with_shelf_layouts
          (write_slot shelf_id shelf_index position_index item_id (shelf_layouts s)) s in
      let (update_data, s') :=
        update_inventory_count item_id quantity
          ("Restocked on " +:+ slot_label shelf_id shelf_index position_index) written in
      (JObj [("message",
              JStr ("Successfully restocked " +:+ Py.str_of_Z quantity +:+ " of " +:+
                    name item +:+ " (" +:+ item_id +:+ ") at " +:+
                    slot_label shelf_id shelf_index position_index +:+ "."));
             ("inventory_update", update_data)], s').
Proof.
  unfold Spec.valid_restock, Dict.mem. intros H.
  destruct (Dict.get item_id (inventory s)) as [item|] eqn:Hitem; [|discriminate].
  destruct (Dict.get shelf_id (shelf_layouts s)) as [layout|] eqn:Hlayout;
    [|now rewrite andb_false_r in H].
  destruct (layout !! Z.to_nat shelf_index) as [row|] eqn:Hrow;
    [|now rewrite !andb_false_r in H].
  simpl in H. apply andb_true_iff in H as [H Hq].
  apply andb_true_iff in H as [Hsi Hpi].
  exists item. split; [reflexivity|].
  unfold mark_item_restocked. run_store. rewrite Hitem, Hlayout.
  unfold in_range. rewrite Hsi, Hrow. simpl. rewrite Hpi. simpl.
  replace (quantity <=? 0) with false by lia. 
  rewrite (update_inventory_count_known _ _ _ _ item) by exact Hitem.
  simpl. rewrite get_set_eq. reflexivity.
Qed.

Lemma mark_item_restocked_invalid s item_id shelf_id shelf_index position_index quantity :
  Spec.valid_restock s item_id shelf_id shelf_index position_index quantity = false ->
  exists msg,
    mark_item_restocked item_id shelf_id shelf_index position_index quantity s =
      (error msg, s).
Proof.
  unfold Spec.valid_restock, Dict.mem, mark_item_restocked. run_store. intros H.
  destruct (Dict.get item_id (inventory s)) as [item|] eqn:Hitem; [|eauto].
  destruct (Dict.get shelf_id (shelf_layouts s)) as [layout|] eqn:Hlayout; [|eauto].
  unfold in_range.
  destruct ((0 <=? shelf_index) && (shelf_index <? Z.of_nat (length layout))) eqn:Hsi;
    simpl; [|eauto].
  destruct (layout !! Z.to_nat shelf_index) as [row|] eqn:Hrow; simpl in *.
  - destruct ((0 <=? position_index) && (position_index <? Z.of_nat (length row))) eqn:Hpi;
      simpl in *; [|eauto].
    replace (quantity <=? 0) with true by lia. eauto.
  - destruct (Z.leb_spec 0 position_index), (Z.ltb_spec position_index (Z.of_nat 0));
      simpl in *; eauto; lia.
Qed.

(** The slot write lands in the addressed slot. *)
Lemma write_slot_read layouts shelf_id layout row shelf_index position_index item_id :
  Dict.get shelf_id layouts = Some layout ->
  layout !! Z.to_nat shelf_index = Some row ->
  (Z.to_nat position_index < length row)%nat ->
  Spec.slot_at (write_slot shelf_id shelf_index position_index item_id layouts)
    shelf_id shelf_index position_index = Some (Some item_id).
Proof.
  intros Hl Hr Hp. unfold Spec.slot_at, write_slot. rewrite Hl, Hr.
  rewrite get_set_eq. simpl.
  rewrite list_lookup_insert_eq by (eapply lookup_lt_Some; eauto). simpl.
  now rewrite list_lookup_insert_eq.
Qed.

(** *** The remaining mutating tools *)

Lemma request_item_from_storage_ok s item_id quantity target draw item :
  Dict.get item_id (inventory s) = Some item ->
  Dict.mem target (shelf_layouts s) = true ->
  0 < quantity ->
  request_item_from_storage item_id quantity target draw s =
    (JObj [("request_id", JStr ("REQ" +:+ Py.str_of_Z draw));
           ("status", JStr "Pending");
           ("message",
            JStr ("Request " +:+ ("REQ" +:+ Py.str_of_Z draw) +:+ " created for " +:+
                  Py.str_of_Z quantity +:+ " of " +:+ name item +:+
                  " to shelf " +:+ target +:+ "."))],
     with_storage_requests
       (Dict.set ("REQ" +:+ Py.str_of_Z draw)
          (mkRequest item_id quantity target "Pending") (storage_requests s)) s).
Proof.
  intros Hi Ht Hq. unfold request_item_from_storage. run_store.
  rewrite Hi, Ht. simpl. now replace (quantity <=? 0) with false by lia.
Qed.

Lemma request_item_from_storage_effect s item_id quantity target draw :
  let s' := snd (request_item_from_storage item_id quantity target draw s) in
  s' = s \/
  s' = with_storage_requests
         (Dict.set ("REQ" +:+ Py.str_of_Z draw)
            (mkRequest item_id quantity target "Pending") (storage_requests s)) s.
Proof.
  unfold request_item_from_storage. run_store.
  destruct (Dict.get _ _); [|now left].
  destruct (Dict.mem _ _); simpl; [|now left].
  destruct (quantity <=? 0); simpl; auto.
Qed.

Lemma check_delivery_status_known s request_id draw request :
  Dict.get request_id (storage_requests s) = Some request ->
  let polled := with_status (advance_status (status request) draw) request in
  check_delivery_status request_id draw s =
    (JObj [("request_id", JStr request_id); ("status", JStr (status polled));
           ("details", request_json polled)],
     with_storage_requests (Dict.set request_id polled (storage_requests s)) s).
Proof. intros H. unfold check_delivery_status. run_store. now rewrite H. Qed.

Lemma check_delivery_status_unknown s request_id draw :
  Dict.get request_id (storage_requests s) = None ->
  check_delivery_status request_id draw s =
    (error ("Request ID " +:+ request_id +:+ " not found."), s).
Proof. intros H. unfold check_delivery_status. run_store. now rewrite H. Qed.

Lemma log_damaged_item_effect s item_id quantity notes :
  exists reason,
    snd (log_damaged_item item_id quantity notes s) = s \/
    snd (log_damaged_item item_id quantity notes s) =
      snd (update_inventory_count item_id (- quantity) reason s).
Proof.
  exists ("Damaged (" +:+
          (if Py.truthy_opt notes then default "" notes else "No details") +:+ ")").
  unfold log_damaged_item. run_store.
  destruct (quantity <=? 0); [now left|]. right.
  destruct (update_inventory_count _ _ _ s) as [u s'].
  now destruct (has_key "error" u).
Qed.

(** With a known, located item the scan picks coordinates on the item's
    shelf and the restock is handed to [mark_item_restocked]. *)
Lemma identify_located s image_data quantity item loc :
  Py.truthy image_data = true ->
  Dict.get image_data (inventory s) = Some item ->
  location_id item = Some loc -> Py.truthy loc = true ->
  identify_and_restock_item_from_image image_data quantity s =
    let '(shelf_idx, pos_idx) := resolve_slot image_data loc (shelf_layouts s) in
    if (shelf_idx =? -1) || (pos_idx =? -1) then
      (error ("Could not determine specific shelf/position for item " +:+
              image_data +:+ " on shelf " +:+ loc +:+ ". Layout might need update."), s)
    else
      let (restock_data, s') :=
        mark_item_restocked image_data loc shelf_idx pos_idx quantity s in
      (if has_key "error" restock_data then
         error ("Failed to restock after identification: " +:+ error_text restock_data)
       else
         JObj [("message",
                JStr ("Simulated vision identification and restocking complete for " +:+
                      image_data +:+ "."));
               ("restock_details", restock_data)],
       s').
Proof.
  intros Ht Hi Hloc Htl.
  destruct (find_item_location_located s image_data item loc Hi Hloc Htl)
    as (r & Hr & Hne & Hf).
  unfold identify_and_restock_item_from_image. rewrite Ht. run_store.
  rewrite Hr, Hne, Hf.
  destruct (resolve_slot image_data loc (shelf_layouts s)) as [si pi].
  destruct ((si =? -1) || (pi =? -1)); [reflexivity|].
  destruct (mark_item_restocked image_data loc si pi quantity s) as [rd s'].
  now destruct (has_key "error" rd).
Qed.

Lemma identify_effect s image_data quantity :
  snd (identify_and_restock_item_from_image image_data quantity s) = s \/
  exists shelf_id si pi,
    snd (identify_and_restock_item_from_image image_data quantity s) =
    snd (mark_item_restocked image_data shelf_id si pi quantity s).
Proof.
  unfold identify_and_restock_item_from_image.
  destruct (Py.truthy image_data); simpl; [|now left]. run_store.
  pose proof (find_item_location_frame image_data s) as Hf.
  destruct (find_item_location image_data s) as [ld s0]. simpl in Hf. subst s0.
  destruct (has_key "error" ld); [now left|].
  destruct (field "location_id" ld) as [[| | | shelf_id | |]|]; try now left.
  destruct (resolve_slot image_data shelf_id (shelf_layouts s)) as [si pi].
  destruct ((si =? -1) || (pi =? -1)); [now left|]. right.
  exists shelf_id, si, pi.
  destruct (mark_item_restocked image_data shelf_id si pi quantity s) as [rd s'].
  now destruct (has_key "error" rd).
Qed.

(** *** What any call can do to the inventory and to the requests *)

(** One call leaves the inventory alone or rewrites the stock of one known
    item with a number that is not negative. *)
Definition inventory_step (inv inv' : Dict.t Item) : Prop :=
  inv' = inv \/
  exists i it n, Dict.get i inv = Some it /\ 0 <= n /\
                 inv' = Dict.set i (with_stock n it) inv.

(** One call leaves the requests alone or writes one entry. *)
Definition requests_step (rq rq' : Dict.t Request) : Prop :=
  rq' = rq \/ exists k r, rq' = Dict.set k r rq.

Definition call_step (s s' : State) : Prop :=
  inventory_step (inventory s) (inventory s') /\
  requests_step (storage_requests s) (storage_requests s').

Lemma call_step_refl s : call_step s s.
Proof. split; now left. Qed.

Lemma update_inventory_count_step s item_id q reason :
  call_step s (snd (update_inventory_count item_id q reason s)).
Proof.
  destruct (Dict.get item_id (inventory s)) as [it|] eqn:H.
  - rewrite (update_inventory_count_known _ _ _ _ _ H). split; simpl.
    + right. exists item_id, it, (Z.max 0 (stock it + q)).
      repeat split; auto; lia.
    + now left.
  - rewrite (update_inventory_count_unknown _ _ _ _ H). apply call_step_refl.
Qed.

Lemma mark_item_restocked_step s item_id shelf_id si pi q :
  call_step s (snd (mark_item_restocked item_id shelf_id si pi q s)).
Proof.
  destruct (Spec.valid_restock s item_id shelf_id si pi q) eqn:V.
  - destruct (mark_item_restocked_valid _ _ _ _ _ _ V) as (it & Hit & ->).
    cbv zeta.
    pose proof (update_inventory_count_step
                  (with_shelf_layouts (write_slot shelf_id si pi item_id (shelf_layouts s)) s)
                  item_id q ("Restocked on " +:+ slot_label shelf_id si pi)) as St.
    destruct (update_inventory_count _ _ _ _) as [u s']. exact St.
  - destruct (mark_item_restocked_invalid _ _ _ _ _ _ V) as (msg & ->).
    apply call_step_refl.
Qed.

Lemma run_step_tables c s : call_step s (snd (run c s)).
Proof.
  destruct c as [i|i|sh|i q t d|r d|cat m|i q rs|i sh si pi q|i q n| |img q]; simpl.
  - rewrite check_item_stock_frame. apply call_step_refl.
  - rewrite find_item_location_frame. apply call_step_refl.
  - rewrite get_shelf_layout_frame. apply call_step_refl.
  - destruct (request_item_from_storage_effect s i q t d)
      as [-> | ->]; [apply call_step_refl|].
    split; simpl; [now left | right; eauto].
  - destruct (Dict.get r (storage_requests s)) as [rq|] eqn:H.
    + rewrite (check_delivery_status_known _ _ _ _ H). split; simpl;
        [now left | right; eauto].
    + rewrite (check_delivery_status_unknown _ _ _ H). apply call_step_refl.
  - apply call_step_refl.
  - apply update_inventory_count_step.
  - apply mark_item_restocked_step.
  - destruct (log_damaged_item_effect s i q n) as (reason & [-> | ->]);
      [apply call_step_refl | apply update_inventory_count_step].
  - apply call_step_refl.
  - destruct (identify_effect s img q) as [-> | (sh & si & pi & ->)];
      [apply call_step_refl | apply mark_item_restocked_step].
Qed.

(** *** The slot scan of the image restock *)

Lemma slot_eqb_eq (a b : Slot) : slot_eqb a b = true <-> a = b.
Proof.
  destruct a as [x|], b as [y|]; simpl; split; try congruence.
  - intros H. apply String.eqb_eq in H. now subst.
  - intros [= ->]. apply String.eqb_refl.
Qed.

Lemma index_of_Some (x : Slot) (row : list Slot) p :
  index_of x row = Some p ->
  exists n, p = Z.of_nat n /\ row !! n = Some x /\
            forall n', (n' < n)%nat -> row !! n' <> Some x.
Proof.
  revert p. induction row as [|y row IH]; simpl; intros p; [discriminate|].
  destruct (slot_eqb y x) eqn:E.
  - intros [= <-]. apply slot_eqb_eq in E. subst y.
    exists 0%nat. repeat split; auto. intros n' Hn'. lia.
  - destruct (index_of x row) as [q|]; [|discriminate]. intros [= <-].
    destruct (IH q eq_refl) as (n & -> & Hn & Hfirst).
    exists (S n). repeat split; [lia | exact Hn |].
    intros [|n'] Hlt; simpl.
    + intros [= ->]. rewrite (proj2 (slot_eqb_eq x x) eq_refl) in E. discriminate.
    + apply Hfirst. lia.
Qed.

Lemma index_of_None (x : Slot) (row : list Slot) :
  index_of x row = None -> x ∉ row.
Proof.
  induction row as [|y row IH]; simpl; intros H.
  - apply not_elem_of_nil.
  - destruct (slot_eqb y x) eqn:E; [discriminate|].
    destruct (index_of x row); [discriminate|].
    apply not_elem_of_cons. split; [|auto].
    intros ->. rewrite (proj2 (slot_eqb_eq y y) eq_refl) in E. discriminate.
Qed.

Lemma first_slot_here (x : Slot) row rows p n :
  index_of x row = Some p -> p = Z.of_nat n -> row !! n = Some x ->
  (forall n', (n' < n)%nat -> row !! n' <> Some x) ->
  Spec.first_slot x (row :: rows) 0 n.
Proof.
  intros _ _ Hn Hfirst. split.
  - exists row. auto.
  - intros r' row' Hlt. lia.
Qed.

Lemma first_slot_later (x : Slot) row rows r p :
  x ∉ row -> Spec.first_slot x rows r p -> Spec.first_slot x (row :: rows) (S r) p.
Proof.
  intros Hx [Hat Hbefore]. split; [exact Hat|].
  intros [|r'] row' Hlt; simpl.
  - now intros [= <-].
  - apply Hbefore. lia.
Qed.

Lemma nowhere_nil (x : Slot) : Spec.nowhere x [].
Proof. intros row H. now apply elem_of_nil in H. Qed.

Lemma nowhere_cons (x : Slot) row rows :
  x ∉ row -> Spec.nowhere x rows -> Spec.nowhere x (row :: rows).
Proof.
  intros Hx Hn row' H. apply elem_of_cons in H as [-> | H]; auto.
Qed.

(** What the scan returns from level number [r0] on, with [found] as the
    candidate so far: the first slot holding the item if some level holds
    it; otherwise the candidate if one was recorded, else the first free
    slot, else the candidate unchanged. *)
Lemma scan_rows_spec item_id rows : forall r0 found,
  0 <= r0 ->
  (exists r p, Spec.first_slot (Some item_id) rows r p /\
               scan_rows item_id rows r0 found = (r0 + Z.of_nat r, Z.of_nat p)) \/
  (Spec.nowhere (Some item_id) rows /\
   ((fst found <> -1 /\ scan_rows item_id rows r0 found = found) \/
    (fst found = -1 /\
     ((exists r p, Spec.first_slot None rows r p /\
                   scan_rows item_id rows r0 found = (r0 + Z.of_nat r, Z.of_nat p)) \/
      (Spec.nowhere None rows /\ scan_rows item_id rows r0 found = found))))).
Proof.
  induction rows as [|row rows IH]; intros r0 found Hr0; simpl.
  - right. split; [apply nowhere_nil|].
    destruct (Z.eq_dec (fst found) (-1)); [right | left]; auto.
    split; auto. right. split; [apply nowhere_nil | reflexivity].
  - destruct (index_of (Some item_id) row) as [p|] eqn:Hitem.
    + left. destruct (index_of_Some _ _ _ Hitem) as (n & -> & Hn & Hfirst).
      exists 0%nat, n. split; [eapply first_slot_here; eauto|].
      f_equal. lia.
    + apply index_of_None in Hitem.
      assert (Hshift : forall r : nat, r0 + 1 + Z.of_nat r = r0 + Z.of_nat (S r)) by lia.
      destruct (fst found =? -1) eqn:Hf.
      * apply Z.eqb_eq in Hf.
        destruct (index_of None row) as [p|] eqn:Hfree.
        -- destruct (index_of_Some _ _ _ Hfree) as (n & -> & Hn & Hfirst).
           destruct (IH (r0 + 1) (r0, Z.of_nat n)) as
             [(r & p & Hfs & ->) | (Hno & [[_ ->] | [Hbad _]])]; [lia | | |].
           ++ left. exists (S r), p. split; [now apply first_slot_later|].
              now rewrite Hshift.
           ++ right. split; [now apply nowhere_cons|]. right. split; [exact Hf|].
              left. exists 0%nat, n. split; [eapply first_slot_here; eauto|].
              f_equal. lia.
           ++ simpl in Hbad. lia.
        -- apply index_of_None in Hfree.
           destruct (IH (r0 + 1) found) as
             [(r & p & Hfs & ->) | (Hno & [[Hbad _] | [_ Hrest]])]; [lia | | |].
           ++ left. exists (S r), p. split; [now apply first_slot_later|].
              now rewrite Hshift.
           ++ congruence.
           ++ right. split; [now apply nowhere_cons|]. right. split; [exact Hf|].
              destruct Hrest as [(r & p & Hfs & ->) | [Hnone ->]].
              ** left. exists (S r), p. split; [now apply first_slot_later|].
                 now rewrite Hshift.
              ** right. split; [now apply nowhere_cons | reflexivity].
      * apply Z.eqb_neq in Hf.
        destruct (IH (r0 + 1) found) as
          [(r & p & Hfs & ->) | (Hno & [[_ ->] | [Hbad _]])]; [lia | | |].
        -- left. exists (S r), p. split; [now apply first_slot_later|].
           now rewrite Hshift.
        -- right. split; [now apply nowhere_cons|]. left. auto.
        -- congruence.
Qed.

End StoreFacts.

(* ===================================================================== *)
(** ** The inventory tools: stated properties *)
(* ===================================================================== *)

Module StoreProperties.
Import Store DictFacts StoreFacts.

(** C3. For a known item and any integer change, [update_inventory_count]
    leaves the item in the inventory with stock [max 0 (old + change)], its
    name, category, shelf and position as they were, and reports
    [previous_stock = old] and [new_stock = max 0 (old + change)]; and
    whatever tool is called, every item of the inventory afterwards either
    is as it was before the call or has a stock that is not negative. *)
Theorem update_inventory_count_clamps_at_zero :
  (forall s item_id item quantity_change reason,
     Dict.get item_id (inventory s) = Some item ->
     let new_stock := Z.max 0 (stock item + quantity_change) in
     let result := fst (update_inventory_count item_id quantity_change reason s) in
     let s' := snd (update_inventory_count item_id quantity_change reason s) in
     (exists item',
        Dict.get item_id (inventory s') = Some item' /\
        stock item' = new_stock /\
        item' = mkItem (name item) new_stock (category item) (location_id item)
                  (position item)) /\
     field "previous_stock" result = Some (JNum (stock item)) /\
     field "new_stock" result = Some (JNum new_stock) /\
     0 <= new_stock) /\
  (forall c s k item',
     Dict.get k (inventory (snd (run c s))) = Some item' ->
     0 <= stock item' \/ Dict.get k (inventory s) = Some item').
Proof.
  split.
  - intros s item_id item q reason H. cbv zeta.
    rewrite (update_inventory_count_known _ _ _ _ _ H). simpl.
    rewrite get_set_eq. repeat split; [|lia].
    eexists. split; [reflexivity|]. split; reflexivity.
  - intros c s k item' H.
    destruct (run_step_tables c s) as [[E | (i & it & n & Hi & Hn & E)] _];
      rewrite E in H; [now right|].
    destruct (String.eqb i k) eqn:Eik.
    + apply String.eqb_eq in Eik. subst k. rewrite get_set_eq in H.
      injection H as <-. now left.
    + apply String.eqb_neq in Eik. rewrite get_set_ne in H by exact Eik. now right.
Qed.

(** A loss larger than the stock on the fixture: SKU003 goes from 8 to 0. *)
Lemma update_inventory_count_clamps_at_zero_witness :
  exists item',
    Dict.get "SKU003"
      (inventory (snd (update_inventory_count "SKU003" (-100) "Cycle count" initial_state)))
    = Some item' /\
    stock item' = 0 /\
    item' = mkItem "Adventure Granola" 0 (Some "Breakfast") (Some "A2") (Some 0).
Proof.
  exact (proj1 (proj1 update_inventory_count_clamps_at_zero initial_state "SKU003"
                  (sku "Adventure Granola" 8 "Breakfast" "A2" 0) (-100) "Cycle count"
                  eq_refl)).
Defined.

(** C2. With valid arguments [mark_item_restocked] ends in the state
    reached by writing the item into the addressed slot and then running
    [update_inventory_count] with [+quantity]: the slot reads back the item,
    the result is not an error and embeds the inventory update; with any
    invalid argument it returns an error and the state it was given. *)
Theorem mark_item_restocked_all_or_nothing
    s item_id shelf_id shelf_index position_index quantity :
  let call := mark_item_restocked item_id shelf_id shelf_index position_index quantity s in
  (Spec.valid_restock s item_id shelf_id shelf_index position_index quantity = true ->
   let written :=
     with_shelf_layouts
       (write_slot shelf_id shelf_index position_index item_id (shelf_layouts s)) s in
   let update :=
     update_inventory_count item_id quantity
       ("Restocked on " +:+ slot_label shelf_id shelf_index position_index) written in
   Spec.slot_at (shelf_layouts written) shelf_id shelf_index position_index
     = Some (Some item_id) /\
   snd call = snd update /\
   field "inventory_update" (fst call) = Some (fst update) /\
   has_key "error" (fst call) = false) /\
  (Spec.valid_restock s item_id shelf_id shelf_index position_index quantity = false ->
   is_error (fst call) /\ snd call = s).
Proof.
  cbv zeta. split; intros V.
  - destruct (mark_item_restocked_valid _ _ _ _ _ _ V) as (it & Hit & ->). cbv zeta.
    split.
    + unfold Spec.valid_restock in V.
      destruct (Dict.get shelf_id (shelf_layouts s)) as [layout|] eqn:Hl;
        [|now rewrite andb_false_r in V].
      destruct (layout !! Z.to_nat shelf_index) as [row|] eqn:Hr;
        [|now rewrite !andb_false_r in V].
      simpl. eapply write_slot_read; eauto. lia.
    + destruct (update_inventory_count _ _ _ _) as [u s']. simpl. auto.
  - destruct (mark_item_restocked_invalid _ _ _ _ _ _ V) as (msg & ->).
    split; reflexivity.
Qed.

(** Restocking 5 of SKU002 at A1, level 0, position 1 on the fixture, and
    the same call with a position outside the level. *)
Lemma mark_item_restocked_all_or_nothing_witness :
  snd (mark_item_restocked "SKU002" "A1" 0 1 5 initial_state) =
  snd (update_inventory_count "SKU002" 5 "Restocked on A1-S1-P2"
         (with_shelf_layouts
            (write_slot "A1" 0 1 "SKU002" (shelf_layouts initial_state)) initial_state))
  /\ snd (mark_item_restocked "SKU002" "A1" 0 3 5 initial_state) = initial_state.
Proof.
  split.
  - exact (proj1 (proj2 (proj1
             (mark_item_restocked_all_or_nothing initial_state "SKU002" "A1" 0 1 5)
             eq_refl))).
  - exact (proj2 (proj2
             (mark_item_restocked_all_or_nothing initial_state "SKU002" "A1" 0 3 5)
             eq_refl)).
Defined.

(** C4. Called with an item identifier that is not in the inventory, each of
    the seven tools that take one returns an object with the key ["error"]
    and leaves inventory, shelf layouts and storage requests as they were.
    (Every tool is a total function of its arguments and the tables: there
    is no outcome other than a returned value.) *)
Theorem unknown_item_returns_error c s item_id :
  item_argument c = Some item_id ->
  Dict.get item_id (inventory s) = None ->
  is_error (fst (run c s)) /\ snd (run c s) = s.
Proof.
  unfold is_error.
  destruct c as [i|i|sh|i q t d|r d|cat m|i q rs|i sh si pi q|i q n| |img q];
    simpl; intros E H; try discriminate; injection E as E; subst item_id.
  - unfold check_item_stock. run_store. now rewrite H.
  - now rewrite find_item_location_unknown.
  - unfold request_item_from_storage. run_store. now rewrite H.
  - now rewrite update_inventory_count_unknown.
  - destruct (mark_item_restocked_invalid s i sh si pi q) as (msg & ->).
    + unfold Spec.valid_restock, Dict.mem. now rewrite H.
    + now split.
  - unfold log_damaged_item. run_store.
    destruct (q <=? 0); [now split|].
    now rewrite update_inventory_count_unknown.
  - unfold identify_and_restock_item_from_image.
    destruct (Py.truthy img); simpl; [|now split]. run_store.
    now rewrite find_item_location_unknown.
Qed.

(** SKU005 is not in the fixture: logging damage on it fails cleanly. *)
Lemma unknown_item_returns_error_witness :
  is_error (fst (run (LogDamagedItem "SKU005" 1 None) initial_state)) /\
  snd (run (LogDamagedItem "SKU005" 1 None) initial_state) = initial_state.
Proof.
  exact (unknown_item_returns_error (LogDamagedItem "SKU005" 1 None) initial_state
           "SKU005" eq_refl eq_refl).
Defined.

(** C10. The five query tools return the tables exactly as they received
    them, for every argument and every state, whereas polling
    [check_delivery_status] can change the state. *)
Theorem query_tools_leave_tables_unchanged :
  (forall item_id s, snd (check_item_stock item_id s) = s) /\
  (forall item_id s, snd (find_item_location item_id s) = s) /\
  (forall shelf_id s, snd (get_shelf_layout shelf_id s) = s) /\
  (forall category min_stock_level s,
     snd (get_items_needing_restock category min_stock_level s) = s) /\
  (forall s, snd (get_store_layout_overview s) = s) /\
  (exists request_id draw s, snd (check_delivery_status request_id draw s) <> s).
Proof.
  repeat split.
  - intros. apply check_item_stock_frame.
  - intros. apply find_item_location_frame.
  - intros. apply get_shelf_layout_frame.
  - exists "REQ1234", 0.75%float,
      (mkState [] [] [("REQ1234", mkRequest "SKU004" 10 "C3" "Pending")]).
    intros H. apply (f_equal storage_requests) in H. vm_compute in H. discriminate H.
Qed.

(** C5, as stated, fails: the identifier is ["REQ"] followed by a number
    drawn from 1000..9999, and nothing looks the table up before writing.
    Two accepted requests that draw the same number get the same identifier;
    the second call returns an identifier that is already in the table and
    replaces the request stored under it. *)
Lemma request_id_can_collide :
  let s1 := snd (request_item_from_storage "SKU004" 10 "C3" 1234 initial_state) in
  let second := request_item_from_storage "SKU001" 2 "A1" 1234 s1 in
  Dict.get "REQ1234" (storage_requests s1)
    = Some (mkRequest "SKU004" 10 "C3" "Pending") /\
  field "request_id" (fst second) = Some (JStr "REQ1234") /\
  has_key "error" (fst second) = false /\
  Dict.get "REQ1234" (storage_requests (snd second))
    = Some (mkRequest "SKU001" 2 "A1" "Pending").
Proof. cbv zeta. repeat split; reflexivity. Qed.

(** C5, amended. An accepted call returns the identifier ["REQ"] followed by
    the number drawn and status ["Pending"], stores the new request under
    that identifier, and leaves every request stored under another
    identifier, the inventory and the shelves as they were; so when the
    identifier was not in use, every earlier request is still there
    unchanged.  And no call of any tool removes an identifier from the
    table of storage requests. *)
Theorem request_item_from_storage_records_request :
  (forall s item_id quantity target draw item,
     Dict.get item_id (inventory s) = Some item ->
     Dict.mem target (shelf_layouts s) = true ->
     0 < quantity ->
     let request_id := "REQ" +:+ Py.str_of_Z draw in
     let result := fst (request_item_from_storage item_id quantity target draw s) in
     let s' := snd (request_item_from_storage item_id quantity target draw s) in
     field "request_id" result = Some (JStr request_id) /\
     field "status" result = Some (JStr "Pending") /\
     Dict.get request_id (storage_requests s')
       = Some (mkRequest item_id quantity target "Pending") /\
     (forall k, k <> request_id ->
        Dict.get k (storage_requests s') = Dict.get k (storage_requests s)) /\
     (Dict.mem request_id (storage_requests s) = false ->
      forall k r, Dict.get k (storage_requests s) = Some r ->
                  Dict.get k (storage_requests s') = Some r) /\
     inventory s' = inventory s /\ shelf_layouts s' = shelf_layouts s) /\
  (forall c s k,
     Dict.mem k (storage_requests s) = true ->
     Dict.mem k (storage_requests (snd (run c s))) = true).
Proof.
  split.
  - intros s item_id quantity target draw item Hi Ht Hq. cbv zeta.
    rewrite (request_item_from_storage_ok _ _ _ _ _ _ Hi Ht Hq). simpl.
    rewrite get_set_eq. repeat split; auto.
    + intros k Hk. now apply get_set_ne.
    + intros Hfresh k r Hk. rewrite get_set_ne; [exact Hk|].
      intros <-. unfold Dict.mem in Hfresh. now rewrite Hk in Hfresh.
  - intros c s k Hk.
    destruct (run_step_tables c s) as [_ [-> | (k' & r & ->)]]; [exact Hk|].
    now apply mem_set.
Qed.

(** A first request on the fixture: the identifier is new and is recorded. *)
Lemma request_item_from_storage_records_request_witness :
  Dict.get "REQ1234"
    (storage_requests (snd (request_item_from_storage "SKU004" 10 "C3" 1234 initial_state)))
  = Some (mkRequest "SKU004" 10 "C3" "Pending").
Proof.
  exact (proj1 (proj2 (proj2
           (proj1 request_item_from_storage_records_request initial_state
              "SKU004" 10 "C3" 1234 (sku "Fabrikam Pancake Mix" 10 "Breakfast" "A2" 1)
              eq_refl eq_refl eq_refl)))).
Defined.

(** C9. Polling an existing request leaves its other fields alone and
    either keeps its status or moves it one step along Pending, In Transit,
    Delivered, whatever number the generator draws; the reported status is
    the stored one; Delivered stays Delivered. *)
Theorem check_delivery_status_advances_one_step s request_id request draw :
  Dict.get request_id (storage_requests s) = Some request ->
  exists st',
    Dict.get request_id (storage_requests (snd (check_delivery_status request_id draw s)))
      = Some (with_status st' request) /\
    field "status" (fst (check_delivery_status request_id draw s)) = Some (JStr st') /\
    (st' = status request \/
     (status request = "Pending" /\ st' = "In Transit") \/
     (status request = "In Transit" /\ st' = "Delivered")) /\
    (status request = "Delivered" -> st' = "Delivered") /\
    (forall n, Spec.status_rank (status request) = Some n ->
               Spec.status_rank st' = Some n \/ Spec.status_rank st' = Some (S n)).
Proof.
  intros H. exists (advance_status (status request) draw).
  rewrite (check_delivery_status_known _ _ _ _ H). simpl.
  rewrite get_set_eq. split; [reflexivity|]. split; [reflexivity|].
  unfold advance_status.
  destruct (String.eqb (status request) "Pending") eqn:Ep.
  - apply String.eqb_eq in Ep. rewrite Ep. simpl.
    destruct (PrimFloat.ltb pending_threshold draw); simpl.
    + split; [right; left; auto|]. split; [discriminate|].
      intros n [= <-]. now right.
    + split; [now left|]. split; [discriminate|]. intros n Hn. now left.
  - simpl. destruct (String.eqb (status request) "In Transit") eqn:Et.
    + apply String.eqb_eq in Et. rewrite Et. simpl.
      destruct (PrimFloat.ltb transit_threshold draw); simpl.
      * split; [right; right; auto|]. split; [reflexivity|].
        intros n [= <-]. now right.
      * split; [now left|]. split; [discriminate|]. intros n Hn. now left.
    + simpl. split; [now left|]. split; [auto|]. intros n Hn. now left.
Qed.

(** A pending request polled with the draw 0.75 moves to In Transit. *)
Lemma check_delivery_status_advances_one_step_witness :
  exists st',
    Dict.get "REQ1234"
      (storage_requests
         (snd (check_delivery_status "REQ1234" 0.75%float
                 (mkState [] [] [("REQ1234", mkRequest "SKU004" 10 "C3" "Pending")]))))
      = Some (with_status st' (mkRequest "SKU004" 10 "C3" "Pending")) /\
    st' = "In Transit".
Proof.
  destruct (check_delivery_status_advances_one_step
              (mkState [] [] [("REQ1234", mkRequest "SKU004" 10 "C3" "Pending")])
              "REQ1234" (mkRequest "SKU004" 10 "C3" "Pending") 0.75%float eq_refl)
    as (st' & Hget & _).
  exists st'. split; [exact Hget|].
  vm_compute in Hget. now injection Hget as <-.
Defined.

(** C8. For a non-empty [image_data] that names a known item with a
    location, the scan of the levels of that shelf settles on the first slot
    holding the item (levels in order, positions in order); if no level
    holds the item, on the first free slot; with neither, the call returns
    an error and changes nothing.  In the first two cases the call is
    [mark_item_restocked] at exactly those coordinates with the given
    quantity. *)
Theorem image_restock_resolves_first_slot s image_data quantity item loc :
  Py.truthy image_data = true ->
  Dict.get image_data (inventory s) = Some item ->
  location_id item = Some loc ->
  Py.truthy loc = true ->
  let rows := default [] (Dict.get loc (shelf_layouts s)) in
  let call := identify_and_restock_item_from_image image_data quantity s in
  (exists r p, Spec.first_slot (Some image_data) rows r p /\
               Spec.delegates_restock s image_data quantity loc r p) \/
  (Spec.nowhere (Some image_data) rows /\
   exists r p, Spec.first_slot None rows r p /\
               Spec.delegates_restock s image_data quantity loc r p) \/
  (Spec.nowhere (Some image_data) rows /\ Spec.nowhere None rows /\
   is_error (fst call) /\ snd call = s).
Proof.
  intros Ht Hi Hloc Htl. cbv zeta.
  assert (Hdel : forall r p,
            resolve_slot image_data loc (shelf_layouts s) = (Z.of_nat r, Z.of_nat p) ->
            Spec.delegates_restock s image_data quantity loc r p).
  { intros r p Hres. unfold Spec.delegates_restock. cbv zeta.
    rewrite (identify_located _ _ _ _ _ Ht Hi Hloc Htl), Hres.
    replace ((Z.of_nat r =? -1) || (Z.of_nat p =? -1)) with false by lia.
    destruct (mark_item_restocked _ _ _ _ _ _) as [rd s']. simpl.
    destruct (has_key "error" rd) eqn:E; repeat split; auto; discriminate. }
  unfold resolve_slot in Hdel.
  rewrite (identify_located _ _ _ _ _ Ht Hi Hloc Htl). unfold resolve_slot.
  destruct (Dict.get loc (shelf_layouts s)) as [rows|]; simpl.
  - destruct (scan_rows_spec image_data rows 0 (-1, -1)) as
      [(r & p & Hfs & Hscan) | (Hno & [[Hbad _] | [_ [(r & p & Hfs & Hscan) | [Hnone Hscan]]]])];
      [lia | | | |].
    + left. exists r, p. split; [exact Hfs|]. apply Hdel. now rewrite Hscan.
    + simpl in Hbad. congruence.
    + right. left. split; [exact Hno|]. exists r, p. split; [exact Hfs|].
      apply Hdel. now rewrite Hscan.
    + right. right. rewrite Hscan. simpl. repeat split; auto.
  - right. right. repeat split; auto using nowhere_nil.
Qed.

(** Scanning SKU001 on the fixture: its shelf A1 holds it at level 0,
    position 0. *)
Lemma image_restock_resolves_first_slot_witness :
  let rows := default [] (Dict.get "A1" (shelf_layouts initial_state)) in
  let call := identify_and_restock_item_from_image "SKU001" 5 initial_state in
  (exists r p, Spec.first_slot (Some "SKU001") rows r p /\
               Spec.delegates_restock initial_state "SKU001" 5 "A1" r p) \/
  (Spec.nowhere (Some "SKU001") rows /\
   exists r p, Spec.first_slot None rows r p /\
               Spec.delegates_restock initial_state "SKU001" 5 "A1" r p) \/
  (Spec.nowhere (Some "SKU001") rows /\ Spec.nowhere None rows /\
   is_error (fst call) /\ snd call = initial_state).
Proof.
  exact (image_restock_resolves_first_slot initial_state "SKU001" 5
           (sku "Contoso Cereal" 15 "Breakfast" "A1" 1) "A1"
           eq_refl eq_refl eq_refl eq_refl).
Defined.

End StoreProperties.

(* ===================================================================== *)
(** ** Properties of the reducer *)
(* ===================================================================== *)

Module ChatFacts.
Import Chat ChatSpec.

(** *** Rewriting the entry nearest the end *)

Section UpdateLast.
Context {A : Type} (p : A -> bool) (f : A -> A).

Lemma update_last_None l :
  update_last p f l = None <-> List.filter p l = [].
Proof.
  induction l as [|x l IH]; simpl; [tauto|].
  destruct (update_last p f l) as [l'|].
  - split; [discriminate|]. intros H.
    destruct (p x); [discriminate|]. apply IH in H. discriminate.
  - destruct (p x); split; try discriminate; auto.
    intros _. now apply IH.
Qed.

(** The rewrite happens in place, at the last entry that passes the test. *)
Lemma update_last_Some l l' :
  update_last p f l = Some l' ->
  exists l1 x l2, l = l1 ++ x :: l2 /\ p x = true /\
                  List.filter p l2 = [] /\ l' = l1 ++ f x :: l2.
Proof.
  revert l'. induction l as [|y l IH]; simpl; intros l'; [discriminate|].
  destruct (update_last p f l) as [r|] eqn:E.
  - intros [= <-]. destruct (IH r eq_refl) as (l1 & x & l2 & -> & Hp & Hl2 & ->).
    exists (y :: l1), x, l2. auto.
  - destruct (p y) eqn:Hp; [|discriminate]. intros [= <-].
    exists [], y, l. repeat split; auto. now apply update_last_None.
Qed.

End UpdateLast.

(** *** Bubble keys under the writes of [create_tool_bubble] *)

Lemma is_bubble_id key m :
  is_bubble key m = bool_decide (metadata m !! "id" = Some key).
Proof.
  unfold is_bubble, has_metadata.
  destruct (bool_decide_reflect (metadata m = ∅)) as [E|E]; simpl; [|reflexivity].
  rewrite E, lookup_empty. symmetry. now apply bool_decide_eq_false.
Qed.

Lemma is_bubble_update key title st c m :
  is_bubble key (update_bubble title st c m) = is_bubble key m.
Proof.
  rewrite !is_bubble_id. simpl.
  rewrite lookup_insert_ne by discriminate.
  now rewrite lookup_insert_ne by discriminate.
Qed.

Lemma status_update title st c m :
  metadata (update_bubble title st c m) !! "status" = Some st.
Proof. simpl. apply lookup_insert_eq. Qed.

Lemma is_bubble_new key' title key st c :
  is_bubble key' (new_bubble title key st c) = bool_decide (key = key').
Proof.
  rewrite is_bubble_id. simpl.
  rewrite lookup_insert_ne by discriminate. rewrite lookup_insert_eq.
  apply bool_decide_ext. split; congruence.
Qed.

(** What one call of [create_tool_bubble] does: nothing when the content
    cannot be sliced (the call raises before any write), otherwise the last
    bubble with the key is rewritten where it stands, or, when there is
    none, a new bubble is appended. *)
Lemma create_tool_bubble_spec tool_name content call_id st s :
  let key := bubble_key call_id in
  let title := bubble_title tool_name st in
  (sliceable content = false /\
   create_tool_bubble (Some tool_name) content call_id st s = (None, s)) \/
  (sliceable content = true /\
   exists conv',
     create_tool_bubble (Some tool_name) content call_id st s =
       (Some tt, mkState conv' (active_tool_calls s)) /\
     ((exists l1 x l2,
         conversation s = l1 ++ x :: l2 /\ is_bubble key x = true /\
         bubbles key l2 = [] /\
         conv' = l1 ++ update_bubble title st content x :: l2) \/
      (bubbles key (conversation s) = [] /\
       conv' = conversation s ++ [new_bubble title key st content]))).
Proof.
  cbv zeta. unfold create_tool_bubble, bubble_title.
  unfold mbind, R_bind, read. simpl.
  destruct (update_last _ _ (conversation s)) as [conv'|] eqn:E;
    destruct (sliceable content) eqn:Hs; try (left; split; reflexivity); right;
    (split; [reflexivity|]).
  - exists conv'. split; [reflexivity|]. left.
    apply update_last_Some in E as (l1 & x & l2 & H1 & Hp & Hl2 & ->).
    exists l1, x, l2. auto.
  - eexists. split; [reflexivity|]. right. split; [|reflexivity].
    now apply update_last_None in E.
Qed.

Arguments create_tool_bubble : simpl never.

Lemma bubbles_app key l1 l2 : bubbles key (l1 ++ l2) = bubbles key l1 ++ bubbles key l2.
Proof. apply List.filter_app. Qed.

Lemma is_bubble_same_key k k' m :
  is_bubble k m = true -> is_bubble k' m = true -> k = k'.
Proof.
  rewrite !is_bubble_id. intros H H'.
  apply bool_decide_eq_true in H, H'. congruence.
Qed.

(** How one call of [create_tool_bubble] changes the bubbles of a key [k]:
    not at all (always so when the call raised or was for another key), or
    the last of them is rewritten, or a first one appears; in the last two
    cases the bubble carries the status of the call. *)
Lemma create_tool_bubble_bubbles tool_name content call_id st s k :
  let r := fst (create_tool_bubble (Some tool_name) content call_id st s) in
  let s' := snd (create_tool_bubble (Some tool_name) content call_id st s) in
  (r = None -> s' = s) /\
  active_tool_calls s' = active_tool_calls s /\
  ((bubbles k (conversation s') = bubbles k (conversation s) /\
    (r = Some tt -> bubble_key call_id <> k)) \/
   (exists b x x', bubbles k (conversation s) = b ++ [x] /\
                   bubbles k (conversation s') = b ++ [x'] /\
                   metadata x' !! "status" = Some st) \/
   (bubbles k (conversation s) = [] /\
    exists x', bubbles k (conversation s') = [x'] /\
               metadata x' !! "status" = Some st)).
Proof.
  cbv zeta.
  destruct (create_tool_bubble_spec tool_name content call_id st s)
    as [[_ ->] | (_ & conv' & -> & Hcases)]; simpl.
  { split; [auto|]. split; [auto|]. left. split; [auto | discriminate]. }
  split; [discriminate|]. split; [reflexivity|].
  destruct Hcases as [(l1 & x & l2 & -> & Hx & Hl2 & ->) | [Hnone ->]].
  - rewrite !bubbles_app. simpl. rewrite is_bubble_update.
    destruct (is_bubble k x) eqn:Hk.
    + pose proof (is_bubble_same_key _ _ _ Hx Hk) as <-. rewrite Hl2.
      right. left. eexists _, x, _. split; [reflexivity|]. split; [reflexivity|].
      apply status_update.
    + left. split; [reflexivity|]. intros _ <-. congruence.
  - rewrite bubbles_app. simpl. rewrite is_bubble_new.
    destruct (bool_decide_reflect (bubble_key call_id = k)) as [<- | Hne].
    + right. right. split; [exact Hnone|]. rewrite Hnone. simpl.
      eexists. split; [reflexivity|]. simpl. apply lookup_insert_eq.
    + left. rewrite app_nil_r. auto.
Qed.

(** The number of bubbles of a key does not grow past one, and a bubble
    that is alone and done stays so. *)
Definition keeps (k : string) (conv conv' : list ChatMessage) : Prop :=
  (length (bubbles k conv) <= 1 -> length (bubbles k conv') <= 1)%nat /\
  (done_once k conv -> done_once k conv').

(** From at most one bubble of the key to exactly one, done. *)
Definition settles (k : string) (conv conv' : list ChatMessage) : Prop :=
  (length (bubbles k conv) <= 1)%nat -> done_once k conv'.

Lemma keeps_refl k conv : keeps k conv conv.
Proof. split; auto. Qed.

Lemma keeps_trans k c1 c2 c3 : keeps k c1 c2 -> keeps k c2 c3 -> keeps k c1 c3.
Proof. intros [A B] [C D]. split; auto. Qed.

Lemma snoc_singleton {A} (b : list A) (x y : A) : b ++ [x] = [y] -> b = [] /\ x = y.
Proof.
  destruct b as [|z b]; simpl.
  - now intros [= ->].
  - intros [= -> H]. now destruct b.
Qed.

Lemma snoc_short {A} (b : list A) (x : A) : (length (b ++ [x]) <= 1)%nat -> b = [].
Proof.
  rewrite length_app. simpl. destruct b; simpl; [auto | lia].
Qed.

Lemma create_done_keeps tool_name content call_id s k :
  let r := fst (create_tool_bubble (Some tool_name) content call_id "done" s) in
  let s' := snd (create_tool_bubble (Some tool_name) content call_id "done" s) in
  keeps k (conversation s) (conversation s') /\
  (r = Some tt -> bubble_key call_id = k -> settles k (conversation s) (conversation s')).
Proof.
  cbv zeta.
  destruct (create_tool_bubble_bubbles tool_name content call_id "done" s k)
    as (_ & _ & [[E Hne] | [(b & x & x' & E & E' & Hst) | (E & x' & E' & Hst)]]).
  - split.
    + unfold keeps, done_once. rewrite E. auto.
    + intros Hr Hk. now apply Hne in Hr.
  - split.
    + unfold keeps, done_once. rewrite E, E', !length_app. simpl. split; [auto|].
      intros (m & Hm & _). apply snoc_singleton in Hm as [-> _]. eauto.
    + intros _ _ Hle. rewrite E in Hle. apply snoc_short in Hle as ->.
      exists x'. rewrite E'. auto.
  - split.
    + unfold keeps, done_once. rewrite E, E'. simpl. split; [auto|].
      intros (m & [=] & _).
    + intros _ _ _. exists x'. auto.
Qed.

Section Completed.
Variable json_loads : string -> option json.
Variable py_repr : json -> string.

Lemma on_tool_call_end_completed step tcall s k :
  rs_status step = "completed" ->
  let r := fst (on_tool_call_end json_loads py_repr step tcall s) in
  let s' := snd (on_tool_call_end json_loads py_repr step tcall s) in
  keeps k (conversation s) (conversation s') /\
  (r = Some tt -> shown_as k tcall -> settles k (conversation s) (conversation s')).
Proof.
  intros Hst. cbv zeta. unfold on_tool_call_end. rewrite Hst. simpl.
  unfold mbind, R_bind, read. simpl.
  set (func_name := tracked_name (tc_id tcall) (active_tool_calls s)).
  unfold shown_as.
  destruct (tc_function tcall) as [[output_str|]|]; simpl;
    [| split; [apply keeps_refl | now intros _ (_ & (o & [=] & _) & _)] ..].
  destruct (opt_is "function" (tc_type tcall) && Py.truthy output_str) eqn:Hshown;
    simpl.
  2:{ split; [apply keeps_refl|]. intros _ (Hty & (o & Ho1 & Ho) & _).
      injection Ho1 as <-. rewrite Hty, Ho in Hshown. discriminate. }
  unfold lift.
  destruct (completion_message json_loads py_repr func_name output_str) as [message|];
    simpl; [|split; [apply keeps_refl | discriminate]].
  pose proof (create_done_keeps func_name message (tc_id tcall) s k) as [Hk Hs].
  destruct (create_tool_bubble (Some func_name) message (tc_id tcall) "done" s)
    as [[[]|] s1]; simpl in *.
  - unfold forget_call, mbind, R_bind, read. simpl.
    destruct (tc_id tcall); simpl; split; auto;
      intros _ (_ & _ & Hkey); now apply Hs.
  - split; [exact Hk | discriminate].
Qed.

Lemma for_each_completed step k : forall tcalls s,
  rs_status step = "completed" ->
  let r := fst (for_each (on_tool_call_end json_loads py_repr step) tcalls s) in
  let s' := snd (for_each (on_tool_call_end json_loads py_repr step) tcalls s) in
  keeps k (conversation s) (conversation s') /\
  (r = Some tt -> forall tcall, In tcall tcalls -> shown_as k tcall ->
                  settles k (conversation s) (conversation s')).
Proof.
  induction tcalls as [|tc rest IH]; intros s Hst; cbv zeta; simpl.
  - split; [apply keeps_refl | intros _ tcall []].
  - unfold mbind, R_bind.
    pose proof (on_tool_call_end_completed step tc s k Hst) as [Hk1 Hs1].
    destruct (on_tool_call_end json_loads py_repr step tc s) as [[[]|] s1];
      simpl in *; [|split; [exact Hk1 | discriminate]].
    destruct (IH s1 Hst) as [Hk2 Hs2].
    split; [eapply keeps_trans; eauto|].
    intros Hr tcall [<- | Hin] Hshown Hle.
    + apply Hk2. now apply Hs1.
    + apply (Hs2 Hr tcall Hin Hshown). now apply Hk1.
Qed.

End Completed.

(** *** Message deltas *)

Lemma plain_assistant_set_content c m :
  plain_assistant (set_content c m) = plain_assistant m.
Proof. reflexivity. Qed.

Lemma filter_nil_not_in {A} (p : A -> bool) l x :
  List.filter p l = [] -> In x l -> p x = false.
Proof.
  intros H Hin. destruct (p x) eqn:E; [|reflexivity].
  assert (Hx : In x (List.filter p l)) by (apply List.filter_In; auto).
  rewrite H in Hx. destruct Hx.
Qed.

Lemma last_In {A} (l : list A) x : last l = Some x -> In x l.
Proof.
  intros H. apply last_Some in H as [l' ->]. apply in_or_app. right. now left.
Qed.

(** One delta with text through [EventHandler.on_message_delta]: the buffer
    grows by the text (after a reset when the message is new) and the open
    entry of the transcript shows the whole buffer. *)
Lemma on_message_delta_text id chunks h conv :
  Py.truthy (chunks_text chunks) = true ->
  conv <> [] ->
  let acc :=
    (if bool_decide (_current_message_id h = Some id)
     then _accumulated_text h else "") +:+ chunks_text chunks in
  let out := on_message_delta id chunks h conv in
  fst out = mkEventHandler (Some id) acc /\
  snd out <> [] /\
  exists m, open_entry (snd out) = Some m /\ content m = JStr acc.
Proof.
  intros Ht Hne. cbv zeta. unfold on_message_delta. rewrite Ht.
  set (h0 := if bool_decide (_current_message_id h = Some id) then h
             else mkEventHandler (Some id) "").
  assert (Hid : _current_message_id h0 = Some id).
  { unfold h0. destruct (bool_decide_reflect (_current_message_id h = Some id)); auto. }
  assert (Hacc : _accumulated_text h0 =
                 if bool_decide (_current_message_id h = Some id)
                 then _accumulated_text h else "").
  { unfold h0. now destruct (bool_decide (_current_message_id h = Some id)). }
  rewrite Hid, Hacc.
  set (acc := _ +:+ chunks_text chunks).
  destruct conv as [|c0 conv0]; [contradiction|].
  set (conv := c0 :: conv0) in *.
  destruct (update_last plain_assistant (set_content (JStr acc)) conv) as [conv'|] eqn:E.
  - simpl. split; [reflexivity|].
    apply update_last_Some in E as (l1 & x & l2 & Hc & Hp & Hl2 & ->).
    split; [now destruct l1|].
    exists (set_content (JStr acc) x). split; [|reflexivity].
    unfold open_entry. rewrite List.filter_app. simpl.
    rewrite plain_assistant_set_content, Hp, Hl2. apply last_snoc.
  - apply update_last_None in E.
    assert (Hopen : open_entry (conv ++ [text_message "assistant" acc])
                    = Some (text_message "assistant" acc)).
    { unfold open_entry. rewrite List.filter_app, E. reflexivity. }
    assert (Hsome : conv ++ [text_message "assistant" acc] <> []) by now destruct conv.
    destruct (last conv) as [last_msg|] eqn:Hl.
    + pose proof (filter_nil_not_in _ _ _ E (last_In _ _ Hl)) as Hnp.
      unfold plain_assistant in Hnp.
      replace (negb (String.eqb (role last_msg) "assistant") || has_metadata last_msg)
        with true
        by (destruct (String.eqb (role last_msg) "assistant"),
                     (has_metadata last_msg); simpl in *; congruence).
      split; [reflexivity|]. split; [exact Hsome|].
      exists (text_message "assistant" acc). split; [exact Hopen | reflexivity].
    + split; [reflexivity|]. split; [exact Hsome|].
      exists (text_message "assistant" acc). split; [exact Hopen | reflexivity].
Qed.

Lemma update_last_snoc {A} (p : A -> bool) f l x :
  p x = true -> update_last p f (l ++ [x]) = Some (l ++ [f x]).
Proof.
  intros Hp. induction l as [|y l IH]; simpl; [now rewrite Hp | now rewrite IH].
Qed.

Lemma update_last_skip {A} (p : A -> bool) f l x :
  p x = false ->
  update_last p f (l ++ [x]) = (fun l' => l' ++ [x]) <$> update_last p f l.
Proof.
  intros Hp. induction l as [|y l IH]; simpl; [now rewrite Hp|].
  rewrite IH. destruct (update_last p f l); simpl; [reflexivity|].
  now destruct (p y).
Qed.

Lemma update_last_length {A} (p : A -> bool) f l l' :
  update_last p f l = Some l' -> length l' = length l.
Proof.
  revert l'. induction l as [|y l IH]; simpl; intros l'; [discriminate|].
  destruct (update_last p f l) as [r|].
  - intros [= <-]. simpl. now rewrite (IH r).
  - destruct (p y); [|discriminate]. now intros [= <-].
Qed.

Section Deltas.
Variable json_loads : string -> option json.
Variable py_repr : json -> string.

(** The generator's delta branch when the transcript ends in a plain
    assistant entry with text: the text of the delta is appended to it. *)
Lemma message_delta_extends id chunks s earlier m text :
  conversation s = earlier ++ [m] ->
  plain_assistant m = true ->
  content m = JStr text ->
  Py.truthy (chunks_text chunks) = true ->
  process_event json_loads py_repr (message_delta id chunks) s =
    (Some tt,
     mkState (earlier ++ [set_content (JStr (text +:+ chunks_text chunks)) m])
             (active_tool_calls s)).
Proof.
  intros Hc Hp Hm Ht. unfold process_event, on_message_text. rewrite Ht.
  unfold mbind, R_bind, read. simpl. rewrite Hc, last_snoc.
  unfold plain_assistant in Hp. apply andb_true_iff in Hp as [Hr Hmeta].
  rewrite Hr. apply negb_true_iff in Hmeta. rewrite Hmeta. simpl.
  rewrite Hm. simpl. now rewrite removelast_last.
Qed.

(** The same branch when the transcript ends in anything else: a new plain
    assistant entry is appended. *)
Lemma message_delta_opens id chunks s earlier m :
  conversation s = earlier ++ [m] ->
  plain_assistant m = false ->
  Py.truthy (chunks_text chunks) = true ->
  process_event json_loads py_repr (message_delta id chunks) s =
    (Some tt,
     mkState (conversation s ++ [text_message "assistant" (chunks_text chunks)])
             (active_tool_calls s)).
Proof.
  intros Hc Hp Ht. unfold process_event, on_message_text. rewrite Ht.
  unfold mbind, R_bind, read. simpl. rewrite Hc, last_snoc.
  unfold plain_assistant in Hp.
  now destruct (String.eqb (role m) "assistant"), (has_metadata m).
Qed.

(** A delta with text in a session that runs the registered handler first:
    on a transcript that ends in the open plain assistant entry, the
    handler sets the entry to its buffer and the loop then appends the text
    of the delta to it once more. *)
Lemma delta_handled_then_appended id chunks acc0 tbl earlier text :
  Py.truthy (chunks_text chunks) = true ->
  let acc := acc0 +:+ chunks_text chunks in
  handle (message_delta id chunks) (mkEventHandler (Some id) acc0)
    (earlier ++ [text_message "assistant" text])
    = (mkEventHandler (Some id) acc, earlier ++ [text_message "assistant" acc]) /\
  process_event json_loads py_repr (message_delta id chunks)
    (mkState (earlier ++ [text_message "assistant" acc]) tbl)
    = (Some tt,
       mkState (earlier ++ [text_message "assistant" (acc +:+ chunks_text chunks)]) tbl).
Proof.
  intros Ht acc. split.
  - unfold handle, on_message_delta. simpl.
    rewrite bool_decide_eq_true_2 by reflexivity. rewrite Ht. simpl.
    destruct (earlier ++ [text_message "assistant" text]) as [|c0 l0] eqn:E;
      [now destruct earlier|].
    rewrite <- E.
    now rewrite (update_last_snoc plain_assistant _ earlier
                   (text_message "assistant" text) eq_refl).
  - now rewrite (message_delta_extends id chunks
                   (mkState (earlier ++ [text_message "assistant" acc]) tbl)
                   earlier (text_message "assistant" acc) acc).
Qed.

(** The first delta of a message, on a transcript that ends in the user's
    message: the transcript afterwards ends in a new plain assistant entry,
    and the handler holds the text of the delta. *)
Lemma first_delta_handled id chunks history u tbl :
  role u = "user" ->
  Py.truthy (chunks_text chunks) = true ->
  let conv := history ++ [u] in
  let handled := handle (message_delta id chunks) new_handler conv in
  fst handled = mkEventHandler (Some id) (chunks_text chunks) /\
  exists earlier text,
    length earlier = length conv /\
    process_event json_loads py_repr (message_delta id chunks)
      (mkState (snd handled) tbl)
      = (Some tt, mkState (earlier ++ [text_message "assistant" text]) tbl).
Proof.
  intros Hu Ht. cbv zeta.
  assert (Hpu : plain_assistant u = false) by (unfold plain_assistant; now rewrite Hu).
  unfold handle, on_message_delta, new_handler. simpl. rewrite Ht.
  destruct (history ++ [u]) as [|c0 l0] eqn:E; [now destruct history|].
  rewrite <- E. rewrite (update_last_skip _ _ _ _ Hpu), last_snoc, Hu. simpl.
  destruct (update_last plain_assistant _ history) as [history'|] eqn:Eh; simpl.
  - split; [reflexivity|]. apply update_last_length in Eh.
    exists (history' ++ [u]), (chunks_text chunks).
    split; [now rewrite !length_app, Eh|].
    now apply (message_delta_opens id chunks (mkState (history' ++ [u]) tbl)
                 history' u).
  - split; [reflexivity|].
    exists (history ++ [u]), (chunks_text chunks +:+ chunks_text chunks).
    split; [reflexivity|].
    now apply (message_delta_extends id chunks
                 (mkState ((history ++ [u]) ++ [text_message "assistant" (chunks_text chunks)]) tbl)
                 (history ++ [u]) (text_message "assistant" (chunks_text chunks))
                 (chunks_text chunks)).
Qed.

End Deltas.

End ChatFacts.

(* ===================================================================== *)
(** ** The reducer: stated properties *)
(* ===================================================================== *)

Module ChatProperties.
Import Chat ChatSpec ChatFacts.

(** C1.  The code at a completed web search.  The [run_step] branch of the
    loop shows a completed call only when it is a function call that
    carries an output: for every transcript and table, the completed step
    of a web search, and of a function call without output, is processed to
    its end and changes nothing.  So in the turn below, where the search
    [call_2] is announced and its completed step then arrives twice, the
    final transcript holds exactly one bubble with the key of the call, and
    that bubble is still pending with the text of the announcement: there
    is no done bubble.  ([EventHandler.on_run_step] has the two cases the
    loop lacks, but it writes through [create_tool_bubble_fn], which is
    never set.) *)
Theorem completed_search_twice_stays_pending :
  (forall json_loads py_repr call_id s,
     process_event json_loads py_repr (completed_search call_id) s = (Some tt, s) /\
     process_event json_loads py_repr
       (run_step (mkRunStep (Some "tool_calls")
                    [mkToolCall (Some call_id) (Some "function") (Some (Some ""))]
                    "completed" None)) s = (Some tt, s)) /\
  (let search :=
     step_delta (Some "tool_calls")
       [mkToolCallDelta (Some "call_2") (Some "bing_grounding") None
          "https://www.bing.com/search?q=opening+hours"] in
   let turn :=
     fst (azure_store_chat not_json no_repr 10%float 0%float "When are you open?" [] Sent
            (mkStream [search; completed_search "call_2"; completed_search "call_2"] None)) in
   exists final b,
     last turn = Some final /\
     bubbles "tool-call_2" final = [b] /\
     metadata b !! "status" = Some "pending" /\
     content b = JStr "Searching for 'opening+hours'..." /\
     ~ done_once "tool-call_2" final).
Proof.
  split.
  - intros json_loads py_repr call_id s. split; destruct s; reflexivity.
  - cbv zeta. eexists. eexists.
    split; [vm_compute; reflexivity|].
    split; [vm_compute; reflexivity|].
    split; [vm_compute; reflexivity|].
    split; [vm_compute; reflexivity|].
    intros (m & Hm & Hdone). vm_compute in Hm. injection Hm as <-.
    vm_compute in Hdone. discriminate.
Qed.

(** X23. What holds of a replayed completion.  In a transcript with at
    most one bubble of the call's key, a completed [tool_calls] step that
    reports a function call with a non-empty output and is processed to its
    end leaves exactly one bubble with that key, marked done; processing
    the same item again leaves exactly one, marked done.  And for every
    transcript: a call of [create_tool_bubble] whose key is already in the
    transcript keeps the length of the transcript and the number of bubbles
    of every key; it either changes nothing or rewrites, in place, the
    bubble with that key nearest the end. *)
Theorem completed_call_twice_one_done_bubble :
  (forall json_loads py_repr step tcall s,
     rs_type step = Some "tool_calls" ->
     rs_status step = "completed" ->
     In tcall (rs_tool_calls step) ->
     shown_as (bubble_key (tc_id tcall)) tcall ->
     (length (bubbles (bubble_key (tc_id tcall)) (conversation s)) <= 1)%nat ->
     fst (process_event json_loads py_repr (run_step step) s) = Some tt ->
     let once := snd (process_event json_loads py_repr (run_step step) s) in
     let twice := snd (process_event json_loads py_repr (run_step step) once) in
     done_once (bubble_key (tc_id tcall)) (conversation once) /\
     done_once (bubble_key (tc_id tcall)) (conversation twice)) /\
  (forall tool_name content call_id st s,
     let key := bubble_key call_id in
     let s' := snd (create_tool_bubble tool_name content call_id st s) in
     bubbles key (conversation s) <> [] ->
     length (conversation s') = length (conversation s) /\
     (forall k, length (bubbles k (conversation s')) = length (bubbles k (conversation s))) /\
     (s' = s \/
      exists l1 x l2 title,
        conversation s = l1 ++ x :: l2 /\ is_bubble key x = true /\
        bubbles key l2 = [] /\
        conversation s' = l1 ++ update_bubble title st content x :: l2)).
Proof.
  split.
  - intros json_loads py_repr step tcall s Hty Hst Hin Hshown Hle Hok. cbv zeta.
    simpl in *. rewrite Hty in *. simpl in *.
    pose proof (for_each_completed json_loads py_repr step (bubble_key (tc_id tcall))
                  (rs_tool_calls step) s Hst) as [_ Hsettle].
    specialize (Hsettle Hok tcall Hin Hshown Hle).
    split; [exact Hsettle|].
    set (once := snd (for_each _ (rs_tool_calls step) s)) in *.
    pose proof (for_each_completed json_loads py_repr step (bubble_key (tc_id tcall))
                  (rs_tool_calls step) once Hst) as [[_ Hkeep] _].
    now apply Hkeep.
  - intros [tool_name|] content call_id st s; cbv zeta; intros Hsome;
      [|simpl; repeat split; auto].
    destruct (create_tool_bubble_spec tool_name content call_id st s)
      as [[_ ->] | (_ & conv' & -> & [(l1 & x & l2 & Hc & Hx & Hl2 & ->) | [Hnone _]])];
      simpl; [repeat split; auto | | contradiction].
    rewrite Hc. repeat split.
    + rewrite !length_app. reflexivity.
    + intros k. rewrite !bubbles_app, !length_app. simpl.
      rewrite is_bubble_update. now destruct (is_bubble k x).
    + right. exists l1, x, l2, (bubble_title tool_name st). auto.
Qed.

(** The first report on a call yields its done bubble, and the replay keeps
    exactly that one. *)
Lemma completed_call_twice_one_done_bubble_witness :
  let s := mkState [text_message "user" "How many SKU001 are left?"] ∅ in
  let item := completed_call "call_1" "OK" in
  let once := snd (process_event not_json no_repr item s) in
  let twice := snd (process_event not_json no_repr item once) in
  done_once "tool-call_1" (conversation once) /\
  done_once "tool-call_1" (conversation twice).
Proof.
  cbv zeta.
  refine (proj1 completed_call_twice_one_done_bubble not_json no_repr
            (mkRunStep (Some "tool_calls")
               [mkToolCall (Some "call_1") (Some "function") (Some (Some "OK"))]
               "completed" None)
            (mkToolCall (Some "call_1") (Some "function") (Some (Some "OK")))
            (mkState [text_message "user" "How many SKU001 are left?"] ∅)
            eq_refl eq_refl (or_introl eq_refl) _ _ eq_refl).
  - split; [reflexivity|]. split; [|reflexivity]. exists "OK". split; reflexivity.
  - vm_compute. lia.
Defined.

(** C6.  The code at the three fragments.  The session runs the
    registered handler on each delta and then hands the delta to the loop,
    and both write the transcript they share: the handler sets the open
    plain assistant entry to its buffer, and the loop appends the fragment
    to that entry once more.  The turn below yields the entry with [HelHel],
    [Hello worlo wor] and [Hello worldld]; and from every transcript a turn
    starts with (a history and the user's message) the final transcript has
    one entry more, a plain assistant entry with content [Hello worldld],
    not [Hello world]. *)
Theorem message_delta_text_is_written_twice :
  fst (azure_store_chat not_json no_repr 10%float 0%float "Hi" [] Sent
         (mkStream (hello_world "msg_1") None))
  = [ [text_message "user" "Hi"];
      [text_message "user" "Hi"; text_message "assistant" "HelHel"];
      [text_message "user" "Hi"; text_message "assistant" "Hello worlo wor"];
      [text_message "user" "Hi"; text_message "assistant" "Hello worldld"];
      [text_message "user" "Hi"; text_message "assistant" "Hello worldld"] ] /\
  (forall json_loads py_repr history user_message id,
     let conv := history ++ [text_message "user" user_message] in
     exists earlier,
       length earlier = length conv /\
       last (run_stream json_loads py_repr (mkStream (hello_world id) None) conv)
       = Some (earlier ++ [text_message "assistant" "Hello worldld"])).
Proof.
  split; [vm_compute; reflexivity|].
  intros json_loads py_repr history user_message id. cbv zeta.
  set (conv := history ++ [text_message "user" user_message]).
  pose proof (first_delta_handled json_loads py_repr id [Some "Hel"] history
                (text_message "user" user_message) ∅ eq_refl eq_refl) as H1.
  cbv zeta in H1. fold conv in H1.
  unfold run_stream, hello_world.
  cbn [items failure consume conversation active_tool_calls].
  destruct (handle (message_delta id [Some "Hel"]) new_handler conv) as [h1 conv1].
  cbn [fst snd] in H1. destruct H1 as (-> & earlier & text & Hlen & E1).
  exists earlier. split; [exact Hlen|].
  rewrite E1. cbn [conversation active_tool_calls].
  change (chunks_text [Some "Hel"]) with "Hel".
  assert (Hh2 : handle (message_delta id [Some "lo wor"])
                  (mkEventHandler (Some id) "Hel")
                  (earlier ++ [text_message "assistant" text])
                = (mkEventHandler (Some id) "Hello wor",
                   earlier ++ [text_message "assistant" "Hello wor"]))
    by exact (proj1 (delta_handled_then_appended json_loads py_repr id [Some "lo wor"]
                       "Hel" ∅ earlier text eq_refl)).
  assert (E2 : process_event json_loads py_repr (message_delta id [Some "lo wor"])
                 (mkState (earlier ++ [text_message "assistant" "Hello wor"]) ∅)
               = (Some tt,
                  mkState (earlier ++ [text_message "assistant" "Hello worlo wor"]) ∅))
    by exact (proj2 (delta_handled_then_appended json_loads py_repr id [Some "lo wor"]
                       "Hel" ∅ earlier text eq_refl)).
  assert (Hh3 : handle (message_delta id [Some "ld"])
                  (mkEventHandler (Some id) "Hello wor")
                  (earlier ++ [text_message "assistant" "Hello worlo wor"])
                = (mkEventHandler (Some id) "Hello world",
                   earlier ++ [text_message "assistant" "Hello world"]))
    by exact (proj1 (delta_handled_then_appended json_loads py_repr id [Some "ld"]
                       "Hello wor" ∅ earlier "Hello worlo wor" eq_refl)).
  assert (E3 : process_event json_loads py_repr (message_delta id [Some "ld"])
                 (mkState (earlier ++ [text_message "assistant" "Hello world"]) ∅)
               = (Some tt,
                  mkState (earlier ++ [text_message "assistant" "Hello worldld"]) ∅))
    by exact (proj2 (delta_handled_then_appended json_loads py_repr id [Some "ld"]
                       "Hello wor" ∅ earlier "Hello worlo wor" eq_refl)).
  rewrite Hh2, E2. cbn [conversation active_tool_calls]. rewrite Hh3, E3.
  cbn [conversation active_tool_calls snd]. apply last_snoc.
Qed.

(** C7. When the iteration over the session ends with an exception, the
    final transcript is the transcript as it stood after the last item
    delivered, with one entry appended: an assistant entry without metadata
    whose content reports the exception.  Without an exception the final
    transcript is that transcript itself.  And so for a whole turn of
    [azure_store_chat] that passed the two guards and sent the message. *)
Theorem stream_failure_appends_one_error_entry json_loads py_repr stream_items ex conv :
  let before :=
    conversation
      (snd (snd (consume json_loads py_repr stream_items new_handler (mkState conv ∅)))) in
  let entry := stream_error_entry ex in
  last (run_stream json_loads py_repr (mkStream stream_items (Some ex)) conv)
    = Some (before ++ [entry]) /\
  last (run_stream json_loads py_repr (mkStream stream_items None) conv) = Some before /\
  role entry = "assistant" /\ has_metadata entry = false /\
  content entry = JStr ("An error occurred while processing your request: " +:+ ex) /\
  (forall current_time last_message_sent_time user_message history,
     PrimFloat.ltb (PrimFloat.sub current_time last_message_sent_time) 2%float = false ->
     Py.truthy (Py.strip user_message) = true ->
     conv = history ++ [text_message "user" user_message] ->
     last (fst (azure_store_chat json_loads py_repr current_time last_message_sent_time
                  user_message history Sent (mkStream stream_items (Some ex))))
       = Some (before ++ [entry])).
Proof.
  cbv zeta.
  assert (Hfail : last (run_stream json_loads py_repr
                          (mkStream stream_items (Some ex)) conv)
                  = Some (conversation
                            (snd (snd (consume json_loads py_repr stream_items
                                         new_handler (mkState conv ∅))))
                          ++ [stream_error_entry ex])).
  { unfold run_stream. cbn [items failure].
    destruct (consume json_loads py_repr stream_items new_handler (mkState conv ∅))
      as [yields [h s]].
    apply last_snoc. }
  split; [exact Hfail|]. split.
  { unfold run_stream. cbn [items failure].
    destruct (consume json_loads py_repr stream_items new_handler (mkState conv ∅))
      as [yields [h s]].
    apply last_snoc. }
  repeat split.
  intros current_time last_message_sent_time user_message history Hd Hm ->.
  unfold azure_store_chat. rewrite Hd, Hm. cbn [negb fst].
  rewrite <- Hfail.
  destruct (run_stream json_loads py_repr (mkStream stream_items (Some ex))
              (history ++ [text_message "user" user_message])) as [|y ys] eqn:E;
    [|reflexivity].
  unfold run_stream in E.
  destruct (consume _ _ _ _ _) as [yields [h s]] in E. now destruct yields.
Qed.

(** A turn in which the session fails after one text delta (which the
    handler and the loop have both written). *)
Lemma stream_failure_appends_one_error_entry_witness :
  last (fst (azure_store_chat not_json no_repr 10%float 0%float "Hi" [] Sent
               (mkStream [message_delta "msg_1" [Some "Hel"]] (Some "connection reset"))))
  = Some [text_message "user" "Hi"; text_message "assistant" "HelHel";
          text_message "assistant"
            "An error occurred while processing your request: connection reset"].
Proof.
  exact (proj2 (proj2 (proj2 (proj2 (proj2
           (stream_failure_appends_one_error_entry not_json no_repr
              [message_delta "msg_1" [Some "Hel"]] "connection reset"
              [text_message "user" "Hi"])))))
           10%float 0%float "Hi" [] eq_refl eq_refl eq_refl).
Defined.

End ChatProperties.

(* ===================================================================== *)
(** ** The inventory tools: further properties *)
(* ===================================================================== *)

Module StoreExtras.
Import Store DictFacts StoreFacts StoreSpec.

(** *** Helper facts *)

(** Replacing the value of a present key by one with the same image under
    [g] leaves the table unchanged as seen through [g]. *)
Lemma map_set_same {V W} (g : V -> W) k v v' (d : Dict.t V) :
  Dict.get k d = Some v -> g v' = g v ->
  map (fun '(k0, x) => (k0, g x)) (Dict.set k v' d) =
  map (fun '(k0, x) => (k0, g x)) d.
Proof.
  intros Hget Hg. induction d as [|[k0 v0] d IH]; simpl in *; [discriminate|].
  destruct (String.eqb k k0) eqn:E; simpl.
  - apply String.eqb_eq in E. subst k0. injection Hget as ->. now rewrite Hg.
  - now rewrite IH.
Qed.

Lemma write_slot_shape shelf_id si pi item_id layouts :
  shape (write_slot shelf_id si pi item_id layouts) = shape layouts.
Proof.
  unfold write_slot.
  destruct (Dict.get shelf_id layouts) as [layout|] eqn:Hl; [|reflexivity].
  destruct (layout !! Z.to_nat si) as [row|] eqn:Hr; [|reflexivity].
  unfold shape. apply (map_set_same (map length) shelf_id layout); [exact Hl|].
  change (map length) with (fmap (M:=list) (length (A:=option string))).
  rewrite list_fmap_insert, length_insert.
  apply list_insert_id. now rewrite list_lookup_fmap, Hr.
Qed.

(** What any call can do to the shelves: nothing, or one slot write. *)
Lemma run_shelves c s :
  shelf_layouts (snd (run c s)) = shelf_layouts s \/
  exists shelf_id si pi item_id,
    shelf_layouts (snd (run c s)) =
    write_slot shelf_id si pi item_id (shelf_layouts s).
Proof.
  assert (Hupd : forall i q r s0,
            shelf_layouts (snd (update_inventory_count i q r s0)) = shelf_layouts s0).
  { intros i q r s0. destruct (Dict.get i (inventory s0)) eqn:H.
    - now rewrite (update_inventory_count_known _ _ _ _ _ H).
    - now rewrite (update_inventory_count_unknown _ _ _ _ H). }
  assert (Hmark : forall i sh si pi q,
            shelf_layouts (snd (mark_item_restocked i sh si pi q s)) = shelf_layouts s \/
            shelf_layouts (snd (mark_item_restocked i sh si pi q s)) =
              write_slot sh si pi i (shelf_layouts s)).
  { intros i sh si pi q. destruct (Spec.valid_restock s i sh si pi q) eqn:V.
    - destruct (mark_item_restocked_valid _ _ _ _ _ _ V) as (it & _ & ->). cbv zeta.
      right.
      pose proof (Hupd i q ("Restocked on " +:+ slot_label sh si pi)
                    (with_shelf_layouts (write_slot sh si pi i (shelf_layouts s)) s)) as H.
      destruct (update_inventory_count _ _ _ _) as [u s']. exact H.
    - destruct (mark_item_restocked_invalid _ _ _ _ _ _ V) as (msg & ->). now left. }
  destruct c as [i|i|sh|i q t d|r d|cat m|i q rs|i sh si pi q|i q n| |img q]; simpl.
  - left. now rewrite check_item_stock_frame.
  - left. now rewrite find_item_location_frame.
  - left. now rewrite get_shelf_layout_frame.
  - left. now destruct (request_item_from_storage_effect s i q t d) as [-> | ->].
  - left. destruct (Dict.get r (storage_requests s)) eqn:H.
    + now rewrite (check_delivery_status_known _ _ _ _ H).
    + now rewrite (check_delivery_status_unknown _ _ _ H).
  - now left.
  - left. apply Hupd.
  - destruct (Hmark i sh si pi q) as [H | H]; [now left | right; eauto].
  - left. destruct (log_damaged_item_effect s i q n) as (reason & [-> | ->]);
      [reflexivity | apply Hupd].
  - now left.
  - destruct (identify_effect s img q) as [-> | (sh & si & pi & ->)]; [now left|].
    destruct (Hmark img sh si pi q) as [H | H]; [now left | right; eauto].
Qed.

(** X1. Whatever tool is called with whatever arguments, the shelf units
    keep their identifiers, their order, their number of levels and the
    length of every level. *)
Theorem shelf_dimensions_never_change c s :
  shape (shelf_layouts (snd (run c s))) = shape (shelf_layouts s).
Proof.
  destruct (run_shelves c s) as [-> | (sh & si & pi & i & ->)];
    [reflexivity | apply write_slot_shape].
Qed.

(** X2. Whatever tool is called, the inventory keeps the same item
    identifiers in the same order, and every item keeps its name, category,
    shelf and position: only stock counts change. *)
Theorem items_keep_their_identity c s :
  identity (inventory (snd (run c s))) = identity (inventory s).
Proof.
  destruct (run_step_tables c s) as [[-> | (i & it & n & Hi & _ & ->)] _];
    [reflexivity|].
  unfold identity.
  exact (map_set_same (fun it => (name it, category it, location_id it, position it))
           i it (with_stock n it) (inventory s) Hi eq_refl).
Qed.

(** X3. The list of shelf identifiers that [get_store_layout_overview]
    reports, and its count, are the same before and after any tool call, and
    the count is the number of identifiers listed. *)
Theorem store_overview_is_stable c s :
  fst (get_store_layout_overview (snd (run c s))) = fst (get_store_layout_overview s) /\
  exists shelf_ids,
    fst (get_store_layout_overview s) =
      JObj [("shelf_ids", JArr (map JStr shelf_ids));
            ("count", JNum (Z.of_nat (length shelf_ids)))].
Proof.
  split; [|eexists; reflexivity].
  assert (Hkeys : forall l : Dict.t Layout, Dict.keys l = map fst (shape l)).
  { intros l. unfold shape, Dict.keys. rewrite map_map.
    apply map_ext. now intros [k v]. }
  unfold get_store_layout_overview. run_store.
  now rewrite !Hkeys, shelf_dimensions_never_change.
Qed.

(** A slot write changes the addressed slot only. *)
Lemma write_slot_other layouts shelf_id si pi item_id shelf_id' si' pi' :
  shelf_id' <> shelf_id \/ Z.to_nat si' <> Z.to_nat si \/ Z.to_nat pi' <> Z.to_nat pi ->
  Spec.slot_at (write_slot shelf_id si pi item_id layouts) shelf_id' si' pi' =
  Spec.slot_at layouts shelf_id' si' pi'.
Proof.
  intros Hne. unfold write_slot.
  destruct (Dict.get shelf_id layouts) as [layout|] eqn:Hl; [|reflexivity].
  destruct (layout !! Z.to_nat si) as [row|] eqn:Hr; [|reflexivity].
  unfold Spec.slot_at.
  destruct (String.eqb shelf_id shelf_id') eqn:E.
  - apply String.eqb_eq in E. subst shelf_id'. rewrite get_set_eq, Hl. simpl.
    destruct (Nat.eq_dec (Z.to_nat si') (Z.to_nat si)) as [Esi | Nsi].
    + rewrite Esi, Hr.
      rewrite list_lookup_insert_eq by (eapply lookup_lt_Some; eauto). simpl.
      apply list_lookup_insert_ne. destruct Hne as [H | [H | H]]; congruence.
    + rewrite list_lookup_insert_ne by congruence. reflexivity.
  - apply String.eqb_neq in E. now rewrite get_set_ne.
Qed.

Lemma mark_item_restocked_shelves s i sh si pi q :
  shelf_layouts (snd (mark_item_restocked i sh si pi q s)) = shelf_layouts s \/
  shelf_layouts (snd (mark_item_restocked i sh si pi q s)) =
    write_slot sh si pi i (shelf_layouts s).
Proof.
  destruct (Spec.valid_restock s i sh si pi q) eqn:V.
  - destruct (mark_item_restocked_valid _ _ _ _ _ _ V) as (it & Hit & ->). cbv zeta.
    right. rewrite (update_inventory_count_known _ _ _ _ it) by exact Hit.
    reflexivity.
  - destruct (mark_item_restocked_invalid _ _ _ _ _ _ V) as (msg & ->). now left.
Qed.

(** X4. [mark_item_restocked] touches no slot but the one it is given:
    every slot at other coordinates reads the same before and after the
    call, whether the call succeeds or fails. *)
Theorem mark_item_restocked_writes_one_slot
    s item_id shelf_id shelf_index position_index quantity shelf_id' si' pi' :
  shelf_id' <> shelf_id \/ Z.to_nat si' <> Z.to_nat shelf_index \/
  Z.to_nat pi' <> Z.to_nat position_index ->
  Spec.slot_at
    (shelf_layouts
       (snd (mark_item_restocked item_id shelf_id shelf_index position_index quantity s)))
    shelf_id' si' pi'
  = Spec.slot_at (shelf_layouts s) shelf_id' si' pi'.
Proof.
  intros Hne.
  destruct (mark_item_restocked_shelves s item_id shelf_id shelf_index position_index quantity)
    as [-> | ->]; [reflexivity | now apply write_slot_other].
Qed.

(** Restocking SKU002 at A1, level 0, position 1 leaves its neighbour at
    position 0 alone. *)
Lemma mark_item_restocked_writes_one_slot_witness :
  Spec.slot_at (shelf_layouts (snd (mark_item_restocked "SKU002" "A1" 0 1 5 initial_state)))
    "A1" 0 0
  = Spec.slot_at (shelf_layouts initial_state) "A1" 0 0.
Proof.
  apply (mark_item_restocked_writes_one_slot initial_state "SKU002" "A1" 0 1 5 "A1" 0 0).
  right. right. vm_compute. discriminate.
Defined.

(** The image restock changes nothing or is a restock at a slot that held
    the item or was free. *)
Lemma identify_effect_slot s image_data quantity :
  snd (identify_and_restock_item_from_image image_data quantity s) = s \/
  exists shelf_id (r p : nat),
    snd (identify_and_restock_item_from_image image_data quantity s) =
      snd (mark_item_restocked image_data shelf_id (Z.of_nat r) (Z.of_nat p) quantity s) /\
    (Spec.slot_at (shelf_layouts s) shelf_id (Z.of_nat r) (Z.of_nat p)
       = Some (Some image_data) \/
     Spec.slot_at (shelf_layouts s) shelf_id (Z.of_nat r) (Z.of_nat p) = Some None).
Proof.
  unfold identify_and_restock_item_from_image.
  destruct (Py.truthy image_data); simpl; [|now left]. run_store.
  pose proof (find_item_location_frame image_data s) as Hf.
  destruct (find_item_location image_data s) as [ld s0]. simpl in Hf. subst s0.
  destruct (has_key "error" ld); [now left|].
  destruct (field "location_id" ld) as [[| | | shelf_id | |]|]; try now left.
  unfold resolve_slot, Spec.slot_at.
  destruct (Dict.get shelf_id (shelf_layouts s)) as [rows|] eqn:Hrows; [|now left].
  assert (Hslot : forall (x : option string) r p,
            Spec.first_slot x rows r p ->
            (rows !! Z.to_nat (Z.of_nat r)) ≫= (fun row => row !! Z.to_nat (Z.of_nat p))
            = Some x).
  { intros x r p [(row & Hr & Hp & _) _]. rewrite !Nat2Z.id, Hr. exact Hp. }
  destruct (scan_rows_spec image_data rows 0 (-1, -1)) as
    [(r & p & Hfs & ->) | (Hno & [[Hbad _] | [_ [(r & p & Hfs & ->) | [Hnone ->]]]])];
    [lia | | simpl in Hbad; congruence | | now left].
  - right. exists shelf_id, r, p. simpl. rewrite Z.add_0_l.
    replace ((Z.of_nat r =? -1) || (Z.of_nat p =? -1)) with false by lia.
    split; [|left; rewrite Hrows; simpl; now apply Hslot].
    destruct (mark_item_restocked _ _ _ _ _ _) as [rd s'].
    now destruct (has_key "error" rd).
  - right. exists shelf_id, r, p. simpl. rewrite Z.add_0_l.
    replace ((Z.of_nat r =? -1) || (Z.of_nat p =? -1)) with false by lia.
    split; [|right; rewrite Hrows; simpl; now apply Hslot].
    destruct (mark_item_restocked _ _ _ _ _ _) as [rd s'].
    now destruct (has_key "error" rd).
Qed.

(** X5. [identify_and_restock_item_from_image] never displaces another
    product: a slot that holds a different item before the call holds it
    after the call, for every input. *)
Theorem image_restock_never_overwrites_another_item
    s image_data quantity shelf_id si pi other :
  Spec.slot_at (shelf_layouts s) shelf_id si pi = Some (Some other) ->
  other <> image_data ->
  Spec.slot_at
    (shelf_layouts (snd (identify_and_restock_item_from_image image_data quantity s)))
    shelf_id si pi
  = Some (Some other).
Proof.
  intros Hslot Hother.
  destruct (identify_effect_slot s image_data quantity)
    as [-> | (sh & r & p & -> & Hheld)]; [exact Hslot|].
  destruct (mark_item_restocked_shelves s image_data sh (Z.of_nat r) (Z.of_nat p) quantity)
    as [-> | ->]; [exact Hslot|].
  destruct (String.eqb shelf_id sh) eqn:E;
    [apply String.eqb_eq in E; subst sh | apply String.eqb_neq in E].
  - destruct (Nat.eq_dec (Z.to_nat si) (Z.to_nat (Z.of_nat r))) as [Er | Nr].
    + destruct (Nat.eq_dec (Z.to_nat pi) (Z.to_nat (Z.of_nat p))) as [Ep | Np].
      * exfalso. unfold Spec.slot_at in *. rewrite Er, Ep in Hslot.
        destruct Hheld as [H | H]; rewrite H in Hslot; congruence.
      * rewrite write_slot_other by auto. exact Hslot.
    + rewrite write_slot_other by auto. exact Hslot.
  - rewrite write_slot_other by auto. exact Hslot.
Qed.

(** Scanning SKU002 on the fixture leaves the SKU001 at A1, level 0,
    position 0 in place. *)
Lemma image_restock_never_overwrites_another_item_witness :
  Spec.slot_at
    (shelf_layouts (snd (identify_and_restock_item_from_image "SKU002" 3 initial_state)))
    "A1" 0 0
  = Some (Some "SKU001").
Proof.
  apply (image_restock_never_overwrites_another_item initial_state "SKU002" 3 "A1" 0 0
           "SKU001" eq_refl).
  discriminate.
Defined.

(** X6. [request_item_from_storage] returns an error exactly when the item
    is unknown, the target shelf is unknown or the quantity is not positive,
    and then none of the three tables changes: no request is recorded. *)
Theorem request_item_from_storage_all_or_nothing s item_id quantity target draw :
  let call := request_item_from_storage item_id quantity target draw s in
  let valid :=
    Dict.mem item_id (inventory s) && Dict.mem target (shelf_layouts s) &&
    (0 <? quantity) in
  (is_error (fst call) <-> valid = false) /\
  (valid = false -> snd call = s).
Proof.
  cbv zeta. unfold is_error, request_item_from_storage, Dict.mem. run_store.
  destruct (Dict.get item_id (inventory s)); simpl; [|now repeat split].
  destruct (Dict.get target (shelf_layouts s)); simpl; [|now repeat split].
  destruct (Z.leb_spec quantity 0), (Z.ltb_spec 0 quantity); simpl;
    try lia; (split; [split|]); auto; discriminate.
Qed.

(** X7. [log_damaged_item] checks the quantity before it looks at the item:
    a quantity that is not positive gives the quantity error and no change,
    even for an unknown item.  With a positive quantity and a known item the
    stock drops by the quantity but not below zero, the result embeds the
    inventory update with [change = -quantity], and shelves and requests
    stay as they were. *)
Theorem log_damaged_item_removes_stock s item_id quantity notes :
  let call := log_damaged_item item_id quantity notes s in
  (quantity <= 0 ->
   fst call = error "Quantity must be positive." /\ snd call = s) /\
  (0 < quantity ->
   forall item, Dict.get item_id (inventory s) = Some item ->
     let left_over := Z.max 0 (stock item - quantity) in
     (exists item',
        Dict.get item_id (inventory (snd call)) = Some item' /\
        stock item' = left_over /\
        item' = mkItem (name item) left_over (category item) (location_id item)
                  (position item)) /\
     has_key "error" (fst call) = false /\
     (exists update_data,
        field "inventory_update" (fst call) = Some update_data /\
        field "previous_stock" update_data = Some (JNum (stock item)) /\
        field "new_stock" update_data = Some (JNum left_over) /\
        field "change" update_data = Some (JNum (- quantity))) /\
     shelf_layouts (snd call) = shelf_layouts s /\
     storage_requests (snd call) = storage_requests s).
Proof.
  cbv zeta. unfold log_damaged_item. split.
  - intros Hq. replace (quantity <=? 0) with true by lia. now split.
  - intros Hq item Hi. replace (quantity <=? 0) with false by lia.
    run_store. rewrite (update_inventory_count_known _ _ _ _ _ Hi). simpl.
    rewrite get_set_eq. replace (stock item + - quantity) with (stock item - quantity) by lia.
    split; [eexists; split; [reflexivity|]; split; reflexivity|].
    repeat split. eexists. repeat split.
Qed.

(** Which items [low_stock_items] lists. *)
Lemma low_stock_items_In category min_stock_level inv e :
  In e (low_stock_items category min_stock_level inv) <->
  exists item_id it,
    In (item_id, it) inv /\ stock it < min_stock_level /\
    in_category category it /\ e = low_stock_entry item_id it.
Proof.
  induction inv as [|[k it] inv IH]; simpl.
  - split; [tauto | intros (? & ? & [] & _)].
  - assert (Hcat : (match category with
                    | None => true
                    | Some c => match Store.category it with
                                | Some c' => String.eqb c' c
                                | None => false
                                end
                    end) = true <-> in_category category it).
    { unfold in_category. destruct category as [c|]; [|tauto].
      destruct (Store.category it) as [c'|]; [|split; discriminate].
      rewrite String.eqb_eq. split; congruence. }
    assert (Hentry : JObj [("item_id", JStr k); ("name", JStr (name it));
                           ("current_stock", JNum (stock it));
                           ("location_id", opt_str (location_id it) "N/A")]
                     = low_stock_entry k it).
    { unfold low_stock_entry, opt_str. now destruct (location_id it). }
    rewrite Hentry.
    destruct ((stock it <? min_stock_level) && _) eqn:Hkeep.
    + apply andb_true_iff in Hkeep as [Hlow Hc]. apply Hcat in Hc.
      simpl. rewrite IH. split.
      * intros [<- | (k' & it' & Hin & Hrest)]; [exists k, it | exists k', it'].
        -- repeat split; auto. lia.
        -- tauto.
      * intros (k' & it' & [[= -> ->] | Hin] & Hrest); [left; symmetry; apply Hrest|].
        right. exists k', it'. tauto.
    + rewrite IH. split.
      * intros (k' & it' & Hin & Hrest). exists k', it'. tauto.
      * intros (k' & it' & [[= -> ->] | Hin] & Hlow & Hc & He);
          [|exists k', it'; tauto].
        apply Hcat in Hc. rewrite Hc in Hkeep.
        apply andb_false_iff in Hkeep as [Hf | Hf]; [lia | discriminate].
Qed.

(** X8. [get_items_needing_restock] lists exactly the items whose stock is
    strictly below the threshold and, when a category is given, whose
    category is that one; [count] is the length of the list; the tables are
    not changed. *)
Theorem low_stock_listing_is_exact category min_stock_level s :
  exists items,
    get_items_needing_restock category min_stock_level s =
      (JObj [("low_stock_items", JArr items);
             ("count", JNum (Z.of_nat (length items)))], s) /\
    forall e,
      In e items <->
      exists item_id it,
        In (item_id, it) (inventory s) /\ stock it < min_stock_level /\
        in_category category it /\ e = low_stock_entry item_id it.
Proof.
  exists (low_stock_items category min_stock_level (inventory s)).
  split; [reflexivity | apply low_stock_items_In].
Qed.

Lemma In_set_NoDup {V} k (v v' : V) (d : Dict.t V) :
  NoDup (Dict.keys d) -> In (k, v) (Dict.set k v' d) -> v = v'.
Proof.
  induction d as [|[k0 v0] d IH]; simpl.
  - intros _ [[= ->] | []]. reflexivity.
  - intros Hnd. apply NoDup_cons in Hnd as [Hk0 Hnd].
    destruct (String.eqb k k0) eqn:E.
    + apply String.eqb_eq in E. subst k0. intros [[= ->] | Hin]; [reflexivity|].
      exfalso. apply Hk0. apply list_elem_of_In.
      change k with (fst (k, v)). now apply in_map.
    + apply String.eqb_neq in E. intros [[= -> ->] | Hin]; [congruence | auto].
Qed.

(** X9. The restock sequence: once [update_inventory_count] has brought the
    stock of an item up to the threshold or above, the item is no longer
    among the items needing restock (in an inventory whose identifiers are
    distinct, as in every dictionary). *)
Theorem restocked_item_leaves_low_stock_list
    s item_id item quantity_change reason category min_stock_level :
  NoDup (Dict.keys (inventory s)) ->
  Dict.get item_id (inventory s) = Some item ->
  min_stock_level <= stock item + quantity_change ->
  forall e,
    In e (low_stock_items category min_stock_level
            (inventory (snd (update_inventory_count item_id quantity_change reason s)))) ->
    field "item_id" e <> Some (JStr item_id).
Proof.
  intros Hnd Hi Hmin e He.
  rewrite (update_inventory_count_known _ _ _ _ _ Hi) in He. simpl in He.
  apply low_stock_items_In in He as (k & it & Hin & Hlow & _ & ->).
  simpl. intros [= ->].
  apply In_set_NoDup in Hin; [|exact Hnd]. subst it. simpl in Hlow. lia.
Qed.

(** SKU003 has stock 8: it is listed under threshold 9, and after five more
    arrive no entry of the list is SKU003. *)
Lemma restocked_item_leaves_low_stock_list_witness :
  List.Forall (fun e => field "item_id" e <> Some (JStr "SKU003"))
    (low_stock_items None 9
       (inventory (snd (update_inventory_count "SKU003" 5 "Restock" initial_state)))).
Proof.
  apply List.Forall_forall.
  apply (restocked_item_leaves_low_stock_list initial_state "SKU003"
           (sku "Adventure Granola" 8 "Breakfast" "A2" 0) 5 "Restock" None 9).
  - apply (bool_decide_unpack _). vm_compute. exact I.
  - reflexivity.
  - simpl. lia.
Defined.

(** X10. What [update_inventory_count] reports as [new_stock] is what a
    following [check_item_stock] reports as [stock], under the same name. *)
Theorem check_item_stock_reports_update s item_id item quantity_change reason :
  Dict.get item_id (inventory s) = Some item ->
  let updated := update_inventory_count item_id quantity_change reason s in
  let checked := fst (check_item_stock item_id (snd updated)) in
  field "stock" checked = field "new_stock" (fst updated) /\
  field "stock" checked = Some (JNum (Z.max 0 (stock item + quantity_change))) /\
  field "name" checked = Some (JStr (name item)) /\
  has_key "error" checked = false.
Proof.
  intros H. cbv zeta. rewrite (update_inventory_count_known _ _ _ _ _ H). simpl.
  unfold check_item_stock. run_store. rewrite get_set_eq. simpl. auto.
Qed.

Lemma check_item_stock_reports_update_witness :
  field "stock"
    (fst (check_item_stock "SKU003"
            (snd (update_inventory_count "SKU003" 5 "Restock" initial_state))))
  = Some (JNum 13).
Proof.
  exact (proj1 (proj2
           (check_item_stock_reports_update initial_state "SKU003"
              (sku "Adventure Granola" 8 "Breakfast" "A2" 0) 5 "Restock" eq_refl))).
Defined.

(** One poll moves the rank of a status by zero or one. *)
Lemma advance_status_rank st draw n :
  Spec.status_rank st = Some n ->
  Spec.status_rank (advance_status st draw) = Some n \/
  Spec.status_rank (advance_status st draw) = Some (S n).
Proof.
  unfold advance_status.
  destruct (String.eqb st "Pending") eqn:Ep.
  - apply String.eqb_eq in Ep. subst st. simpl.
    destruct (PrimFloat.ltb pending_threshold draw); simpl; intros [= <-]; auto.
  - simpl. destruct (String.eqb st "In Transit") eqn:Et; [|auto].
    apply String.eqb_eq in Et. subst st. simpl.
    destruct (PrimFloat.ltb transit_threshold draw); simpl; intros [= <-]; auto.
Qed.

Lemma advance_status_delivered draw : advance_status "Delivered" draw = "Delivered".
Proof. reflexivity. Qed.

(** X11. A request that [request_item_from_storage] has just created is
    found by [check_delivery_status] under the returned identifier: the poll
    is not an error, reports Pending or In Transit, and its details are the
    item, quantity and target shelf of the request. *)
Theorem new_request_can_be_polled s item_id quantity target draw item poll_draw :
  Dict.get item_id (inventory s) = Some item ->
  Dict.mem target (shelf_layouts s) = true ->
  0 < quantity ->
  let created := request_item_from_storage item_id quantity target draw s in
  let request_id := "REQ" +:+ Py.str_of_Z draw in
  let poll := fst (check_delivery_status request_id poll_draw (snd created)) in
  field "request_id" (fst created) = Some (JStr request_id) /\
  has_key "error" poll = false /\
  exists st,
    (st = "Pending" \/ st = "In Transit") /\
    field "status" poll = Some (JStr st) /\
    field "details" poll = Some (request_json (mkRequest item_id quantity target st)).
Proof.
  intros Hi Ht Hq. cbv zeta.
  rewrite (request_item_from_storage_ok _ _ _ _ _ _ Hi Ht Hq). simpl.
  rewrite (check_delivery_status_known _ _ _
             (mkRequest item_id quantity target "Pending"))
    by (simpl; apply get_set_eq).
  simpl. split; [reflexivity|]. split; [reflexivity|].
  exists (advance_status "Pending" poll_draw). repeat split.
  unfold advance_status. simpl.
  destruct (PrimFloat.ltb pending_threshold poll_draw); auto.
Qed.

Lemma new_request_can_be_polled_witness :
  has_key "error"
    (fst (check_delivery_status "REQ1234" 0.25%float
            (snd (request_item_from_storage "SKU004" 10 "C3" 1234 initial_state))))
  = false.
Proof.
  exact (proj1 (proj2
           (new_request_can_be_polled initial_state "SKU004" 10 "C3" 1234
              (sku "Fabrikam Pancake Mix" 10 "Breakfast" "A2" 1) 0.25%float
              eq_refl eq_refl eq_refl))).
Defined.

Lemma with_status_same r : with_status (status r) r = r.
Proof. now destruct r. Qed.

(** X12. However often a request is polled and whatever the generator
    draws, its status never moves backward; once Delivered, polling changes
    nothing at all; polling never touches the item, quantity or target of
    the request, any other request, the inventory or the shelves. *)
Theorem repeated_polls_only_move_forward draws : forall s request_id request,
  Dict.get request_id (storage_requests s) = Some request ->
  let s' := poll_all request_id draws s in
  exists st',
    Dict.get request_id (storage_requests s') = Some (with_status st' request) /\
    (forall n, Spec.status_rank (status request) = Some n ->
               exists n', Spec.status_rank st' = Some n' /\ (n <= n')%nat) /\
    (status request = "Delivered" -> s' = s) /\
    (forall k, k <> request_id ->
               Dict.get k (storage_requests s') = Dict.get k (storage_requests s)) /\
    inventory s' = inventory s /\ shelf_layouts s' = shelf_layouts s.
Proof.
  induction draws as [|draw draws IH]; intros s request_id request H; cbv zeta; simpl.
  - exists (status request). rewrite with_status_same. repeat split; eauto.
  - rewrite (check_delivery_status_known _ _ _ _ H). simpl.
    set (s1 := with_storage_requests _ s).
    destruct (IH s1 request_id (with_status (advance_status (status request) draw) request))
      as (st' & Hget & Hrank & Hdel & Hother & Hinv & Hsh).
    { unfold s1. simpl. apply get_set_eq. }
    exists st'. split; [exact Hget|]. split; [|split; [|split; [|split]]].
    + intros n Hn.
      destruct (advance_status_rank _ draw _ Hn) as [H1 | H1];
        destruct (Hrank _ H1) as (n' & Hn' & Hle); exists n'; split; auto; lia.
    + intros Hd. rewrite Hd in *. simpl in Hdel. rewrite Hdel by reflexivity.
      unfold s1. rewrite Hd, advance_status_delivered.
      rewrite <- Hd, with_status_same, (set_get_id _ _ _ H). now destruct s.
    + intros k Hk. rewrite (Hother k Hk). unfold s1. simpl.
      now apply get_set_ne.
    + exact Hinv.
    + exact Hsh.
Qed.

(** Three polls of a pending request. *)
Lemma repeated_polls_only_move_forward_witness :
  let s := mkState [] [] [("REQ1234", mkRequest "SKU004" 10 "C3" "Pending")] in
  let s' := poll_all "REQ1234" [0.75%float; 0.25%float; 0.75%float] s in
  exists st',
    Dict.get "REQ1234" (storage_requests s') =
      Some (with_status st' (mkRequest "SKU004" 10 "C3" "Pending")) /\
    inventory s' = inventory s.
Proof.
  cbv zeta.
  destruct (repeated_polls_only_move_forward [0.75%float; 0.25%float; 0.75%float]
              (mkState [] [] [("REQ1234", mkRequest "SKU004" 10 "C3" "Pending")])
              "REQ1234" (mkRequest "SKU004" 10 "C3" "Pending") eq_refl)
    as (st' & Hget & _ & _ & _ & Hinv & _).
  exists st'. split; [exact Hget | exact Hinv].
Defined.

(** *** The rendered shelf table *)

Lemma length_append (a b : string) :
  String.length (a +:+ b) = (String.length a + String.length b)%nat.
Proof. induction a as [|c a IH]; simpl; [reflexivity | now rewrite IH]. Qed.


Lemma length_take n (a : string) : (String.length (Py.take n a) <= n)%nat.
Proof.
  unfold Py.take. revert a. induction n as [|n IH]; intros [|c a]; simpl; try lia.
  specialize (IH a). lia.
Qed.


(** X20. [identify_and_restock_item_from_image] is all or nothing.  When
    it returns an error (empty image data, unknown item, item without a
    location, no usable slot, or a quantity that is not positive) none of
    the tables has changed.  When it does not, the item is known, its stock
    is now [max 0 (old + quantity)] with its other fields as they were, and
    the slot the restock was recorded at, on the item's shelf, holds the
    item. *)
Theorem image_restock_all_or_nothing s image_data quantity :
  let call := identify_and_restock_item_from_image image_data quantity s in
  (is_error (fst call) -> snd call = s) /\
  (has_key "error" (fst call) = false ->
   exists item shelf_id (r p : nat),
     Dict.get image_data (inventory s) = Some item /\
     location_id item = Some shelf_id /\
     0 < quantity /\
     (exists item',
        Dict.get image_data (inventory (snd call)) = Some item' /\
        stock item' = Z.max 0 (stock item + quantity) /\
        item' = mkItem (name item) (Z.max 0 (stock item + quantity)) (category item)
                  (location_id item) (position item)) /\
     Spec.slot_at (shelf_layouts (snd call)) shelf_id (Z.of_nat r) (Z.of_nat p)
       = Some (Some image_data)).
Proof.
  cbv zeta. unfold is_error.
  assert (Hmark : forall sh si pi,
            let m := mark_item_restocked image_data sh si pi quantity s in
            (has_key "error" (fst m) = true /\ snd m = s) \/
            (has_key "error" (fst m) = false /\
             Spec.valid_restock s image_data sh si pi quantity = true)).
  { intros sh si pi. cbv zeta.
    destruct (Spec.valid_restock s image_data sh si pi quantity) eqn:V.
    - destruct (mark_item_restocked_valid _ _ _ _ _ _ V) as (it & Hit & ->). cbv zeta.
      rewrite (update_inventory_count_known _ _ _ _ it) by exact Hit. now right.
    - destruct (mark_item_restocked_invalid _ _ _ _ _ _ V) as (msg & ->). now left. }
  destruct (Py.truthy image_data) eqn:Ht.
  2:{ unfold identify_and_restock_item_from_image. rewrite Ht. simpl.
      split; [reflexivity | discriminate]. }
  destruct (Dict.get image_data (inventory s)) as [item|] eqn:Hi.
  2:{ unfold identify_and_restock_item_from_image. rewrite Ht. simpl. run_store.
      rewrite (find_item_location_unknown _ _ Hi). simpl.
      split; [reflexivity | discriminate]. }
  destruct (location_id item) as [loc|] eqn:Hloc.
  2:{ unfold identify_and_restock_item_from_image, find_item_location.
      rewrite Ht. simpl. run_store. rewrite Hi, Hloc. simpl.
      split; [reflexivity | discriminate]. }
  destruct (Py.truthy loc) eqn:Htl.
  2:{ unfold identify_and_restock_item_from_image, find_item_location.
      rewrite Ht. simpl. run_store. rewrite Hi, Hloc, Htl. simpl.
      split; [reflexivity | discriminate]. }
  rewrite (identify_located _ _ _ _ _ Ht Hi Hloc Htl).
  destruct (resolve_slot image_data loc (shelf_layouts s)) as [si pi] eqn:Hres.
  destruct ((si =? -1) || (pi =? -1)) eqn:Hfound; simpl;
    [split; [reflexivity | discriminate]|].
  destruct (Hmark loc si pi) as [[He Hs] | [He V]];
    destruct (mark_item_restocked image_data loc si pi quantity s) as [rd s'] eqn:Hm;
    simpl in *; rewrite He; simpl.
  - split; [auto | discriminate].
  - split; [discriminate|]. intros _.
    destruct (mark_item_restocked_valid _ _ _ _ _ _ V) as (it & Hit & Hrun).
    rewrite Hm in Hrun. cbv zeta in Hrun.
    rewrite (update_inventory_count_known _ _ _ _ it) in Hrun by exact Hit.
    injection Hrun as _ ->. rewrite Hit in Hi. injection Hi as ->.
    unfold Spec.valid_restock in V.
    destruct (Dict.get loc (shelf_layouts s)) as [layout|] eqn:Hl;
      [|now rewrite andb_false_r in V].
    destruct (layout !! Z.to_nat si) as [row|] eqn:Hr;
      [|now rewrite !andb_false_r in V].
    exists item, loc, (Z.to_nat si), (Z.to_nat pi).
    split; [reflexivity|]. split; [exact Hloc|]. split; [lia|].
    split; [simpl; rewrite get_set_eq; eexists; split; [reflexivity|];
            split; reflexivity|]. simpl.
    rewrite !Z2Nat.id by lia.
    eapply write_slot_read; eauto. lia.
Qed.

End StoreExtras.

(* ===================================================================== *)
(** ** The reducer: further properties *)
(* ===================================================================== *)

Module ChatExtras.
Import Chat ChatSpec ChatExtraSpec ChatFacts.

(** *** The transcript only grows *)

Lemma kept_refl m : kept m m.
Proof. split; auto. Qed.

Lemma kept_trans a b c : kept a b -> kept b c -> kept a c.
Proof.
  intros [Hr1 H1] [Hr2 H2]. split; [congruence|].
  destruct H1 as [-> | H1]; [exact H2 | now right].
Qed.

Lemma Forall2_kept_refl l : Forall2 kept l l.
Proof. induction l; constructor; auto using kept_refl. Qed.

Lemma grows_refl conv : grows conv conv.
Proof. exists conv, []. split; [now rewrite app_nil_r | apply Forall2_kept_refl]. Qed.

Lemma grows_app conv added : grows conv (conv ++ added).
Proof. exists conv, added. split; [reflexivity | apply Forall2_kept_refl]. Qed.

Lemma grows_trans c1 c2 c3 : grows c1 c2 -> grows c2 c3 -> grows c1 c3.
Proof.
  intros (o1 & a1 & -> & H1) (o2 & a2 & -> & H2).
  apply Forall2_app_inv_l in H2 as (k1 & k2 & Hk1 & Hk2 & ->).
  exists k1, (k2 ++ a2). split; [now rewrite app_assoc|].
  clear Hk2. revert k1 Hk1. induction H1; intros k1 Hk1.
  - apply Forall2_nil_inv_l in Hk1 as ->. constructor.
  - apply Forall2_cons_inv_l in Hk1 as (z & k1' & Hz & Hk1' & ->).
    constructor; [eapply kept_trans; eauto | auto].
Qed.

(** Rewriting in place an entry that is a bubble or a plain assistant
    entry, without changing its role. *)
Lemma grows_rewrite l1 x x' l2 :
  role x' = role x -> has_metadata x = true \/ plain_assistant x = true ->
  grows (l1 ++ x :: l2) (l1 ++ x' :: l2).
Proof.
  intros Hr Hx. exists (l1 ++ x' :: l2), []. split; [now rewrite app_nil_r|].
  apply Forall2_app; [apply Forall2_kept_refl|].
  constructor; [split; auto | apply Forall2_kept_refl].
Qed.

(** A computation of the reducer under which the transcript only grows,
    whether it completes or raises. *)
Definition growing {A} (m : R A) : Prop :=
  forall s, grows (conversation s) (conversation (snd (m s))).

Lemma growing_ret {A} (a : A) : growing (mret a).
Proof. intros s. apply grows_refl. Qed.

Lemma growing_raise {A} : growing (@raise A).
Proof. intros s. apply grows_refl. Qed.

Lemma growing_read {A} (f : State -> A) : growing (read f).
Proof. intros s. apply grows_refl. Qed.

Lemma growing_lift {A} (o : option A) : growing (lift o).
Proof. destruct o; [apply growing_ret | apply growing_raise]. Qed.

Lemma growing_set_active tbl : growing (set_active tbl).
Proof. intros s. apply grows_refl. Qed.

Lemma growing_bind {A B} (m : R A) (k : A -> R B) :
  growing m -> (forall a, growing (k a)) -> growing (m ≫= k).
Proof.
  intros Hm Hk s. unfold mbind, R_bind. specialize (Hm s).
  destruct (m s) as [[a|] s1]; simpl in *; [|exact Hm].
  eapply grows_trans; [exact Hm | apply Hk].
Qed.

Lemma growing_create_tool_bubble tool_name content call_id st :
  growing (create_tool_bubble tool_name content call_id st).
Proof.
  intros s. destruct tool_name as [tool_name|]; [|apply grows_refl].
  destruct (create_tool_bubble_spec tool_name content call_id st s)
    as [[_ ->] | (_ & conv' & -> &
                  [(l1 & x & l2 & Hc & Hx & _ & ->) | [_ ->]])]; simpl.
  - apply grows_refl.
  - rewrite Hc. apply grows_rewrite; [reflexivity|]. left.
    unfold is_bubble in Hx. now apply andb_true_iff in Hx as [Hx _].
  - apply grows_app.
Qed.

Lemma growing_for_each {A} (body : A -> R unit) l :
  (forall x, growing (body x)) -> growing (for_each body l).
Proof.
  intros Hb. induction l as [|x l IH]; simpl; [apply growing_ret|].
  apply growing_bind; auto.
Qed.

Lemma last_removelast {A} (l : list A) x : last l = Some x -> l = removelast l ++ [x].
Proof.
  intros H. apply last_Some in H as [l' ->]. now rewrite removelast_last.
Qed.

Lemma growing_on_message_text chunks : growing (on_message_text chunks).
Proof.
  unfold on_message_text. destruct (Py.truthy (chunks_text chunks));
    [|apply growing_ret].
  intros s. unfold mbind, R_bind, read. simpl.
  destruct (last (conversation s)) as [last_msg|] eqn:Hl; [|apply grows_app].
  destruct (negb (String.eqb (role last_msg) "assistant") || has_metadata last_msg)
    eqn:Hc; [apply grows_app|].
  unfold lift. destruct (content_iadd (content last_msg) (chunks_text chunks));
    simpl; [|apply grows_refl].
  rewrite (last_removelast _ _ Hl) at 1.
  apply grows_rewrite; [reflexivity|]. right. unfold plain_assistant.
  apply orb_false_iff in Hc as [Hr Hm]. apply negb_false_iff in Hr.
  now rewrite Hr, Hm.
Qed.

(** The registered handler only grows the transcript as well. *)
Lemma on_message_delta_grows id chunks h conv :
  grows conv (snd (on_message_delta id chunks h conv)).
Proof.
  unfold on_message_delta.
  destruct (Py.truthy (chunks_text chunks)); [|apply grows_refl].
  destruct conv as [|c0 conv0]; [apply grows_refl|].
  set (conv := c0 :: conv0).
  destruct (update_last plain_assistant _ conv) as [conv'|] eqn:E.
  - apply update_last_Some in E as (l1 & x & l2 & -> & Hp & _ & ->). simpl.
    apply grows_rewrite; [reflexivity | now right].
  - destruct (last conv) as [last_msg|]; [|apply grows_app].
    destruct (negb (String.eqb (role last_msg) "assistant") || has_metadata last_msg);
      [apply grows_app | apply grows_refl].
Qed.

Lemma on_thread_message_grows message h conv :
  grows conv (snd (on_thread_message message h conv)).
Proof.
  unfold on_thread_message.
  destruct (String.eqb (tm_role message) "assistant" &&
            String.eqb (tm_status message) "completed"); [|apply grows_refl].
  simpl. destruct (last conv) as [last_msg|] eqn:Hl; [|apply grows_refl].
  destruct (String.eqb (role last_msg) "assistant" && negb (has_metadata last_msg))
    eqn:Hp.
  - destruct (negb (content_is (content last_msg) _)); [|apply grows_refl].
    rewrite (last_removelast _ _ Hl) at 1.
    apply grows_rewrite; [reflexivity | now right].
  - destruct (Py.truthy _); [|apply grows_refl].
    destruct (negb (String.eqb (role last_msg) "assistant") || _);
      [apply grows_app | apply grows_refl].
Qed.

Lemma handle_grows item h conv : grows conv (snd (handle item h conv)).
Proof.
  destruct item; simpl;
    auto using grows_refl, on_message_delta_grows, on_thread_message_grows.
Qed.

Ltac growing_step :=
  first [ apply growing_ret | apply growing_raise | apply growing_read
        | apply growing_lift | apply growing_set_active
        | apply growing_create_tool_bubble
        | apply growing_bind; [|intros ?] ].

Section Growing.
Variable json_loads : string -> option json.
Variable py_repr : json -> string.

Lemma growing_on_tool_call_delta tcall : growing (on_tool_call_delta tcall).
Proof.
  unfold on_tool_call_delta, forget_call.
  repeat first [ growing_step | case_match ].
Qed.

Lemma growing_on_tool_call_end step tcall :
  growing (on_tool_call_end json_loads py_repr step tcall).
Proof.
  unfold on_tool_call_end, forget_call.
  repeat first [ growing_step | case_match ].
Qed.

Lemma growing_process_event item : growing (process_event json_loads py_repr item).
Proof.
  destruct item; simpl; repeat case_match;
    auto using growing_ret, growing_on_message_text, growing_for_each,
               growing_on_tool_call_delta, growing_on_tool_call_end.
Qed.

Lemma consume_grows stream_items : forall h s,
  Forall (grows (conversation s))
    (fst (consume json_loads py_repr stream_items h s)) /\
  grows (conversation s)
    (conversation (snd (snd (consume json_loads py_repr stream_items h s)))).
Proof.
  induction stream_items as [|item rest IH]; intros h s; simpl.
  - split; [constructor | apply grows_refl].
  - pose proof (handle_grows item h (conversation s)) as Hh.
    destruct (handle item h (conversation s)) as [h' conv']. simpl in Hh.
    pose proof (growing_process_event item (mkState conv' (active_tool_calls s))) as Hg.
    simpl in Hg.
    assert (Hs1 : grows (conversation s)
                    (conversation
                       (snd (process_event json_loads py_repr item
                               (mkState conv' (active_tool_calls s))))))
      by (eapply grows_trans; eauto).
    destruct (process_event json_loads py_repr item _) as [[[]|] s1]; simpl in *.
    + destruct (IH h' s1) as [Hy Hs].
      destruct (consume json_loads py_repr rest h' s1) as [yields [h2 s2]]; simpl in *.
      split; [constructor; [exact Hs1|] | eapply grows_trans; eauto].
      eapply Forall_impl; [exact Hy|]. intros y. now apply grows_trans.
    + destruct (IH h' s1) as [Hy Hs]. split; [|eapply grows_trans; eauto].
      eapply Forall_impl; [exact Hy|]. intros y. now apply grows_trans.
Qed.

End Growing.

(** An entry that is neither a bubble nor a plain assistant entry is found
    unchanged at its place in every later transcript. *)
Lemma grows_fixed_entry history u y :
  grows (history ++ [u]) y ->
  has_metadata u = false -> plain_assistant u = false ->
  y !! length history = Some u.
Proof.
  intros (old & added & -> & HF) Hm Hp.
  apply Forall2_app_inv_l in HF as (o1 & o2 & H1 & H2 & ->).
  apply Forall2_cons_inv_l in H2 as (u' & o3 & [_ Hu] & H3 & ->).
  apply Forall2_nil_inv_l in H3 as ->.
  destruct Hu as [-> | [Hu | Hu]]; [|congruence..].
  rewrite (Forall2_length _ _ _ H1), <- app_assoc. simpl.
  now apply list_lookup_middle.
Qed.

(** X14. Every transcript that an accepted turn yields, whether sending
    fails, the stream fails, items raise or all goes well, has the user's
    message unchanged at the place where the turn put it, after the history;
    and it keeps every entry of the history at its place with its role, the
    entries that are neither bubbles nor plain assistant entries
    unchanged. *)
Theorem turn_keeps_user_message
    json_loads py_repr current_time last_message_sent_time user_message history
    send stream :
  PrimFloat.ltb (PrimFloat.sub current_time last_message_sent_time) 2%float = false ->
  Py.truthy (Py.strip user_message) = true ->
  Forall (fun y =>
            grows (history ++ [text_message "user" user_message]) y /\
            y !! length history = Some (text_message "user" user_message))
         (fst (azure_store_chat json_loads py_repr current_time last_message_sent_time
                 user_message history send stream)).
Proof.
  intros Hd Hm. unfold azure_store_chat. rewrite Hd, Hm. cbn [negb].
  set (conv := history ++ [text_message "user" user_message]).
  assert (Hy : forall y, grows conv y ->
                 grows conv y /\ y !! length history = Some (text_message "user" user_message)).
  { intros y Hg. split; [exact Hg|]. now apply (grows_fixed_entry history _ y Hg). }
  destruct send as [|ex]; cbn [fst].
  - constructor; [apply Hy, grows_refl|].
    unfold run_stream.
    destruct (consume_grows json_loads py_repr (items stream) new_handler
                (mkState conv ∅)) as [Hyields Hfinal].
    destruct (consume json_loads py_repr (items stream) new_handler (mkState conv ∅))
      as [yields [h s]].
    simpl in *. apply Forall_app. split.
    + eapply Forall_impl; [exact Hyields | exact Hy].
    + constructor; [|constructor]. apply Hy.
      destruct (failure stream); [|exact Hfinal].
      eapply grows_trans; [exact Hfinal | apply grows_app].
  - constructor; [apply Hy, grows_refl|].
    constructor; [apply Hy, grows_app | constructor].
Qed.

(** A turn in which an item raises and the stream then fails. *)
Lemma turn_keeps_user_message_witness :
  Forall (fun y =>
            grows ([text_message "assistant" "Welcome"] ++ [text_message "user" "Hi"]) y /\
            y !! length [text_message "assistant" "Welcome"]
              = Some (text_message "user" "Hi"))
         (fst (azure_store_chat not_json no_repr 10%float 0%float "Hi"
                 [text_message "assistant" "Welcome"] Sent
                 (mkStream [completed_call "call_1" "OK"; message_delta "m" [Some "Hel"]]
                    (Some "reset")))).
Proof.
  exact (turn_keeps_user_message not_json no_repr 10%float 0%float "Hi"
           [text_message "assistant" "Welcome"] Sent
           (mkStream [completed_call "call_1" "OK"; message_delta "m" [Some "Hel"]]
              (Some "reset"))
           eq_refl eq_refl).
Defined.

(** *** Failed steps *)

Lemma create_once tool_name content call_id st s k :
  let r := fst (create_tool_bubble (Some tool_name) content call_id st s) in
  let s' := snd (create_tool_bubble (Some tool_name) content call_id st s) in
  ((length (bubbles k (conversation s)) <= 1)%nat ->
   (length (bubbles k (conversation s')) <= 1)%nat) /\
  (once_with st k (conversation s) -> once_with st k (conversation s')) /\
  (r = Some tt -> bubble_key call_id = k ->
   (length (bubbles k (conversation s)) <= 1)%nat ->
   once_with st k (conversation s')).
Proof.
  cbv zeta.
  destruct (create_tool_bubble_bubbles tool_name content call_id st s k)
    as (_ & _ & [[E Hne] | [(b & x & x' & E & E' & Hst) | (E & x' & E' & Hst)]]).
  - unfold once_with. rewrite E. repeat split; auto.
    intros Hr Hk. now apply Hne in Hr.
  - unfold once_with. rewrite E, E', !length_app. simpl. repeat split; auto.
    + intros (m & Hm & _). apply snoc_singleton in Hm as [-> _]. eauto.
    + intros _ _ Hle. assert (b = []) as -> by (destruct b; simpl in *; [auto | lia]).
      eauto.
  - unfold once_with. rewrite E, E'. simpl.
    repeat split; eauto; intros (m & [=] & _).
Qed.

Section Failed.
Variable json_loads : string -> option json.
Variable py_repr : json -> string.

Lemma on_tool_call_end_failed step tcall s k :
  rs_status step = "failed" ->
  let r := fst (on_tool_call_end json_loads py_repr step tcall s) in
  let s' := snd (on_tool_call_end json_loads py_repr step tcall s) in
  r = Some tt /\
  ((length (bubbles k (conversation s)) <= 1)%nat ->
   (length (bubbles k (conversation s')) <= 1)%nat) /\
  (once_with "error" k (conversation s) -> once_with "error" k (conversation s')) /\
  (bubble_key (tc_id tcall) = k ->
   (length (bubbles k (conversation s)) <= 1)%nat ->
   once_with "error" k (conversation s')) /\
  (forall c, tc_id tcall = Some c -> active_tool_calls s' !! c = None) /\
  (forall c, active_tool_calls s !! c = None -> active_tool_calls s' !! c = None).
Proof.
  intros Hst. cbv zeta. unfold on_tool_call_end. rewrite Hst. simpl.
  unfold mbind, R_bind, read. simpl.
  set (func_name := tracked_name (tc_id tcall) (active_tool_calls s)).
  set (msg := JStr _).
  pose proof (create_once func_name msg (tc_id tcall) "error" s k) as (Hle & Honce & Hset).
  pose proof (create_tool_bubble_bubbles func_name msg (tc_id tcall) "error" s k)
    as (_ & Htbl & _).
  destruct (create_tool_bubble_spec func_name msg (tc_id tcall) "error" s)
    as [[Hbad _] | (_ & conv' & Hrun & _)]; [discriminate|].
  rewrite Hrun in *. simpl in *.
  unfold forget_call, mbind, R_bind, read. simpl.
  destruct (tc_id tcall) as [c0|]; simpl; repeat split; auto; try discriminate.
  - intros c [= ->]. apply lookup_delete_eq.
  - intros c Hc. rewrite lookup_delete_None. auto.
Qed.

Lemma for_each_failed step k : forall tcalls s,
  rs_status step = "failed" ->
  let r := fst (for_each (on_tool_call_end json_loads py_repr step) tcalls s) in
  let s' := snd (for_each (on_tool_call_end json_loads py_repr step) tcalls s) in
  r = Some tt /\
  ((length (bubbles k (conversation s)) <= 1)%nat ->
   (length (bubbles k (conversation s')) <= 1)%nat) /\
  (once_with "error" k (conversation s) -> once_with "error" k (conversation s')) /\
  (forall tcall, In tcall tcalls -> bubble_key (tc_id tcall) = k ->
     (length (bubbles k (conversation s)) <= 1)%nat ->
     once_with "error" k (conversation s')) /\
  (forall tcall c, In tcall tcalls -> tc_id tcall = Some c ->
     active_tool_calls s' !! c = None) /\
  (forall c, active_tool_calls s !! c = None -> active_tool_calls s' !! c = None).
Proof.
  induction tcalls as [|tc rest IH]; intros s Hst; cbv zeta; simpl.
  - repeat split; auto; intros; simpl in *; contradiction.
  - unfold mbind, R_bind.
    pose proof (on_tool_call_end_failed step tc s k Hst)
      as (Hr1 & Hle1 & Ho1 & Hs1 & Hd1 & Hn1).
    destruct (on_tool_call_end json_loads py_repr step tc s) as [[[]|] s1];
      simpl in *; [|discriminate].
    destruct (IH s1 Hst) as (Hr2 & Hle2 & Ho2 & Hs2 & Hd2 & Hn2).
    repeat split; auto.
    + intros tcall [<- | Hin] Hk Hle; [apply Ho2; auto | apply (Hs2 tcall); auto].
    + intros tcall c [<- | Hin] Hc; [apply Hn2; auto | apply (Hd2 tcall); auto].
Qed.

(** X15. A failed [tool_calls] step is always processed to its end, and
    for every call it lists: the call is no longer in the table of calls in
    flight, and, in a transcript that held at most one bubble with the
    call's key, there is now exactly one, marked error. *)
Theorem failed_step_marks_every_call step tcall s :
  rs_type step = Some "tool_calls" ->
  rs_status step = "failed" ->
  In tcall (rs_tool_calls step) ->
  let out := process_event json_loads py_repr (run_step step) s in
  fst out = Some tt /\
  (forall c, tc_id tcall = Some c -> active_tool_calls (snd out) !! c = None) /\
  ((length (bubbles (bubble_key (tc_id tcall)) (conversation s)) <= 1)%nat ->
   once_with "error" (bubble_key (tc_id tcall)) (conversation (snd out))).
Proof.
  intros Hty Hst Hin. cbv zeta. simpl. rewrite Hty. simpl.
  destruct (for_each_failed step (bubble_key (tc_id tcall)) (rs_tool_calls step) s Hst)
    as (Hr & _ & _ & Hs & Hd & _).
  split; [exact Hr|]. split.
  - intros c Hc. now apply (Hd tcall).
  - intros Hle. now apply (Hs tcall).
Qed.

End Failed.

(** A pending call whose step fails. *)
Lemma failed_step_marks_every_call_witness :
  let failed :=
    mkRunStep (Some "tool_calls")
      [mkToolCall (Some "call_1") (Some "function") None] "failed" (Some "timeout") in
  let s := snd (process_event not_json no_repr
                  (function_delta "call_1" "check_item_stock" None)
                  (mkState [text_message "user" "Hi"] ∅)) in
  let out := process_event not_json no_repr (run_step failed) s in
  fst out = Some tt /\
  (forall c, Some "call_1" = Some c -> active_tool_calls (snd out) !! c = None) /\
  ((length (bubbles "tool-call_1" (conversation s)) <= 1)%nat ->
   once_with "error" "tool-call_1" (conversation (snd out))).
Proof.
  cbv zeta.
  apply (failed_step_marks_every_call not_json no_repr
           (mkRunStep (Some "tool_calls")
              [mkToolCall (Some "call_1") (Some "function") None] "failed" (Some "timeout"))
           (mkToolCall (Some "call_1") (Some "function") None) _ eq_refl eq_refl).
  now left.
Defined.

(** *** Step deltas *)

Lemma bubble_key_truthy call_id :
  Py.truthy call_id = true -> bubble_key (Some call_id) = "tool-" +:+ call_id.
Proof. intros H. unfold bubble_key. simpl. now rewrite H. Qed.

(** X16. A step delta that announces a function call by identifier and
    name is always processed to its end.  At its first sighting the call is
    entered in the table as pending with the argument text of the delta, and
    a transcript with at most one bubble of its key then has exactly one,
    pending (a new one at the end when there was none).  At a later
    sighting the transcript is left as it is and the argument text is
    appended to what the table holds.  Other calls in the table are not
    touched. *)
Theorem function_delta_tracks_call
    (json_loads : string -> option json) (py_repr : json -> string)
    call_id func_name args s :
  Py.truthy call_id = true ->
  Py.truthy func_name = true ->
  let out := process_event json_loads py_repr (function_delta call_id func_name args) s in
  let key := "tool-" +:+ call_id in
  fst out = Some tt /\
  (forall c, c <> call_id ->
             active_tool_calls (snd out) !! c = active_tool_calls s !! c) /\
  match active_tool_calls s !! call_id with
  | None =>
      active_tool_calls (snd out) !! call_id
        = Some (mkToolInfo func_name (default "" args) "pending") /\
      ((length (bubbles key (conversation s)) <= 1)%nat ->
       once_with "pending" key (conversation (snd out))) /\
      (bubbles key (conversation s) = [] ->
       conversation (snd out) =
         conversation s ++
         [new_bubble (bubble_title func_name "pending") key "pending" (JStr "Running...")])
  | Some info =>
      conversation (snd out) = conversation s /\
      active_tool_calls (snd out) !! call_id
        = Some (mkToolInfo (name info)
                  (match args with
                   | Some a => arguments info +:+ a
                   | None => arguments info
                   end)
                  (status info))
  end.
Proof.
  intros Hc Hn. cbv zeta. unfold function_delta, process_event. simpl.
  unfold on_tool_call_delta. simpl. rewrite Hn, Hc. simpl.
  unfold mbind, R_bind, read. simpl.
  destruct (active_tool_calls s !! call_id) as [info|] eqn:Hin.
  - rewrite bool_decide_eq_false_2 by congruence. simpl.
    destruct args as [a|]; simpl.
    + rewrite Hin. simpl. repeat split.
      * intros c Hne. now apply lookup_insert_ne.
      * apply lookup_insert_eq.
    + repeat split. rewrite Hin. now destruct info.
  - rewrite bool_decide_eq_true_2 by reflexivity. simpl.
    set (s0 := mkState (conversation s)
                 (<[call_id := mkToolInfo func_name "" "pending"]> (active_tool_calls s))).
    pose proof (create_once func_name (JStr "Running...") (Some call_id) "pending" s0
                  ("tool-" +:+ call_id)) as (_ & _ & Hset).
    destruct (create_tool_bubble_spec func_name (JStr "Running...") (Some call_id)
                "pending" s0)
      as [[Hbad _] | (_ & conv' & Hrun & Hcases)]; [discriminate|].
    rewrite Hrun in *. simpl in *.
    rewrite (bubble_key_truthy _ Hc) in *.
    assert (Hnew : bubbles ("tool-" +:+ call_id) (conversation s) = [] ->
                   conv' = conversation s ++
                     [new_bubble (bubble_title func_name "pending") ("tool-" +:+ call_id)
                        "pending" (JStr "Running...")]).
    { intros Hnone.
      destruct Hcases as [(l1 & x & l2 & Hcv & Hx & _) | [_ ->]]; [|reflexivity].
      exfalso. unfold bubbles in Hnone. rewrite Hcv, List.filter_app in Hnone.
      simpl in Hnone. rewrite Hx in Hnone. now destruct (List.filter _ l1). }
    destruct args as [a|]; simpl.
    + rewrite lookup_insert_eq. simpl. repeat split; auto.
      * intros c Hne. rewrite lookup_insert_ne by auto. now apply lookup_insert_ne.
      * apply lookup_insert_eq.
    + repeat split; auto.
      * intros c Hne. now apply lookup_insert_ne.
      * apply lookup_insert_eq.
Qed.

(** The first delta of a call, then a second one with more argument text. *)
Lemma function_delta_tracks_call_witness :
  let first := process_event not_json no_repr
                 (function_delta "call_1" "check_item_stock" (Some "{"))
                 (mkState [text_message "user" "Hi"] ∅) in
  let out := process_event not_json no_repr
               (function_delta "call_1" "check_item_stock" (Some "}")) (snd first) in
  fst out = Some tt /\ conversation (snd out) = conversation (snd first) /\
  active_tool_calls (snd out) !! "call_1"
    = Some (mkToolInfo "check_item_stock" "{}" "pending").
Proof.
  cbv zeta.
  pose proof (function_delta_tracks_call not_json no_repr "call_1" "check_item_stock"
                (Some "}")
                (snd (process_event not_json no_repr
                        (function_delta "call_1" "check_item_stock" (Some "{"))
                        (mkState [text_message "user" "Hi"] ∅)))
                eq_refl eq_refl) as (H1 & _ & H3).
  vm_compute (active_tool_calls _ !! "call_1") in H3 at 1.
  destruct H3 as [H3 H4]. repeat split; assumption.
Defined.

(** *** Calls do not share bubbles *)

Lemma bubble_key_inj a b :
  Py.truthy a = true -> Py.truthy b = true ->
  bubble_key (Some a) = bubble_key (Some b) -> a = b.
Proof.
  intros Ha Hb. rewrite !bubble_key_truthy by assumption. simpl. now intros [=].
Qed.

(** X17. Two completed function calls with different non-empty
    identifiers have different bubble keys.  When both carry a non-empty
    output, the transcript holds at most one bubble of either key, and the
    two completed steps are processed one after the other, each to its end
    without raising, the transcript afterwards holds exactly one bubble per
    key, both done: the second report does not disturb the bubble of the
    first. *)
Theorem distinct_calls_get_distinct_bubbles
    (json_loads : string -> option json) (py_repr : json -> string)
    a b output_a output_b s :
  Py.truthy a = true -> Py.truthy b = true -> a <> b ->
  Py.truthy output_a = true -> Py.truthy output_b = true ->
  (length (bubbles (bubble_key (Some a)) (conversation s)) <= 1)%nat ->
  (length (bubbles (bubble_key (Some b)) (conversation s)) <= 1)%nat ->
  let first := process_event json_loads py_repr (completed_call a output_a) s in
  let second := process_event json_loads py_repr (completed_call b output_b) (snd first) in
  fst first = Some tt -> fst second = Some tt ->
  bubble_key (Some a) <> bubble_key (Some b) /\
  done_once (bubble_key (Some a)) (conversation (snd second)) /\
  done_once (bubble_key (Some b)) (conversation (snd second)).
Proof.
  intros Ha Hb Hne Hoa Hob Hla Hlb. cbv zeta. unfold completed_call. simpl.
  set (step_a := mkRunStep _ [mkToolCall (Some a) _ _] _ _).
  set (step_b := mkRunStep _ [mkToolCall (Some b) _ _] _ _).
  set (tc_a := mkToolCall (Some a) (Some "function") (Some (Some output_a))).
  set (tc_b := mkToolCall (Some b) (Some "function") (Some (Some output_b))).
  assert (Sa : shown_as (bubble_key (Some a)) tc_a).
  { split; [reflexivity|]. split; [eauto | reflexivity]. }
  assert (Sb : shown_as (bubble_key (Some b)) tc_b).
  { split; [reflexivity|]. split; [eauto | reflexivity]. }
  pose proof (for_each_completed json_loads py_repr step_a (bubble_key (Some a))
                [tc_a] s eq_refl) as [_ HsetA].
  pose proof (for_each_completed json_loads py_repr step_a (bubble_key (Some b))
                [tc_a] s eq_refl) as [[HleB _] _].
  intros H1.
  set (s1 := snd (for_each _ [tc_a] s)) in *.
  pose proof (for_each_completed json_loads py_repr step_b (bubble_key (Some b))
                [tc_b] s1 eq_refl) as [_ HsetB].
  pose proof (for_each_completed json_loads py_repr step_b (bubble_key (Some a))
                [tc_b] s1 eq_refl) as [[_ HkeepA] _].
  intros H2. split; [|split].
  - intros E. apply Hne. now apply bubble_key_inj.
  - apply HkeepA. apply (HsetA H1 tc_a); [now left | exact Sa | exact Hla].
  - apply (HsetB H2 tc_b); [now left | exact Sb | now apply HleB].
Qed.

Lemma distinct_calls_get_distinct_bubbles_witness :
  let s := mkState [text_message "user" "Hi"] ∅ in
  let first := process_event not_json no_repr (completed_call "call_1" "OK") s in
  let second := process_event not_json no_repr (completed_call "call_2" "OK") (snd first) in
  bubble_key (Some "call_1") <> bubble_key (Some "call_2") /\
  done_once (bubble_key (Some "call_1")) (conversation (snd second)) /\
  done_once (bubble_key (Some "call_2")) (conversation (snd second)).
Proof.
  cbv zeta.
  apply (distinct_calls_get_distinct_bubbles not_json no_repr "call_1" "call_2" "OK" "OK"
           (mkState [text_message "user" "Hi"] ∅));
    try reflexivity; try discriminate; vm_compute; lia.
Defined.

(** *** Finished messages *)

Lemma content_is_refl text : content_is (JStr text) text = true.
Proof. apply String.eqb_refl. Qed.

Lemma content_is_eq c text : content_is c text = true -> c = JStr text.
Proof.
  destruct c; simpl; try discriminate. intros H. apply String.eqb_eq in H. now subst.
Qed.

Lemma has_metadata_text r text : has_metadata (text_message r text) = false.
Proof. reflexivity. Qed.

Lemma has_metadata_set_content c m : has_metadata (set_content c m) = has_metadata m.
Proof. reflexivity. Qed.

(** X18. [EventHandler.on_thread_message] ignores messages that are not
    completed assistant messages.  For a completed assistant message it
    clears the handler's message identifier and buffer, only grows the
    transcript, and is idempotent: handling the same message again changes
    nothing.  When the message has text and the transcript is not empty, the
    transcript then ends in an assistant entry whose content is exactly the
    final text, whatever the deltas had left there. *)
Theorem on_thread_message_settles_final_text message h conv :
  let final := chunks_text (tm_content message) in
  let out := on_thread_message message h conv in
  let is_final :=
    String.eqb (tm_role message) "assistant" &&
    String.eqb (tm_status message) "completed" in
  (is_final = false -> out = (h, conv)) /\
  (is_final = true ->
   fst out = mkEventHandler None "" /\
   grows conv (snd out) /\
   on_thread_message message (fst out) (snd out) = out /\
   (Py.truthy final = true -> conv <> [] ->
    exists m, last (snd out) = Some m /\ role m = "assistant" /\
              content m = JStr final)).
Proof.
  cbv zeta. unfold on_thread_message.
  destruct (String.eqb (tm_role message) "assistant" &&
            String.eqb (tm_status message) "completed"); split; try discriminate;
    intros _; [|reflexivity].
  set (final := chunks_text (tm_content message)).
  cbn [fst snd]. split; [reflexivity|].
  destruct (last conv) as [last_msg|] eqn:Hl.
  2:{ rewrite Hl. repeat split; [apply grows_refl|].
      intros _ Hne. apply last_None in Hl. contradiction. }
  pose proof (last_removelast _ _ Hl) as Hconv.
  destruct (String.eqb (role last_msg) "assistant") eqn:Hr;
    destruct (has_metadata last_msg) eqn:Hm;
    destruct (Py.truthy final) eqn:Ht;
    destruct (content_is (content last_msg) final) eqn:Hc;
    simpl;
    rewrite ?Hl, ?last_snoc; simpl;
    rewrite ?has_metadata_set_content, ?Hr, ?Hm, ?Hc, ?has_metadata_text,
      ?String.eqb_refl; simpl;
    (split; [|split; [reflexivity|]]);
    try apply grows_refl; try apply grows_app; try discriminate;
    try (intros _ _; eexists; split; [reflexivity|]; split;
         [ first [reflexivity | apply String.eqb_eq; exact Hr]
         | first [reflexivity | now apply content_is_eq] ]).
  all: rewrite Hconv at 1; apply grows_rewrite; [reflexivity|]; right;
    unfold plain_assistant; now rewrite Hr, Hm.
Qed.

(** The final text replaces a doubled fragment left in the open entry. *)
Lemma on_thread_message_settles_final_text_witness :
  snd (on_thread_message (mkThreadMessage "assistant" "completed" [Some "Hello world"])
         (mkEventHandler (Some "msg_1") "Hello world")
         [text_message "user" "Hi"; text_message "assistant" "Hello worldld"])
  = [text_message "user" "Hi"; text_message "assistant" "Hello world"].
Proof.
  destruct (proj2 (on_thread_message_settles_final_text
                     (mkThreadMessage "assistant" "completed" [Some "Hello world"])
                     (mkEventHandler (Some "msg_1") "Hello world")
                     [text_message "user" "Hi"; text_message "assistant" "Hello worldld"])
                  eq_refl) as (_ & _ & _ & _).
  reflexivity.
Defined.

(** *** Rejected submissions *)

Lemma drop_white_all l : forallb Py.white l = true -> Py.drop_white l = [].
Proof.
  induction l as [|ch l IH]; simpl; [reflexivity|].
  intros H. apply andb_true_iff in H as [Hc Hrest]. rewrite Hc. auto.
Qed.

Lemma strip_blank text :
  forallb Py.is_space (Py.code_points text) = true -> Py.strip text = "".
Proof.
  unfold Py.code_points, Py.strip, Py.rstrip, Py.lstrip. intros H.
  assert (Hw : forallb Py.white (Py.chars text) = true).
  { revert H. induction (Py.chars text) as [|ch l IH]; simpl; [reflexivity|].
    intros H. apply andb_true_iff in H as [Hc Hrest].
    apply andb_true_iff. split; [exact Hc | auto]. }
  now rewrite (drop_white_all _ Hw).
Qed.

(** X21. A submission whose code points are all white space (the blank,
    the ASCII controls that count as white space, and the white space of
    Unicode such as U+0085, U+00A0, U+2003 or U+3000), or that arrives less
    than two seconds after the last accepted one, is dropped: the history
    is yielded once, unchanged, the message is not sent, the stream is not
    read, and the time of the last accepted submission stays. *)
Theorem blank_or_early_submission_is_dropped
    (json_loads : string -> option json) (py_repr : json -> string)
    current_time last_message_sent_time user_message history send stream :
  forallb Py.is_space (Py.code_points user_message) = true \/
  PrimFloat.ltb (PrimFloat.sub current_time last_message_sent_time) 2%float = true ->
  azure_store_chat json_loads py_repr current_time last_message_sent_time
    user_message history send stream
  = ([history], last_message_sent_time).
Proof.
  intros H. unfold azure_store_chat.
  destruct (PrimFloat.ltb _ _); [reflexivity|].
  destruct H as [H | H]; [|discriminate].
  now rewrite (strip_blank _ H).
Qed.

(** A blank, a no-break space (U+00A0, bytes 194 160) and an ideographic
    space (U+3000, bytes 227 128 128). *)
Lemma blank_or_early_submission_is_dropped_witness :
  let nbsp := String (ascii_of_nat 194) (String (ascii_of_nat 160) "") in
  let wide := String (ascii_of_nat 227)
                (String (ascii_of_nat 128) (String (ascii_of_nat 128) "")) in
  azure_store_chat not_json no_repr 10%float 0%float (" " +:+ nbsp +:+ wide)
    [text_message "user" "Hi"]
    Sent (mkStream [message_delta "m" [Some "Hel"]] None)
  = ([[text_message "user" "Hi"]], 0%float).
Proof.
  cbv zeta.
  apply (blank_or_early_submission_is_dropped not_json no_repr 10%float 0%float _
           [text_message "user" "Hi"] Sent (mkStream [message_delta "m" [Some "Hel"]] None)).
  left. vm_compute. reflexivity.
Defined.

(** *** The text shown for a completed call *)

Lemma length_truncated n text : (String.length (truncated n text) <= n + 3)%nat.
Proof.
  unfold truncated. rewrite StoreExtras.length_append.
  pose proof (StoreExtras.length_take n text).
  destruct (n <? String.length text)%nat; simpl; lia.
Qed.

(** X22. Choosing the text for the output of a completed function call
    never raises when the output is not JSON or decodes to an object, and
    always raises when it decodes to null, a boolean or a number (the item
    is then skipped).  For an output that is not JSON the text is the fixed
    prefix followed by at most 103 characters of the output. *)
Theorem completion_message_by_output_kind
    (json_loads : string -> option json) (py_repr : json -> string)
    func_name output_str :
  match json_loads output_str with
  | None =>
      exists shown,
        completion_message json_loads py_repr func_name output_str
          = Some (JStr ("Completed. Output (non-JSON): " +:+ shown)) /\
        (String.length shown <= 103)%nat
  | Some (JObj fields) =>
      exists message,
        completion_message json_loads py_repr func_name output_str = Some message
  | Some JNull | Some (JBool _) | Some (JNum _) =>
      completion_message json_loads py_repr func_name output_str = None
  | Some _ => True
  end.
Proof.
  unfold completion_message.
  destruct (json_loads output_str) as [[| | | | |fields]|]; simpl; auto.
  - now destruct (String.eqb func_name "get_shelf_layout").
  - now destruct (String.eqb func_name "get_shelf_layout").
  - now destruct (String.eqb func_name "get_shelf_layout").
  - unfold Dict.mem.
    destruct (String.eqb func_name "get_shelf_layout"); simpl;
      repeat (match goal with
              | |- context [Dict.get ?k fields] =>
                  destruct (Dict.get k fields) eqn:?; simpl
              end); eauto.
  - eexists. split; [reflexivity | apply (length_truncated 100)].
Qed.

End ChatExtras.

(* ===================================================================== *)
(** ** The example buttons: properties *)
(* ===================================================================== *)

Module MainExtras.
Import Main.

(** X19. [set_example_question] returns the label itself or one of four
    fixed sentences, and it is idempotent: what it returns is returned
    unchanged when passed through again, for every label. *)
Theorem set_example_question_idempotent question :
  let rewritten := set_example_question question in
  (rewritten = question \/
   In rewritten
      ["I need 10 units of SKU004 delivered to shelf C3.";
       "I just put 5 units of SKU002 on shelf A1, shelf 1, position 2.";
       "I found 1 damaged unit of SKU005.";
       "I scanned SKU001 with my device, I restocked 5 units."]) /\
  set_example_question rewritten = rewritten.
Proof.
  cbv zeta.
  assert (H : set_example_question question = question \/
              In (set_example_question question)
                 ["I need 10 units of SKU004 delivered to shelf C3.";
                  "I just put 5 units of SKU002 on shelf A1, shelf 1, position 2.";
                  "I found 1 damaged unit of SKU005.";
                  "I scanned SKU001 with my device, I restocked 5 units."]).
  { unfold set_example_question.
    repeat match goal with
           | |- context [if ?b then _ else _] => destruct b
           end; simpl; auto 8. }
  split; [exact H|].
  destruct H as [H | H]; [now rewrite !H|].
  simpl in H. destruct H as [<- | [<- | [<- | [<- | []]]]]; reflexivity.
Qed.

End MainExtras.
